(** * Store-Builder: the recommendation engine and its tenant data routing

    A shallow embedding of [server/recommendation-engine.ts], of the
    [MultiDatabaseManager] of [server/db.ts] and of the tables of
    [shared/store-schema.ts] they read and write, of the routes of
    [server/routes.ts] that call the engine, and of the cart of the
    storefront page.

    - SQL integers and JavaScript numbers that hold identifiers, counts and
      timestamps are [Z]; scores are exact rationals [Q] (the arithmetic of
      the source on doubles is read over the rationals, scores are compared
      with [==]).
    - An [async] function is a computation over the [World]: the main
      database, the store databases by connection string, the connection
      cache, the clock and the console.  It resolves or rejects.
    - A drizzle query is a pure function of the tables it reads.  SQL leaves
      the order of equal keys under ORDER BY open; the model keeps groups in
      the order of their first row and sorts stably.
    - A value interpolated into an [sql] template is a bound parameter of
      the statement.  Where the text of the statement cannot take the value
      (ids joined by commas for an integer column, a placeholder inside a
      quoted literal) the server rejects the statement and the query
      rejects, whatever the tables hold. *)

From stdpp Require Import base gmap strings.
From Stdlib Require Import List ZArith QArith Qminmax Qround Qabs Permutation Sorted Lia Lqa.
Import ListNotations.

Set Default Proof Using "Type".

(* ------------------------------------------------------------------ *)
(** ** List operations of SQL and of JavaScript arrays *)

Section ListOps.
Context {A : Type}.

(** ORDER BY and [Array.prototype.sort] with a consistent comparator:
    a stable sort.  [before x y] says that [x] may stand in front of [y]. *)
Fixpoint insertSorted (before : A -> A -> bool) (x : A) (l : list A) : list A :=
  match l with
  | [] => [x]
  | y :: t => if before x y then x :: y :: t else y :: insertSorted before x t
  end.

Definition stableSort (before : A -> A -> bool) (l : list A) : list A :=
  fold_right (insertSorted before) [] l.

(** ORDER BY key DESC. *)
Definition orderByDesc (key : A -> Z) : list A -> list A :=
  stableSort (fun x y => (key y <=? key x)%Z).

(** [array.map((item, index) => ...)]. *)
Fixpoint mapWithIndex {B : Type} (f : A -> nat -> B) (index : nat) (l : list A) : list B :=
  match l with
  | [] => []
  | x :: t => f x index :: mapWithIndex f (S index) t
  end.

Context `{EqDecision A}.

(** The distinct elements in the order of their first occurrence:
    [[...new Set(l)]], and the keys of GROUP BY. *)
Fixpoint distinct (l : list A) : list A :=
  match l with
  | [] => []
  | x :: t => x :: filter (fun y => negb (bool_decide (y = x))) (distinct t)
  end.
End ListOps.

(** GROUP BY key: every key with its rows. *)
Definition groupBy {A K : Type} `{EqDecision K} (key : A -> K) (rows : list A)
  : list (K * list A) :=
  map (fun k => (k, filter (fun r => bool_decide (key r = k)) rows))
      (distinct (map key rows)).

(** COUNT( * ) of a group. *)
Definition countRows {A : Type} (rows : list A) : Z := Z.of_nat (length rows).

(** [x IN (l)] is TRUE: [x] is not NULL and equals an element. *)
Definition sqlIn (x : option Z) (l : list (option Z)) : bool :=
  match x with
  | Some _ => existsb (fun y => bool_decide (y = x)) l
  | None => false
  end.

(** [x NOT IN (l)] is TRUE: [x] is not NULL, no element is NULL and none
    equals [x]. *)
Definition sqlNotIn (x : option Z) (l : list (option Z)) : bool :=
  match x with
  | Some _ =>
      forallb (fun y => match y with
                        | Some _ => negb (bool_decide (y = x))
                        | None => false
                        end) l
  | None => false
  end.

(** A JavaScript number-or-null used as a condition. *)
Definition truthy (id : option Z) : option Z :=
  match id with
  | Some n => if (n =? 0)%Z then None else Some n
  | None => None
  end.

Definition isTruthy (id : option Z) : bool :=
  match truthy id with Some _ => true | None => false end.

(* ------------------------------------------------------------------ *)
(** ** Tables (shared/schema.ts, shared/store-schema.ts) *)

Inductive Action := view | add_to_cart | purchase | remove_from_cart | search.

#[global] Instance Action_eq_dec : EqDecision Action.
Proof. solve_decision. Defined.

(** customer_behavior *)
Record CustomerBehaviorRow := {
  cb_customerId : option Z;
  cb_sessionId : string;
  cb_action : Action;
  cb_productId : option Z;
  cb_searchQuery : option string;
  cb_timestamp : Z;
  cb_deviceType : string;
  cb_source : string
}.

(** product_views *)
Record ProductViewRow := {
  pv_customerId : option Z;
  pv_sessionId : string;
  pv_productId : Z;
  pv_viewDuration : Z;
  pv_timestamp : Z
}.

(** recommendations *)
Record RecommendationRow := {
  rec_customerId : option Z;
  rec_sessionId : string;
  rec_productId : Z;
  rec_recommendationType : string;
  rec_score : Q;
  rec_reasons : list string;
  rec_shown : bool;
  rec_clicked : bool;
  rec_purchased : bool;
  rec_shownAt : option Z;
  rec_clickedAt : option Z;
  rec_purchasedAt : option Z;
  rec_createdAt : Z
}.

(** product_category_mappings *)
Record ProductCategoryMappingRow := {
  pcm_productId : Z;
  pcm_categoryId : Z
}.

(** The tables of one store database.  Of customers and products only the
    primary keys are kept: the foreign keys of customer_behavior refer to
    them. *)
Record StoreDb := {
  customers : list Z;
  products : list Z;
  customerBehavior : list CustomerBehaviorRow;
  productViews : list ProductViewRow;
  recommendations : list RecommendationRow;
  productCategoryMappings : list ProductCategoryMappingRow
}.

(** stores (main database) *)
Record Store := {
  store_id : Z;
  store_databaseUrl : string
}.

(* ------------------------------------------------------------------ *)
(** ** The world and asynchronous computations *)

Inductive Error :=
| StoreNotFound (storeId : Z)
| MainDatabaseDown
| ConnectionFailed (databaseUrl : string)
| ForeignKeyViolation (table : string)
| StatementRejected (reason : string).

Record World := {
  DATABASE_URL : string;
  (** the stores table; [None] when the main pool cannot be reached *)
  mainStores : option (list Store);
  (** the database behind each connection string *)
  databases : gmap string StoreDb;
  (** the keys of the [storeDbConnections] map; the value at a key is the
      drizzle instance over a pool on that same connection string *)
  storeDbConnections : gset string;
  (** NOW() and [new Date()] *)
  now : Z;
  (** what console.error printed, newest first *)
  console : list (string * Error)
}.

Definition withMainStores (s : option (list Store)) (w : World) : World :=
  {| DATABASE_URL := DATABASE_URL w; mainStores := s; databases := databases w;
     storeDbConnections := storeDbConnections w; now := now w; console := console w |}.

Definition withDatabases (d : gmap string StoreDb) (w : World) : World :=
  {| DATABASE_URL := DATABASE_URL w; mainStores := mainStores w; databases := d;
     storeDbConnections := storeDbConnections w; now := now w; console := console w |}.

Definition withConnections (c : gset string) (w : World) : World :=
  {| DATABASE_URL := DATABASE_URL w; mainStores := mainStores w; databases := databases w;
     storeDbConnections := c; now := now w; console := console w |}.

Definition withConsole (c : list (string * Error)) (w : World) : World :=
  {| DATABASE_URL := DATABASE_URL w; mainStores := mainStores w; databases := databases w;
     storeDbConnections := storeDbConnections w; now := now w; console := c |}.

Inductive Outcome (A : Type) :=
| Resolved (a : A)
| Rejected (e : Error).
Arguments Resolved {A} a.
Arguments Rejected {A} e.

Definition Async (A : Type) : Type := World -> Outcome A * World.

Definition ret {A : Type} (a : A) : Async A := fun w => (Resolved a, w).

Definition throw {A : Type} (e : Error) : Async A := fun w => (Rejected e, w).

Definition bind {A B : Type} (m : Async A) (k : A -> Async B) : Async B :=
  fun w => match m w with
           | (Resolved a, w') => k a w'
           | (Rejected e, w') => (Rejected e, w')
           end.

(** [try { body } catch (error) { handler }] *)
Definition try_catch {A : Type} (body : Async A) (handler : Error -> Async A) : Async A :=
  fun w => match body w with
           | (Resolved a, w') => (Resolved a, w')
           | (Rejected e, w') => handler e w'
           end.

Notation "'let!' x ':=' m 'in' k" := (bind m (fun x => k))
  (at level 10, x name, m at level 100, k at level 200).

Definition consoleError (message : string) (error : Error) : Async unit :=
  fun w => (Resolved tt, withConsole ((message, error) :: console w) w).

(** A drizzle instance is known by the connection string of its pool. *)
Definition Handle : Type := string.

(** [await storeDb.select()...]: the query runs on the tables behind the
    handle, and rejects when the database cannot be reached. *)
Definition select {A : Type} (storeDb : Handle) (query : StoreDb -> Z -> A) : Async A :=
  fun w => match databases w !! storeDb with
           | Some db => (Resolved (query db (now w)), w)
           | None => (Rejected (ConnectionFailed storeDb), w)
           end.

(** A statement that the server does not accept rejects, whatever the
    tables hold. *)
Definition selectRejected {A : Type} (reason : string) (storeDb : Handle) : Async A :=
  fun w => match databases w !! storeDb with
           | Some _ => (Rejected (StatementRejected reason), w)
           | None => (Rejected (ConnectionFailed storeDb), w)
           end.

Definition selectIf {A : Type} (accepted : bool) (reason : string) (storeDb : Handle)
    (query : StoreDb -> Z -> A) : Async A :=
  if accepted then select storeDb query else selectRejected reason storeDb.

(** [await storeDb.insert(...)] and [await storeDb.update(...)] *)
Definition execute (storeDb : Handle) (statement : StoreDb -> Z -> Outcome StoreDb)
  : Async unit :=
  fun w => match databases w !! storeDb with
           | Some db =>
               match statement db (now w) with
               | Resolved db' => (Resolved tt, withDatabases (<[storeDb := db']> (databases w)) w)
               | Rejected e => (Rejected e, w)
               end
           | None => (Rejected (ConnectionFailed storeDb), w)
           end.

(* ------------------------------------------------------------------ *)
(** ** server/db.ts: MultiDatabaseManager *)

(** [getStoreDbByUrl]: the connection for a connection string, created and
    cached on first use. *)
Definition getStoreDbByUrl (databaseUrl : string) : Async Handle :=
  fun w =>
    (Resolved databaseUrl,
     if bool_decide (databaseUrl ∈ storeDbConnections w) then w
     else withConnections ({[databaseUrl]} ∪ storeDbConnections w) w).

Definition getStoreDb : string -> Async Handle := getStoreDbByUrl.

(** [createStoreDatabase]: the store record gets the connection string of
    the main database. *)
Definition createStoreDatabase (storeId : Z) : Async Handle :=
  fun w =>
    let databaseUrl := DATABASE_URL w in
    match mainStores w with
    | None => (Rejected MainDatabaseDown, w)
    | Some rows =>
        getStoreDbByUrl databaseUrl
          (withMainStores
             (Some (map (fun s => if bool_decide (store_id s = storeId)
                                  then {| store_id := store_id s;
                                          store_databaseUrl := databaseUrl |}
                                  else s) rows)) w)
    end.

(** server/storage.ts: [storage.getStore] *)
Definition getStore (id : Z) : Async (option Store) :=
  fun w =>
    match mainStores w with
    | None => (Rejected MainDatabaseDown, w)
    | Some rows =>
        (Resolved (hd_error (filter (fun s => bool_decide (store_id s = id)) rows)), w)
    end.

(* ------------------------------------------------------------------ *)
(** ** server/recommendation-engine.ts *)

Inductive RecommendationType :=
  collaborative | content_based | trending | recently_viewed | hybrid.

Record RecommendationRequest := {
  storeId : Z;
  customerId : option Z;
  sessionId : string;
  limit : option nat;
  excludeProductIds : option (list Z);
  requestType : option RecommendationType
}.

Record RecommendationResult := {
  productId : Z;
  score : Q;
  type : string;
  reasons : list string
}.

(** [{ ...request, limit: n }] *)
Definition withLimit (n : nat) (request : RecommendationRequest) : RecommendationRequest :=
  {| storeId := storeId request; customerId := customerId request;
     sessionId := sessionId request; limit := Some n;
     excludeProductIds := excludeProductIds request;
     requestType := requestType request |}.

(** [{ ...request, type: t }] *)
Definition withType (t : RecommendationType) (request : RecommendationRequest)
  : RecommendationRequest :=
  {| storeId := storeId request; customerId := customerId request;
     sessionId := sessionId request; limit := limit request;
     excludeProductIds := excludeProductIds request;
     requestType := Some t |}.

Definition getStoreDatabase (storeId : Z) : Async Handle :=
  let! store := getStore storeId in
  match store with
  | None => throw (StoreNotFound storeId)
  | Some store => getStoreDb (store_databaseUrl store)
  end.

(** *** trackBehavior *)

Record BehaviorData := {
  bd_customerId : option Z;
  bd_sessionId : string;
  bd_storeId : Z;
  bd_productId : option Z;
  bd_action : Action;
  bd_searchQuery : option string;
  bd_timeSpent : option Z
}.

Definition foreignKeyHolds (ref : option Z) (keys : list Z) : bool :=
  match ref with
  | Some k => bool_decide (k ∈ keys)
  | None => true
  end.

(** INSERT INTO customer_behavior; the timestamp column defaults to NOW(). *)
Definition insertCustomerBehavior (values : CustomerBehaviorRow) (db : StoreDb) (now : Z)
  : Outcome StoreDb :=
  if foreignKeyHolds (cb_customerId values) (customers db)
     && foreignKeyHolds (cb_productId values) (products db)
  then Resolved {| customers := customers db; products := products db;
                   customerBehavior := customerBehavior db ++ [values];
                   productViews := productViews db;
                   recommendations := recommendations db;
                   productCategoryMappings := productCategoryMappings db |}
  else Rejected (ForeignKeyViolation "customer_behavior").

Definition behaviorRow (data : BehaviorData) (now : Z) : CustomerBehaviorRow :=
  {| cb_customerId := bd_customerId data;
     cb_sessionId := bd_sessionId data;
     cb_action := bd_action data;
     cb_productId := bd_productId data;
     cb_searchQuery := bd_searchQuery data;
     cb_timestamp := now;
     cb_deviceType := "desktop";
     cb_source := "direct" |}.

Definition trackBehavior (data : BehaviorData) : Async unit :=
  try_catch
    (let! storeDb := getStoreDatabase (bd_storeId data) in
     execute storeDb (fun db now => insertCustomerBehavior (behaviorRow data now) db now))
    (fun error => consoleError "Error tracking customer behavior:" error).

(** *** The exclusion clause shared by the strategies:
    [excludeProductIds.length > 0
       ? sql`product_id NOT IN (${excludeProductIds.join(',')})` : sql`1=1`] *)

(** [ids.join(',')] is one parameter of the statement, a string, and
    product_id is an integer: the server reads the string as an integer.
    It does when the list holds one id; when the list holds more (the text
    10,11) or none (the empty text) the statement is rejected for invalid
    input syntax for type integer. *)
Definition joinedIsInteger (ids : list Z) : bool := (length ids =? 1)%nat.

Definition invalidInteger : string := "invalid input syntax for type integer".

(** The statement with the exclusion clause is accepted. *)
Definition exclusionAccepted (excludeProductIds : list Z) : bool :=
  if (0 <? length excludeProductIds)%nat then joinedIsInteger excludeProductIds else true.

(** The clause on a row, in a statement that is accepted: the list holds at
    most one id. *)
Definition notExcluded (excludeProductIds : list Z) (product_id : option Z) : bool :=
  if (0 <? length excludeProductIds)%nat
  then sqlNotIn product_id (map Some excludeProductIds)
  else true.

(** *** Collaborative filtering *)

(** SELECT product_id FROM customer_behavior
    WHERE customer_id = customerId AND action = 'purchase' *)
Definition purchasedProductIds (customerId : Z) (db : StoreDb) : list (option Z) :=
  map cb_productId
      (filter (fun r => bool_decide (cb_customerId r = Some customerId)
                        && bool_decide (cb_action r = purchase))
              (customerBehavior db)).

Definition similarCustomersQuery (customerId : Z) (db : StoreDb) (now : Z)
  : list (option Z * Z) :=
  firstn 20
    (orderByDesc snd
       (filter (fun g => (1 <? snd g)%Z)
          (map (fun g => (fst g, countRows (snd g)))
             (groupBy cb_customerId
                (filter (fun r => bool_decide (cb_action r = purchase)
                                  && sqlIn (cb_productId r) (purchasedProductIds customerId db))
                        (customerBehavior db)))))).

(** [inArray(column, values)] is TRUE: the column is not NULL and equals one
    of the values (an empty list matches no row). *)
Definition inArray (x : option Z) (values : list (option Z)) : bool := sqlIn x values.

Definition recommendedProductsQuery (customerId : Z) (similarCustomerIds : list (option Z))
    (excludeProductIds : list Z) (limit : nat) (db : StoreDb) (now : Z)
  : list (option Z * Z) :=
  firstn limit
    (orderByDesc snd
       (map (fun g => (fst g, countRows (snd g)))
          (groupBy cb_productId
             (filter (fun r => bool_decide (cb_action r = purchase)
                               && inArray (cb_customerId r) similarCustomerIds
                               && sqlNotIn (cb_productId r) (purchasedProductIds customerId db)
                               && notExcluded excludeProductIds (cb_productId r))
                     (customerBehavior db))))).

Definition generateCollaborativeRecommendations (request : RecommendationRequest)
  : Async (list RecommendationResult) :=
  let limit := default 10%nat (limit request) in
  let excludeProductIds := default [] (excludeProductIds request) in
  let! storeDb := getStoreDatabase (storeId request) in
  match truthy (customerId request) with
  | None => ret []
  | Some customerId =>
      try_catch
        (let! similarCustomers := select storeDb (similarCustomersQuery customerId) in
         if (length similarCustomers =? 0)%nat then ret []
         else
           let similarCustomerIds :=
             filter (fun id => negb (bool_decide (id = Some customerId)))
                    (map fst similarCustomers) in
           let! recommendedProducts :=
             selectIf (exclusionAccepted excludeProductIds) invalidInteger storeDb
               (recommendedProductsQuery customerId similarCustomerIds excludeProductIds limit) in
           ret (map (fun item =>
                       {| productId := default 0%Z (fst item);
                          score := Qmin (inject_Z (snd item) / 10) 1;
                          type := "collaborative";
                          reasons := ["Customers like you also purchased this"] |})
                    (filter (fun item => isTruthy (fst item)) recommendedProducts)))
        (fun error =>
           let! _ := consoleError "Error in collaborative filtering:" error in ret [])
  end.

(** *** Content-based filtering *)

(** [customerId ? eq(product_views.customer_id, customerId)
               : eq(product_views.session_id, sessionId)] *)
Definition viewedBy (customerId : option Z) (sessionId : string) (v : ProductViewRow) : bool :=
  match truthy customerId with
  | Some c => bool_decide (pv_customerId v = Some c)
  | None => bool_decide (pv_sessionId v = sessionId)
  end.

Definition memZ (x : Z) (l : list Z) : bool := existsb (Z.eqb x) l.

Definition viewedProductsQuery (customerId : option Z) (sessionId : string)
    (db : StoreDb) (now : Z) : list Z :=
  map pv_productId
      (firstn 5 (orderByDesc pv_timestamp
                   (filter (viewedBy customerId sessionId) (productViews db)))).

Definition productCategoriesQuery (viewedProductIds : list Z) (db : StoreDb) (now : Z)
  : list (Z * Z) :=
  orderByDesc snd
    (map (fun g => (fst g, countRows (snd g)))
       (groupBy pcm_categoryId
          (filter (fun m => memZ (pcm_productId m) viewedProductIds)
                  (productCategoryMappings db)))).

(** The third statement, with
    [product_id NOT IN (${viewedProductIds.join(',')})] and the exclusion
    clause: what it selects when it is accepted, which takes one viewed id
    and at most one excluded id. *)
Definition similarProductsQuery (topCategoryIds viewedProductIds excludeProductIds : list Z)
    (limit : nat) (db : StoreDb) (now : Z) : list (Z * Z) :=
  firstn limit
    (orderByDesc snd
       (map (fun g => (fst g, countRows (snd g)))
          (groupBy pcm_productId
             (filter (fun m => memZ (pcm_categoryId m) topCategoryIds
                               && sqlNotIn (Some (pcm_productId m)) (map Some viewedProductIds)
                               && notExcluded excludeProductIds (Some (pcm_productId m)))
                     (productCategoryMappings db))))).

Definition generateContentBasedRecommendations (request : RecommendationRequest)
  : Async (list RecommendationResult) :=
  let limit := default 10%nat (limit request) in
  let excludeProductIds := default [] (excludeProductIds request) in
  let! storeDb := getStoreDatabase (storeId request) in
  try_catch
    (let! viewedProductIds :=
       select storeDb (viewedProductsQuery (customerId request) (sessionId request)) in
     if (length viewedProductIds =? 0)%nat then ret []
     else
       let! productCategories := select storeDb (productCategoriesQuery viewedProductIds) in
       if (length productCategories =? 0)%nat then ret []
       else
         let topCategoryIds := map fst (firstn 3 productCategories) in
         let! similarProducts :=
           selectIf (joinedIsInteger viewedProductIds && exclusionAccepted excludeProductIds)
             invalidInteger storeDb
             (similarProductsQuery topCategoryIds viewedProductIds excludeProductIds limit) in
         ret (map (fun item =>
                     {| productId := fst item;
                        score := Qmin (inject_Z (snd item)
                                       / inject_Z (Z.of_nat (length topCategoryIds))) 1;
                        type := "content_based";
                        reasons := ["Similar to products you viewed"] |})
                  similarProducts))
    (fun error =>
       let! _ := consoleError "Error in content-based filtering:" error in ret []).

(** *** Trending *)

(** Timestamps are milliseconds. *)
Definition days (n : Z) : Z := (n * 86400000)%Z.

Record TrendingRow := {
  tr_productId : option Z;
  tr_viewScore : Z;
  tr_purchaseScore : Z;
  tr_totalScore : Z
}.

Definition sumOver {A : Type} (f : A -> Z) (rows : list A) : Z :=
  fold_right Z.add 0%Z (map f rows).

(** CASE WHEN action = 'view' THEN 1 WHEN action = 'purchase' THEN 3 ELSE 0 END *)
Definition actionWeight (r : CustomerBehaviorRow) : Z :=
  match cb_action r with
  | view => 1
  | purchase => 3
  | _ => 0
  end%Z.

Definition trendingRow (g : option Z * list CustomerBehaviorRow) : TrendingRow :=
  {| tr_productId := fst g;
     tr_viewScore :=
       sumOver (fun r => if bool_decide (cb_action r = view) then 1 else 0)%Z (snd g);
     tr_purchaseScore :=
       sumOver (fun r => if bool_decide (cb_action r = purchase) then 3 else 0)%Z (snd g);
     tr_totalScore := sumOver actionWeight (snd g) |}.

(** The WHERE clause of the trending query. *)
Definition trendingEvent (excludeProductIds : list Z) (now : Z) (r : CustomerBehaviorRow)
  : bool :=
  (now - days 7 <? cb_timestamp r)%Z
  && (bool_decide (cb_action r = view) || bool_decide (cb_action r = purchase))
  && notExcluded excludeProductIds (cb_productId r).

Definition trendingProductsQuery (excludeProductIds : list Z) (limit : nat)
    (db : StoreDb) (now : Z) : list TrendingRow :=
  firstn limit
    (orderByDesc tr_totalScore
       (map trendingRow
          (filter (fun g => (2 <? countRows (snd g))%Z)
             (groupBy cb_productId
                (filter (trendingEvent excludeProductIds now) (customerBehavior db)))))).

Definition generateTrendingRecommendations (request : RecommendationRequest)
  : Async (list RecommendationResult) :=
  let limit := default 10%nat (limit request) in
  let excludeProductIds := default [] (excludeProductIds request) in
  let! storeDb := getStoreDatabase (storeId request) in
  try_catch
    (let! trendingProducts :=
       selectIf (exclusionAccepted excludeProductIds) invalidInteger storeDb
         (trendingProductsQuery excludeProductIds limit) in
     let maxScore :=
       match hd_error trendingProducts with
       | Some first => if (tr_totalScore first =? 0)%Z then 1%Z else tr_totalScore first
       | None => 1%Z
       end in
     ret (map (fun item =>
                 {| productId := default 0%Z (tr_productId item);
                    score := inject_Z (tr_totalScore item) / inject_Z maxScore;
                    type := "trending";
                    reasons := ["Trending this week"] |})
              (filter (fun item => isTruthy (tr_productId item)) trendingProducts)))
    (fun error =>
       let! _ := consoleError "Error in trending recommendations:" error in ret []).

(** *** Recently viewed *)

(** MAX(timestamp) of a group, which has a row. *)
Definition maxTimestamp (rows : list ProductViewRow) : Z :=
  match map pv_timestamp rows with
  | [] => 0%Z
  | t :: ts => fold_right Z.max t ts
  end.

(** The WHERE clause of the recently-viewed query. *)
Definition recentView (customerId : option Z) (sessionId : string)
    (excludeProductIds : list Z) (now : Z) (v : ProductViewRow) : bool :=
  viewedBy customerId sessionId v
  && (now - days 30 <? pv_timestamp v)%Z
  && notExcluded excludeProductIds (Some (pv_productId v)).

Definition recentlyViewedQuery (customerId : option Z) (sessionId : string)
    (excludeProductIds : list Z) (limit : nat) (db : StoreDb) (now : Z) : list (Z * Z) :=
  firstn limit
    (orderByDesc snd
       (map (fun g => (fst g, maxTimestamp (snd g)))
          (groupBy pv_productId
             (filter (recentView customerId sessionId excludeProductIds now)
                     (productViews db))))).

Definition generateRecentlyViewedRecommendations (request : RecommendationRequest)
  : Async (list RecommendationResult) :=
  let limit := default 10%nat (limit request) in
  let excludeProductIds := default [] (excludeProductIds request) in
  let! storeDb := getStoreDatabase (storeId request) in
  try_catch
    (let! recentlyViewed :=
       selectIf (exclusionAccepted excludeProductIds) invalidInteger storeDb
         (recentlyViewedQuery (customerId request) (sessionId request)
            excludeProductIds limit) in
     ret (mapWithIndex
            (fun item index =>
               {| productId := fst item;
                  score := Qmax (0.9 - inject_Z (Z.of_nat index) * 0.1) 0.1;
                  type := "recently_viewed";
                  reasons := ["You viewed this recently"] |})
            0 recentlyViewed))
    (fun error =>
       let! _ := consoleError "Error in recently viewed recommendations:" error in ret []).

(** *** Hybrid *)

(** [Math.ceil(limit * 0.3)] and [Math.ceil(limit * 0.2)], for [tenths] 3 and 2. *)
Definition ceilShare (limit tenths : nat) : nat := ((limit * tenths + 9) / 10)%nat.

(** [{ ...r, score: r.score * weight }] *)
Definition weighted (weight : Q) (r : RecommendationResult) : RecommendationResult :=
  {| productId := productId r; score := score r * weight;
     type := type r; reasons := reasons r |}.

(** One step of the forEach over [allRecommendations]: the insertion-ordered
    [productScores] map is a list of entries, oldest first. *)
Fixpoint addToProductScores (rec : RecommendationResult)
    (productScores : list (Z * RecommendationResult)) : list (Z * RecommendationResult) :=
  match productScores with
  | [] =>
      [(productId rec,
        {| productId := productId rec; score := score rec;
           type := "hybrid"; reasons := reasons rec |})]
  | (key, existing) :: rest =>
      if bool_decide (key = productId rec)
      then (key, {| productId := productId existing;
                    score := score existing + score rec;
                    type := "hybrid";
                    reasons := distinct (reasons existing ++ reasons rec) |}) :: rest
      else (key, existing) :: addToProductScores rec rest
  end.

Definition productScoresOf (allRecommendations : list RecommendationResult)
  : list (Z * RecommendationResult) :=
  fold_left (fun productScores rec => addToProductScores rec productScores) allRecommendations [].

(** [.sort((a, b) => b.score - a.score)] *)
Definition sortByScore : list RecommendationResult -> list RecommendationResult :=
  stableSort (fun a b => Qle_bool (score b) (score a)).

(** The four calls under [Promise.all] only read the store database; they
    run here one after the other. *)
Definition generateHybridRecommendations (request : RecommendationRequest)
  : Async (list RecommendationResult) :=
  let limit := default 10%nat (limit request) in
  try_catch
    (let! collaborative :=
       generateCollaborativeRecommendations (withLimit (ceilShare limit 3) request) in
     let! contentBased :=
       generateContentBasedRecommendations (withLimit (ceilShare limit 3) request) in
     let! trending :=
       generateTrendingRecommendations (withLimit (ceilShare limit 2) request) in
     let! recentlyViewed :=
       generateRecentlyViewedRecommendations (withLimit (ceilShare limit 2) request) in
     let allRecommendations :=
       map (weighted 0.4) collaborative
       ++ map (weighted 0.3) contentBased
       ++ map (weighted 0.2) trending
       ++ map (weighted 0.1) recentlyViewed in
     let productScores := productScoresOf allRecommendations in
     ret (firstn limit (sortByScore (map snd productScores))))
    (fun error =>
       let! _ := consoleError "Error in hybrid recommendations:" error in ret []).

Definition generateRecommendations (request : RecommendationRequest)
  : Async (list RecommendationResult) :=
  try_catch
    (match default hybrid (requestType request) with
     | collaborative => generateCollaborativeRecommendations request
     | content_based => generateContentBasedRecommendations request
     | trending => generateTrendingRecommendations request
     | recently_viewed => generateRecentlyViewedRecommendations request
     | hybrid => generateHybridRecommendations request
     end)
    (fun error =>
       let! _ := consoleError "Error generating recommendations:" error in ret []).

(** *** trackRecommendationFeedback *)

Inductive FeedbackAction := shown | clicked | purchased.

Record FeedbackData := {
  fb_storeId : Z;
  fb_customerId : option Z;
  fb_sessionId : string;
  fb_productId : Z;
  fb_action : FeedbackAction
}.

(** [updateData[action] = true; updateData[`${action}At`] = new Date()] *)
Definition applyUpdateData (action : FeedbackAction) (date : Z) (r : RecommendationRow)
  : RecommendationRow :=
  {| rec_customerId := rec_customerId r;
     rec_sessionId := rec_sessionId r;
     rec_productId := rec_productId r;
     rec_recommendationType := rec_recommendationType r;
     rec_score := rec_score r;
     rec_reasons := rec_reasons r;
     rec_shown := match action with shown => true | _ => rec_shown r end;
     rec_clicked := match action with clicked => true | _ => rec_clicked r end;
     rec_purchased := match action with purchased => true | _ => rec_purchased r end;
     rec_shownAt := match action with shown => Some date | _ => rec_shownAt r end;
     rec_clickedAt := match action with clicked => Some date | _ => rec_clickedAt r end;
     rec_purchasedAt := match action with purchased => Some date | _ => rec_purchasedAt r end;
     rec_createdAt := rec_createdAt r |}.

(** The WHERE clause of the feedback update. *)
Definition feedbackTarget (data : FeedbackData) (r : RecommendationRow) : bool :=
  match truthy (fb_customerId data) with
  | Some c => bool_decide (rec_customerId r = Some c)
  | None => bool_decide (rec_sessionId r = fb_sessionId data)
  end
  && bool_decide (rec_productId r = fb_productId data).

Definition updateRecommendations (data : FeedbackData) (db : StoreDb) (now : Z)
  : Outcome StoreDb :=
  Resolved {| customers := customers db; products := products db;
              customerBehavior := customerBehavior db;
              productViews := productViews db;
              recommendations :=
                map (fun r => if feedbackTarget data r
                              then applyUpdateData (fb_action data) now r else r)
                    (recommendations db);
              productCategoryMappings := productCategoryMappings db |}.

Definition trackRecommendationFeedback (data : FeedbackData) : Async unit :=
  let! storeDb := getStoreDatabase (fb_storeId data) in
  try_catch
    (execute storeDb (updateRecommendations data))
    (fun error => consoleError "Error tracking recommendation feedback:" error).

(* ------------------------------------------------------------------ *)
(** ** What a request reads and returns

    The strategies only read the tables of one store database.  The
    definitions below name that database and the list each strategy builds
    from it; the lemmas of the second part show that the asynchronous
    functions above return exactly these lists. *)

(** The database behind the handle [getStoreDatabase] returns for a store. *)
Definition storeDatabase (storeId : Z) (w : World) : option StoreDb :=
  match fst (getStoreDatabase storeId w) with
  | Resolved storeDb => databases w !! storeDb
  | Rejected _ => None
  end.

(** The list a strategy resolves with; no list when it rejects. *)
Definition outputOf (strategy : Async (list RecommendationResult)) (w : World)
  : list RecommendationResult :=
  match fst (strategy w) with
  | Resolved results => results
  | Rejected _ => []
  end.

(** The lists of the four strategies on the tables [db] at the time [now];
    a strategy whose statement is rejected lists nothing. *)
Definition collaborativeOn (request : RecommendationRequest) (db : StoreDb) (now : Z)
  : list RecommendationResult :=
  match truthy (customerId request) with
  | None => []
  | Some c =>
      let similarCustomers := similarCustomersQuery c db now in
      if (length similarCustomers =? 0)%nat then []
      else if exclusionAccepted (default [] (excludeProductIds request)) then
        map (fun item =>
               {| productId := default 0%Z (fst item);
                  score := Qmin (inject_Z (snd item) / 10) 1;
                  type := "collaborative";
                  reasons := ["Customers like you also purchased this"] |})
            (filter (fun item => isTruthy (fst item))
               (recommendedProductsQuery c
                  (filter (fun id => negb (bool_decide (id = Some c)))
                          (map fst similarCustomers))
                  (default [] (excludeProductIds request))
                  (default 10%nat (limit request)) db now))
      else []
  end.

Definition topCategoryIdsOn (request : RecommendationRequest) (db : StoreDb) (now : Z)
  : list Z :=
  map fst
    (firstn 3
       (productCategoriesQuery
          (viewedProductsQuery (customerId request) (sessionId request) db now) db now)).

Definition contentBasedOn (request : RecommendationRequest) (db : StoreDb) (now : Z)
  : list RecommendationResult :=
  let viewedProductIds :=
    viewedProductsQuery (customerId request) (sessionId request) db now in
  if (length viewedProductIds =? 0)%nat then []
  else if (length (productCategoriesQuery viewedProductIds db now) =? 0)%nat then []
  else if joinedIsInteger viewedProductIds
          && exclusionAccepted (default [] (excludeProductIds request)) then
    map (fun item =>
           {| productId := fst item;
              score := Qmin (inject_Z (snd item)
                             / inject_Z (Z.of_nat (length (topCategoryIdsOn request db now)))) 1;
              type := "content_based";
              reasons := ["Similar to products you viewed"] |})
        (similarProductsQuery (topCategoryIdsOn request db now) viewedProductIds
           (default [] (excludeProductIds request))
           (default 10%nat (limit request)) db now)
  else [].

Definition trendingMaxScore (trendingProducts : list TrendingRow) : Z :=
  match hd_error trendingProducts with
  | Some first => if (tr_totalScore first =? 0)%Z then 1%Z else tr_totalScore first
  | None => 1%Z
  end.

Definition trendingOn (request : RecommendationRequest) (db : StoreDb) (now : Z)
  : list RecommendationResult :=
  let trendingProducts :=
    trendingProductsQuery (default [] (excludeProductIds request))
      (default 10%nat (limit request)) db now in
  if exclusionAccepted (default [] (excludeProductIds request)) then
    map (fun item =>
           {| productId := default 0%Z (tr_productId item);
              score := inject_Z (tr_totalScore item)
                       / inject_Z (trendingMaxScore trendingProducts);
              type := "trending";
              reasons := ["Trending this week"] |})
        (filter (fun item => isTruthy (tr_productId item)) trendingProducts)
  else [].

Definition recentlyViewedOn (request : RecommendationRequest) (db : StoreDb) (now : Z)
  : list RecommendationResult :=
  if exclusionAccepted (default [] (excludeProductIds request)) then
    mapWithIndex
      (fun item index =>
         {| productId := fst item;
            score := Qmax (0.9 - inject_Z (Z.of_nat index) * 0.1) 0.1;
            type := "recently_viewed";
            reasons := ["You viewed this recently"] |})
      0
      (recentlyViewedQuery (customerId request) (sessionId request)
         (default [] (excludeProductIds request))
         (default 10%nat (limit request)) db now)
  else [].

(** The four weighted lists the hybrid strategy concatenates. *)
Definition weightedAll (collaborative contentBased trending recentlyViewed
                        : list RecommendationResult) : list RecommendationResult :=
  map (weighted 0.4) collaborative
  ++ map (weighted 0.3) contentBased
  ++ map (weighted 0.2) trending
  ++ map (weighted 0.1) recentlyViewed.

(** The four lists the hybrid strategy merges for a request, each with its
    share of the limit, and the entries of the productScores map built from
    them. *)
Definition hybridInputs (request : RecommendationRequest) (db : StoreDb) (now : Z)
  : list RecommendationResult :=
  let limit := default 10%nat (limit request) in
  weightedAll
    (collaborativeOn (withLimit (ceilShare limit 3) request) db now)
    (contentBasedOn (withLimit (ceilShare limit 3) request) db now)
    (trendingOn (withLimit (ceilShare limit 2) request) db now)
    (recentlyViewedOn (withLimit (ceilShare limit 2) request) db now).

Definition hybridMerged (request : RecommendationRequest) (db : StoreDb) (now : Z)
  : list RecommendationResult :=
  map snd (productScoresOf (hybridInputs request db now)).

Definition hybridOn (request : RecommendationRequest) (db : StoreDb) (now : Z)
  : list RecommendationResult :=
  firstn (default 10%nat (limit request)) (sortByScore (hybridMerged request db now)).

Definition recommendationsOn (request : RecommendationRequest) (db : StoreDb) (now : Z)
  : list RecommendationResult :=
  match default hybrid (requestType request) with
  | collaborative => collaborativeOn request db now
  | content_based => contentBasedOn request db now
  | trending => trendingOn request db now
  | recently_viewed => recentlyViewedOn request db now
  | hybrid => hybridOn request db now
  end.

(** Two worlds with the same databases, stores and clock: they differ in
    the connection cache and the console at most. *)
Definition sameData (w w' : World) : Prop :=
  DATABASE_URL w = DATABASE_URL w'
  /\ mainStores w = mainStores w'
  /\ databases w = databases w'
  /\ now w = now w'.

(** What a strategy that reads one store database does: it rejects when the
    store has no handle, and otherwise resolves with the list built from
    the tables, with no list when the database cannot be reached. *)
Definition readsStore (strategy : RecommendationRequest -> Async (list RecommendationResult))
    (on : RecommendationRequest -> StoreDb -> Z -> list RecommendationResult) : Prop :=
  forall request w,
    sameData w (snd (strategy request w))
    /\ fst (strategy request w)
       = match fst (getStoreDatabase (storeId request) w) with
         | Rejected e => Rejected e
         | Resolved storeDb =>
             Resolved match databases w !! storeDb with
                      | Some db => on request db (now w)
                      | None => []
                      end
         end.

(* ------------------------------------------------------------------ *)
(** ** Measures the properties are stated with *)

Definition sumScores (results : list RecommendationResult) : Q :=
  fold_right Qplus 0 (map score results).

Definition entriesFor (p : Z) (results : list RecommendationResult)
  : list RecommendationResult :=
  filter (fun r => bool_decide (productId r = p)) results.

(** The score a strategy's list gives a product: the sum over its entries
    for the product (the score of the entry when there is one, 0 when there
    is none). *)
Definition scoreIn (results : list RecommendationResult) (p : Z) : Q :=
  sumScores (entriesFor p results).

(** What the productScores map holds once the entries of [processed] went
    through the forEach: one entry per product, relabelled, with the sum of
    the scores and the union of the reasons of the product's entries. *)
Definition mergedFrom (processed : list RecommendationResult)
    (productScores : list (Z * RecommendationResult)) : Prop :=
  NoDup (map fst productScores)
  /\ (forall p, In p (map fst productScores) <-> In p (map productId processed))
  /\ (forall k m, In (k, m) productScores ->
        productId m = k
        /\ type m = "hybrid"
        /\ score m == scoreIn processed k
        /\ (forall reason,
              In reason (reasons m)
              <-> exists r, In r processed /\ productId r = k /\ In reason (reasons r))
        /\ ((forall r, In r processed -> NoDup (reasons r)) -> NoDup (reasons m))).

(** What every strategy's list satisfies: a product has at most one entry,
    no entry is of an excluded product, scores stay at or below [bound], and
    an entry carries the one reason of its strategy. *)
Definition strategyOutput (excluded : list Z) (bound : Q)
    (results : list RecommendationResult) : Prop :=
  NoDup (map productId results)
  /\ forall r, In r results ->
       ~ In (productId r) excluded
       /\ score r <= bound
       /\ exists reason, reasons r = [reason].

(** The score of the entry at a rank of the recently-viewed list. *)
Definition rankScore (rank : nat) : Q := Qmax (0.9 - inject_Z (Z.of_nat rank) * 0.1) 0.1.

(** The most recent view of a product by the requesting customer (or, with
    no customer, session) within the last 30 days. *)
Definition lastViewed (request : RecommendationRequest) (db : StoreDb) (now : Z) (p : Z) : Z :=
  maxTimestamp
    (filter (fun v => viewedBy (customerId request) (sessionId request) v
                      && (now - days 30 <? pv_timestamp v)%Z
                      && bool_decide (pv_productId v = p))
            (productViews db)).

(** How often a category occurs among the mappings of the viewed products. *)
Definition categoryFrequency (viewedProductIds : list Z) (db : StoreDb) (category : Z) : Z :=
  countRows
    (filter (fun m => memZ (pcm_productId m) viewedProductIds
                      && bool_decide (pcm_categoryId m = category))
            (productCategoryMappings db)).

(** The number of mappings of a product into the given categories: the
    number of those categories the product belongs to, as long as the table
    holds a mapping once. *)
Definition matchingCategoryCount (categoryIds : list Z) (db : StoreDb) (p : Z) : Z :=
  countRows
    (filter (fun m => bool_decide (pcm_productId m = p)
                      && memZ (pcm_categoryId m) categoryIds)
            (productCategoryMappings db)).

(** The views and purchases of a product within the last 7 days. *)
Definition windowEvents (db : StoreDb) (now : Z) (p : Z) : list CustomerBehaviorRow :=
  filter (fun e => (now - days 7 <? cb_timestamp e)%Z
                   && (bool_decide (cb_action e = view)
                       || bool_decide (cb_action e = purchase))
                   && bool_decide (cb_productId e = Some p))
         (customerBehavior db).

(** The row [r'] is the row [r] with the clicked flag set, stamped [date],
    and every other column as it was. *)
Definition onlyClickedSet (date : Z) (r r' : RecommendationRow) : Prop :=
  rec_clicked r' = true
  /\ rec_clickedAt r' = Some date
  /\ rec_shown r' = rec_shown r
  /\ rec_purchased r' = rec_purchased r
  /\ rec_shownAt r' = rec_shownAt r
  /\ rec_purchasedAt r' = rec_purchasedAt r
  /\ rec_customerId r' = rec_customerId r
  /\ rec_sessionId r' = rec_sessionId r
  /\ rec_productId r' = rec_productId r
  /\ rec_recommendationType r' = rec_recommendationType r
  /\ rec_score r' = rec_score r
  /\ rec_reasons r' = rec_reasons r
  /\ rec_createdAt r' = rec_createdAt r.

(* ------------------------------------------------------------------ *)
(** ** Sample data: two stores and their tables *)

Definition behaviorEvent (customer : option Z) (action : Action) (product : option Z)
    (timestamp : Z) : CustomerBehaviorRow :=
  {| cb_customerId := customer; cb_sessionId := "session-1"; cb_action := action;
     cb_productId := product; cb_searchQuery := None; cb_timestamp := timestamp;
     cb_deviceType := "desktop"; cb_source := "direct" |}.

Definition productView (customer : option Z) (session : string) (product : Z)
    (timestamp : Z) : ProductViewRow :=
  {| pv_customerId := customer; pv_sessionId := session; pv_productId := product;
     pv_viewDuration := 30; pv_timestamp := timestamp |}.

(** A trending recommendation shown to a session and not clicked yet. *)
Definition recommendationRow (session : string) (product : Z) : RecommendationRow :=
  {| rec_customerId := None; rec_sessionId := session; rec_productId := product;
     rec_recommendationType := "trending"; rec_score := 1; rec_reasons := ["Trending this week"];
     rec_shown := true; rec_clicked := false; rec_purchased := false;
     rec_shownAt := Some (days 9); rec_clickedAt := None; rec_purchasedAt := None;
     rec_createdAt := days 9 |}.

Definition behaviorData (store : Z) (action : Action) (product : option Z) : BehaviorData :=
  {| bd_customerId := None; bd_sessionId := "session-1"; bd_storeId := store;
     bd_productId := product; bd_action := action; bd_searchQuery := None;
     bd_timeSpent := None |}.

(** A store with three customers and four products, and nothing tracked. *)
Definition emptyStoreDb : StoreDb :=
  {| customers := [1; 2; 3]%Z; products := [10; 11; 12; 13]%Z; customerBehavior := [];
     productViews := []; recommendations := []; productCategoryMappings := [] |}.

Definition withBehavior (rows : list CustomerBehaviorRow) (db : StoreDb) : StoreDb :=
  {| customers := customers db; products := products db; customerBehavior := rows;
     productViews := productViews db; recommendations := recommendations db;
     productCategoryMappings := productCategoryMappings db |}.

(** Store 1 and store 2, each with a database of its own, ten days after the
    epoch. *)
Definition sampleWorld (db1 db2 : StoreDb) : World :=
  {| DATABASE_URL := "postgres://main";
     mainStores := Some [ {| store_id := 1; store_databaseUrl := "postgres://store-1" |};
                          {| store_id := 2; store_databaseUrl := "postgres://store-2" |} ];
     databases := <["postgres://store-1" := db1]> (<["postgres://store-2" := db2]> ∅);
     storeDbConnections := ∅;
     now := days 10;
     console := [] |}.

Definition sampleRequest (store : Z) (customer : option Z) (t : RecommendationType)
  : RecommendationRequest :=
  {| storeId := store; customerId := customer; sessionId := "session-1";
     limit := None; excludeProductIds := None; requestType := Some t |}.

(** The world after a sequence of [trackBehavior] calls. *)
Definition trackAll (events : list BehaviorData) (w : World) : World :=
  fold_left (fun w data => snd (trackBehavior data w)) events w.

(** Customer 1 bought products 10 and 11, customer 2 bought 10, 11 and 12,
    customer 3 bought 10 and 13, and a visitor without account bought 11. *)
Definition purchasesDb : StoreDb :=
  withBehavior
    [ behaviorEvent (Some 1%Z) purchase (Some 10%Z) (days 1);
      behaviorEvent (Some 2%Z) purchase (Some 10%Z) (days 2);
      behaviorEvent (Some 3%Z) purchase (Some 10%Z) (days 2);
      behaviorEvent (Some 1%Z) purchase (Some 11%Z) (days 3);
      behaviorEvent (Some 2%Z) view (Some 13%Z) (days 3);
      behaviorEvent (Some 2%Z) purchase (Some 12%Z) (days 4);
      behaviorEvent None purchase (Some 11%Z) (days 4);
      behaviorEvent (Some 2%Z) purchase (Some 11%Z) (days 5);
      behaviorEvent (Some 3%Z) purchase (Some 13%Z) (days 6) ]
    emptyStoreDb.

(** The session viewed product 10; products 10 and 11 are in category 1. *)
Definition oneCategoryDb : StoreDb :=
  {| customers := [1; 2; 3]%Z; products := [10; 11; 12; 13]%Z; customerBehavior := [];
     productViews := [productView None "session-1" 10 (days 9)];
     recommendations := [];
     productCategoryMappings :=
       [ {| pcm_productId := 10; pcm_categoryId := 1 |};
         {| pcm_productId := 11; pcm_categoryId := 1 |} ] |}.

(** A store where customer 1 is recommended product 12 by two strategies:
    customer 2 bought what customer 1 bought and product 12; product 12 has
    a purchase and three views in the last week; customer 1 viewed products
    10 and 13, products 10 and 12 are in category 1, 11 and 13 in category
    2.  With two viewed products the content-based statement is rejected. *)
Definition busyDb : StoreDb :=
  {| customers := [1; 2; 3]%Z;
     products := [10; 11; 12; 13]%Z;
     customerBehavior :=
       [ behaviorEvent (Some 1%Z) purchase (Some 10%Z) (days 1);
         behaviorEvent (Some 2%Z) purchase (Some 10%Z) (days 2);
         behaviorEvent (Some 1%Z) purchase (Some 11%Z) (days 3);
         behaviorEvent (Some 2%Z) purchase (Some 12%Z) (days 4);
         behaviorEvent (Some 2%Z) purchase (Some 11%Z) (days 5);
         behaviorEvent None view (Some 12%Z) (days 8);
         behaviorEvent None view (Some 12%Z) (days 8);
         behaviorEvent (Some 3%Z) view (Some 12%Z) (days 9) ];
     productViews :=
       [ productView (Some 1%Z) "session-1" 13 (days 8);
         productView (Some 1%Z) "session-1" 10 (days 9) ];
     recommendations := [];
     productCategoryMappings :=
       [ {| pcm_productId := 10; pcm_categoryId := 1 |};
         {| pcm_productId := 11; pcm_categoryId := 2 |};
         {| pcm_productId := 12; pcm_categoryId := 1 |};
         {| pcm_productId := 13; pcm_categoryId := 2 |} ] |}.

(** Store 1 after seven tracked views: four of pages without a product and
    three of product 10. *)
Definition viewsWithoutProductWorld : World :=
  trackAll
    [ behaviorData 1 view None; behaviorData 1 view None;
      behaviorData 1 view (Some 10%Z); behaviorData 1 view None;
      behaviorData 1 view (Some 10%Z); behaviorData 1 view None;
      behaviorData 1 view (Some 10%Z) ]
    (sampleWorld emptyStoreDb emptyStoreDb).

(** Two stores registered before their databases are provisioned. *)
Definition unprovisionedWorld : World :=
  {| DATABASE_URL := "postgres://main";
     mainStores := Some [ {| store_id := 1; store_databaseUrl := "" |};
                          {| store_id := 2; store_databaseUrl := "" |} ];
     databases := <["postgres://main" := emptyStoreDb]> ∅;
     storeDbConnections := ∅;
     now := days 10;
     console := [] |}.

(** Both stores after [createStoreDatabase]. *)
Definition provisionedWorld : World :=
  snd (createStoreDatabase 2 (snd (createStoreDatabase 1 unprovisionedWorld))).

(** A recommendations table with a row of session-1 for product 10 and a row
    for product 11. *)
Definition recommendedDb : StoreDb :=
  {| customers := [1; 2; 3]%Z; products := [10; 11; 12; 13]%Z; customerBehavior := [];
     productViews := [];
     recommendations := [recommendationRow "session-1" 10; recommendationRow "session-1" 11];
     productCategoryMappings := [] |}.

(** The visitor of session-1 clicked the recommendation of product 10. *)
Definition clickedFeedback : FeedbackData :=
  {| fb_storeId := 1; fb_customerId := None; fb_sessionId := "session-1";
     fb_productId := 10; fb_action := clicked |}.

(** An entry with its score in lowest terms. *)
Definition entry (r : RecommendationResult) : Z * Q * string * list string :=
  (productId r, Qred (score r), type r, reasons r).

(* ------------------------------------------------------------------ *)
(** ** server/recommendation-engine.ts: tracking views, storing and
       measuring recommendations *)

(** *** trackProductView *)

Record ProductViewData := {
  pvd_customerId : option Z;
  pvd_sessionId : string;
  pvd_storeId : Z;
  pvd_productId : Z;
  pvd_viewDuration : option Z
}.

(** INSERT INTO product_views; the timestamp column defaults to NOW(). *)
Definition insertProductViews (values : ProductViewRow) (db : StoreDb) (now : Z)
  : Outcome StoreDb :=
  if foreignKeyHolds (pv_customerId values) (customers db)
     && foreignKeyHolds (Some (pv_productId values)) (products db)
  then Resolved {| customers := customers db; products := products db;
                   customerBehavior := customerBehavior db;
                   productViews := productViews db ++ [values];
                   recommendations := recommendations db;
                   productCategoryMappings := productCategoryMappings db |}
  else Rejected (ForeignKeyViolation "product_views").

(** The values of the insert; [viewDuration: data.viewDuration || 0]. *)
Definition productViewRow (data : ProductViewData) (now : Z) : ProductViewRow :=
  {| pv_customerId := pvd_customerId data;
     pv_sessionId := pvd_sessionId data;
     pv_productId := pvd_productId data;
     pv_viewDuration := default 0%Z (truthy (pvd_viewDuration data));
     pv_timestamp := now |}.

(** The argument of the call of [trackBehavior]. *)
Definition viewBehavior (data : ProductViewData) : BehaviorData :=
  {| bd_customerId := pvd_customerId data;
     bd_sessionId := pvd_sessionId data;
     bd_storeId := pvd_storeId data;
     bd_productId := Some (pvd_productId data);
     bd_action := view;
     bd_searchQuery := None;
     bd_timeSpent := pvd_viewDuration data |}.

Definition trackProductView (data : ProductViewData) : Async unit :=
  try_catch
    (let! storeDb := getStoreDatabase (pvd_storeId data) in
     let! _ := execute storeDb
                 (fun db now => insertProductViews (productViewRow data now) db now) in
     trackBehavior (viewBehavior data))
    (fun error => consoleError "Error tracking product view:" error).

(** *** Numbers of SQL type numeric *)

(** ROUND(q, places), and the value a column of that scale keeps of [q]:
    the nearest multiple of 10^-places, a tie going away from zero. *)
Definition roundHalfAway (places : nat) (q : Q) : Q :=
  let unit := (10 ^ Z.of_nat places)%Z in
  let scaled := q * inject_Z unit in
  Qmake (if Qle_bool 0 q then Qfloor (scaled + (1 # 2)) else Qceiling (scaled - (1 # 2)))
        (Z.to_pos unit).

(** A column decimal(precision, scale) holds [q] when the rounded value has
    at most precision - scale digits before the point. *)
Definition fitsDecimal (precision scale : nat) (q : Q) : bool :=
  negb (Qle_bool (inject_Z (10 ^ Z.of_nat (precision - scale)))
                 (Qabs (roundHalfAway scale q))).

(** *** storeRecommendations *)

Record RecommendationValues := {
  rv_customerId : option Z;
  rv_sessionId : string;
  rv_productId : Z;
  rv_recommendationType : string;
  rv_score : Q;
  rv_reasons : list string
}.

(** The row the table keeps of the values: score is decimal(5,4); shown,
    clicked and purchased default to false, createdAt to NOW(). *)
Definition storedRecommendation (now : Z) (v : RecommendationValues) : RecommendationRow :=
  {| rec_customerId := rv_customerId v;
     rec_sessionId := rv_sessionId v;
     rec_productId := rv_productId v;
     rec_recommendationType := rv_recommendationType v;
     rec_score := roundHalfAway 4 (rv_score v);
     rec_reasons := rv_reasons v;
     rec_shown := false; rec_clicked := false; rec_purchased := false;
     rec_shownAt := None; rec_clickedAt := None; rec_purchasedAt := None;
     rec_createdAt := now |}.

(** What the recommendations table asks of a row: the customer and the
    product exist, and the score fits its column. *)
Definition recommendationAccepted (db : StoreDb) (v : RecommendationValues) : bool :=
  foreignKeyHolds (rv_customerId v) (customers db)
  && foreignKeyHolds (Some (rv_productId v)) (products db)
  && fitsDecimal 5 4 (rv_score v).

(** INSERT INTO recommendations of several rows in one statement: all rows
    are written, or the statement fails (the error names the table). *)
Definition insertRecommendations (values : list RecommendationValues) (db : StoreDb) (now : Z)
  : Outcome StoreDb :=
  if forallb (recommendationAccepted db) values
  then Resolved {| customers := customers db; products := products db;
                   customerBehavior := customerBehavior db;
                   productViews := productViews db;
                   recommendations :=
                     recommendations db ++ map (storedRecommendation now) values;
                   productCategoryMappings := productCategoryMappings db |}
  else Rejected (ForeignKeyViolation "recommendations").

(** An element of [recommendationsToStore]. *)
Definition recommendationToStore (request : RecommendationRequest)
    (result : RecommendationResult) : RecommendationValues :=
  {| rv_customerId := customerId request;
     rv_sessionId := sessionId request;
     rv_productId := productId result;
     rv_recommendationType := type result;
     rv_score := score result;
     rv_reasons := reasons result |}.

Definition storeRecommendations (request : RecommendationRequest)
    (recommendationResults : list RecommendationResult) : Async unit :=
  let! storeDb := getStoreDatabase (storeId request) in
  try_catch
    (let recommendationsToStore :=
       map (recommendationToStore request) recommendationResults in
     if (0 <? length recommendationsToStore)%nat
     then execute storeDb (insertRecommendations recommendationsToStore)
     else ret tt)
    (fun error => consoleError "Error storing recommendations:" error).

(** *** getRecommendationAnalytics *)

Record AnalyticsRow := {
  an_recommendationType : string;
  an_totalShown : Z;
  an_totalClicked : Z;
  an_totalPurchased : Z;
  an_clickThroughRate : Q;
  an_conversionRate : Q
}.

(** [getRecommendationAnalytics(storeId, days = 30)].  The statement is
    written with [days] inside the quotes of the interval,
      [gt(recommendations.createdAt, sql`NOW() - INTERVAL '${days} days'`)],
    so that its text reads
      [... WHERE shown = $1 AND created_at > NOW() - INTERVAL '$2 days' ...]:
    the literal is not an interval, and the statement has one placeholder,
    [$1], for two bound values, [true] and [days].  The server rejects the
    statement on every call, and the catch returns no row. *)
Definition invalidInterval : string := "invalid input syntax for type interval".

Definition getRecommendationAnalytics (storeId : Z) (period : option Z)
  : Async (list AnalyticsRow) :=
  let period := default 30%Z period in
  let! storeDb := getStoreDatabase storeId in
  try_catch
    (selectRejected invalidInterval storeDb)
    (fun error =>
       let! _ := consoleError "Error getting recommendation analytics:" error in ret []).

(* ------------------------------------------------------------------ *)
(** ** server/db.ts: the methods of MultiDatabaseManager beside
       [getStoreDbByUrl] and [createStoreDatabase] *)

(** [await mainDb.select()...]: a query on the stores table; it rejects when
    the main pool cannot be reached.  Of the other tables of the main
    database only this reachability is kept. *)
Definition selectMain {A : Type} (query : list Store -> A) : Async A :=
  fun w => match mainStores w with
           | Some rows => (Resolved (query rows), w)
           | None => (Rejected MainDatabaseDown, w)
           end.

Record ConnectionStats := {
  cs_mainDatabase_connected : bool;
  cs_storeDatabases_count : nat;
  cs_storeDatabases_connections : list string
}.

Record HealthCheckResults := {
  hc_main : bool;
  hc_stores : list (string * bool)
}.

Module MultiDatabaseManager.

(** [getStoreDb(storeId)]: the connection of a store by its id. *)
Definition getStoreDb (storeId : Z) : Async Handle :=
  let! rows := selectMain (filter (fun s => bool_decide (store_id s = storeId))) in
  match rows with
  | store :: _ => getStoreDbByUrl (store_databaseUrl store)
  | [] => throw (StoreNotFound storeId)
  end.

(** [getConnectionStats]; the keys of the cache are listed in the order of
    the set, which is not the order of insertion. *)
Definition getConnectionStats (w : World) : ConnectionStats :=
  {| cs_mainDatabase_connected := true;
     cs_storeDatabases_count := size (storeDbConnections w);
     cs_storeDatabases_connections := elements (storeDbConnections w) |}.

(** The loop of [healthCheck] over the entries of the cache. *)
Fixpoint checkStores (entries : list string) : Async (list (string * bool)) :=
  match entries with
  | [] => ret []
  | url :: rest =>
      let! healthy :=
        try_catch
          (let! _ := select url (fun db _ => firstn 1 (products db)) in ret true)
          (fun error =>
             let! _ := consoleError ("Store database health check failed for " +:+ url +:+ ":")
                         error in
             ret false) in
      let! stores := checkStores rest in
      ret ((url, healthy) :: stores)
  end.

Definition healthCheck : Async HealthCheckResults :=
  let! main :=
    try_catch
      (let! _ := selectMain (fun _ => tt) in ret true)
      (fun error =>
         let! _ := consoleError "Main database health check failed:" error in ret false) in
  fun w =>
    (let! stores := checkStores (elements (storeDbConnections w)) in
     ret {| hc_main := main; hc_stores := stores |}) w.

End MultiDatabaseManager.

(* ------------------------------------------------------------------ *)
(** ** server/routes.ts: the routes of the recommendation engine

    A request body is read with the types the engine declares for its
    fields; a field the body lacks is [None]. *)

Inductive ResponseBody :=
| ErrorBody (error : string)
| MessageBody (message : string)
| SuccessBody
| RecommendationsBody (recommendations : list RecommendationResult)
| AnalyticsBody (analytics : list AnalyticsRow).

(** [res.status(status).json(body)]; [res.json(body)] answers 200. *)
Record Response := {
  status : Z;
  body : ResponseBody
}.

Definition json (body : ResponseBody) : Response := {| status := 200; body := body |}.

(** A JavaScript string-or-undefined used as a condition. *)
Definition truthyString (s : option string) : option string :=
  match s with
  | Some s => if bool_decide (s = "") then None else Some s
  | None => None
  end.

Record RecommendationsRequestBody := {
  rrb_storeId : option Z;
  rrb_customerId : option Z;
  rrb_sessionId : option string;
  rrb_limit : option nat;
  rrb_excludeProductIds : option (list Z);
  rrb_type : option RecommendationType
}.

(** POST /api/recommendations *)
Definition postRecommendations (reqBody : RecommendationsRequestBody) : Async Response :=
  try_catch
    (match truthy (rrb_storeId reqBody), truthyString (rrb_sessionId reqBody) with
     | Some storeId, Some sessionId =>
         let! recommendations :=
           generateRecommendations
             {| storeId := storeId;
                customerId := rrb_customerId reqBody;
                sessionId := sessionId;
                limit := rrb_limit reqBody;
                excludeProductIds := rrb_excludeProductIds reqBody;
                requestType := rrb_type reqBody |} in
         ret (json (RecommendationsBody recommendations))
     | _, _ =>
         ret {| status := 400; body := ErrorBody "storeId and sessionId are required" |}
     end)
    (fun error =>
       let! _ := consoleError "Error generating recommendations:" error in
       ret {| status := 500; body := ErrorBody "Failed to generate recommendations" |}).

Record TrackBehaviorRequestBody := {
  tbb_customerId : option Z;
  tbb_sessionId : option string;
  tbb_storeId : option Z;
  tbb_productId : option Z;
  tbb_action : option Action;
  tbb_searchQuery : option string;
  tbb_timeSpent : option Z
}.

(** POST /api/track-behavior *)
Definition postTrackBehavior (reqBody : TrackBehaviorRequestBody) : Async Response :=
  try_catch
    (match truthyString (tbb_sessionId reqBody), truthy (tbb_storeId reqBody),
           tbb_action reqBody with
     | Some sessionId, Some storeId, Some action =>
         let! _ :=
           trackBehavior
             {| bd_customerId := tbb_customerId reqBody;
                bd_sessionId := sessionId;
                bd_storeId := storeId;
                bd_productId := tbb_productId reqBody;
                bd_action := action;
                bd_searchQuery := tbb_searchQuery reqBody;
                bd_timeSpent := tbb_timeSpent reqBody |} in
         ret (json SuccessBody)
     | _, _, _ =>
         ret {| status := 400;
                body := ErrorBody "sessionId, storeId, and action are required" |}
     end)
    (fun error =>
       let! _ := consoleError "Error tracking behavior:" error in
       ret {| status := 500; body := ErrorBody "Failed to track behavior" |}).

(** The middleware [requireAuth] before a handler. *)
Definition requireAuth (isAuthenticated : bool) (next : Async Response) : Async Response :=
  if negb isAuthenticated
  then ret {| status := 401; body := MessageBody "Authentication required" |}
  else next.

(** GET /api/recommendation-analytics/:storeId; [storeId] and [days] are
    the results of parseInt, [None] for NaN. *)
Definition getRecommendationAnalyticsRoute (isAuthenticated : bool)
    (storeId period : option Z) : Async Response :=
  requireAuth isAuthenticated
    (try_catch
       (let period := default 30%Z (truthy period) in
        match truthy storeId with
        | None => ret {| status := 400; body := ErrorBody "Invalid store ID" |}
        | Some storeId =>
            let! analytics := getRecommendationAnalytics storeId (Some period) in
            ret (json (AnalyticsBody analytics))
        end)
       (fun error =>
          let! _ := consoleError "Error getting recommendation analytics:" error in
          ret {| status := 500;
                 body := ErrorBody "Failed to get recommendation analytics" |})).

(* ------------------------------------------------------------------ *)
(** ** Measures and sample data of the functions above *)

(** The flag a feedback action sets, and its timestamp. *)
Definition flagOf (action : FeedbackAction) (r : RecommendationRow) : bool :=
  match action with
  | shown => rec_shown r
  | clicked => rec_clicked r
  | purchased => rec_purchased r
  end.

Definition stampOf (action : FeedbackAction) (r : RecommendationRow) : option Z :=
  match action with
  | shown => rec_shownAt r
  | clicked => rec_clickedAt r
  | purchased => rec_purchasedAt r
  end.


(** Two results of a request, for products 10 and 11. *)
Definition sampleResults : list RecommendationResult :=
  [ {| productId := 10; score := 39 # 100; type := "hybrid";
       reasons := ["Trending this week"] |};
    {| productId := 11; score := 1 # 3; type := "hybrid";
       reasons := ["Similar to products you viewed"] |} ].

(** The world when the clock shows [t]. *)
Definition withNow (t : Z) (w : World) : World :=
  {| DATABASE_URL := DATABASE_URL w; mainStores := mainStores w; databases := databases w;
     storeDbConnections := storeDbConnections w; now := t; console := console w |}.

(** The purchase events of customer [d] on products that customer [c]
    purchased. *)
Definition sharedPurchases (c d : Z) (db : StoreDb) : list CustomerBehaviorRow :=
  filter (fun r => bool_decide (cb_customerId r = Some d))
         (filter (fun r => bool_decide (cb_action r = purchase)
                           && sqlIn (cb_productId r) (purchasedProductIds c db))
                 (customerBehavior db)).

(* ------------------------------------------------------------------ *)
(** ** client/src/pages/storefront.tsx: the cart *)

Record CartItem := {
  ci_productId : Z;
  ci_quantity : Z
}.

(** The update [addToCart] passes to [setCart]. *)
Definition addToCart (productId : Z) (prev : list CartItem) : list CartItem :=
  match find (fun item => bool_decide (ci_productId item = productId)) prev with
  | Some existing =>
      map (fun item => if bool_decide (ci_productId item = productId)
                       then {| ci_productId := ci_productId item;
                               ci_quantity := ci_quantity item + 1 |}
                       else item) prev
  | None => prev ++ [ {| ci_productId := productId; ci_quantity := 1 |} ]
  end.

Definition getCartItemCount (cart : list CartItem) : Z :=
  fold_left (fun total item => total + ci_quantity item)%Z cart 0%Z.

(** The cart after adding the products of a list, one after the other, to
    the empty cart of the first render. *)
Definition cartAfter (added : list Z) : list CartItem :=
  fold_left (fun cart productId => addToCart productId cart) added [].

(** The quantity the cart shows for a product, 0 when it has no item. *)
Definition quantityOf (productId : Z) (cart : list CartItem) : Z :=
  match find (fun item => bool_decide (ci_productId item = productId)) cart with
  | Some item => ci_quantity item
  | None => 0%Z
  end.

(** What an append-only write leaves of a world [w] in [w']: the stores
    table and the clock, every database that was reached, with its
    customers, products, recommendations and category mappings, and the rows
    its two logs had, in their order, before any new row. *)
Definition appendsOnly (w w' : World) : Prop :=
  mainStores w' = mainStores w
  /\ now w' = now w
  /\ forall url,
       match databases w !! url with
       | Some db =>
           exists db',
             databases w' !! url = Some db'
             /\ customers db' = customers db
             /\ products db' = products db
             /\ recommendations db' = recommendations db
             /\ productCategoryMappings db' = productCategoryMappings db
             /\ (exists new, customerBehavior db' = customerBehavior db ++ new)
             /\ (exists new, productViews db' = productViews db ++ new)
       | None => databases w' !! url = None
       end.

(** The number of the given categories a product belongs to. *)
Definition categoriesOf (categoryIds : list Z) (db : StoreDb) (p : Z) : Z :=
  countRows
    (filter (fun k => existsb (fun m => bool_decide (pcm_productId m = p)
                                        && bool_decide (pcm_categoryId m = k))
                              (productCategoryMappings db))
            categoryIds).

(** The session viewed product 10, which is in categories 1, 2 and 3;
    product 11 is in category 1, and its mapping is stored twice. *)
Definition repeatedMappingDb : StoreDb :=
  {| customers := [1; 2; 3]%Z; products := [10; 11; 12; 13]%Z; customerBehavior := [];
     productViews := [productView None "session-1" 10 (days 9)];
     recommendations := [];
     productCategoryMappings :=
       [ {| pcm_productId := 10; pcm_categoryId := 1 |};
         {| pcm_productId := 10; pcm_categoryId := 2 |};
         {| pcm_productId := 10; pcm_categoryId := 3 |};
         {| pcm_productId := 11; pcm_categoryId := 1 |};
         {| pcm_productId := 11; pcm_categoryId := 1 |} ] |}.

(** Customer 1 bought products 10 and 11; customer 2 bought products 10 and
    11 and, twice, product 12. *)
Definition repeatPurchaseDb : StoreDb :=
  withBehavior
    [ behaviorEvent (Some 1%Z) purchase (Some 10%Z) (days 1);
      behaviorEvent (Some 1%Z) purchase (Some 11%Z) (days 2);
      behaviorEvent (Some 2%Z) purchase (Some 10%Z) (days 3);
      behaviorEvent (Some 2%Z) purchase (Some 11%Z) (days 4);
      behaviorEvent (Some 2%Z) purchase (Some 12%Z) (days 5);
      behaviorEvent (Some 2%Z) purchase (Some 12%Z) (days 6) ]
    emptyStoreDb.

(** Customer 1 bought products 10 and 11, customer 2 bought 10, 11 and 12,
    and customer 3 bought product 10 twice and product 12. *)
Definition sharedTwiceDb : StoreDb :=
  withBehavior
    [ behaviorEvent (Some 1%Z) purchase (Some 10%Z) (days 1);
      behaviorEvent (Some 1%Z) purchase (Some 11%Z) (days 2);
      behaviorEvent (Some 2%Z) purchase (Some 10%Z) (days 3);
      behaviorEvent (Some 2%Z) purchase (Some 11%Z) (days 4);
      behaviorEvent (Some 2%Z) purchase (Some 12%Z) (days 5);
      behaviorEvent (Some 3%Z) purchase (Some 10%Z) (days 6);
      behaviorEvent (Some 3%Z) purchase (Some 10%Z) (days 7);
      behaviorEvent (Some 3%Z) purchase (Some 12%Z) (days 8) ]
    emptyStoreDb.

(** Customer 1, in session-1, clicked the recommendation of product 10. *)
Definition customerClickedFeedback : FeedbackData :=
  {| fb_storeId := 1; fb_customerId := Some 1%Z; fb_sessionId := "session-1";
     fb_productId := 10; fb_action := clicked |}.

(** A recommendations table where product 10 was recommended to session-1
    twice. *)
Definition recommendedTwiceDb : StoreDb :=
  {| customers := [1; 2; 3]%Z; products := [10; 11; 12; 13]%Z; customerBehavior := [];
     productViews := [];
     recommendations := [recommendationRow "session-1" 10; recommendationRow "session-1" 10];
     productCategoryMappings := [] |}.

(* ================================================================== *)
(** * Properties *)

(** ** Sorting *)

Section SortFacts.
Context {A : Type} (before : A -> A -> bool).

Lemma insertSorted_perm (x : A) (l : list A) :
  Permutation (insertSorted before x l) (x :: l).
Proof.
  induction l as [|y t IH]; simpl; [reflexivity|].
  destruct (before x y); [reflexivity|].
  rewrite IH. apply perm_swap.
Qed.

Lemma stableSort_perm (l : list A) : Permutation (stableSort before l) l.
Proof.
  induction l as [|x t IH]; simpl; [constructor|].
  rewrite insertSorted_perm. now constructor.
Qed.

Lemma stableSort_In (l : list A) (x : A) : In x (stableSort before l) <-> In x l.
Proof.
  split; apply Permutation_in; [|symmetry]; apply stableSort_perm.
Qed.

Lemma stableSort_length (l : list A) : length (stableSort before l) = length l.
Proof. apply Permutation_length, stableSort_perm. Qed.

Hypothesis before_total : forall x y, before x y = true \/ before y x = true.
Hypothesis before_trans :
  forall x y z, before x y = true -> before y z = true -> before x z = true.

Let ahead (x y : A) : Prop := before x y = true.

Lemma insertSorted_sorted (x : A) (l : list A) :
  StronglySorted ahead l -> StronglySorted ahead (insertSorted before x l).
Proof using before_total before_trans.
  induction 1 as [|y t Hs IH Hy]; simpl.
  - repeat constructor.
  - destruct (before x y) eqn:Hxy.
    + constructor; [now constructor|].
      constructor; [exact Hxy|].
      eapply Forall_impl; [|exact Hy].
      intros z Hz. now apply before_trans with y.
    + constructor; [exact IH|].
      apply Forall_forall. intros z Hz.
      apply (Permutation_in _ (insertSorted_perm x t)) in Hz.
      destruct Hz as [<-|Hz].
      * destruct (before_total x y) as [H|H]; [congruence|exact H].
      * rewrite Forall_forall in Hy. now apply Hy.
Qed.

Lemma stableSort_sorted (l : list A) : StronglySorted ahead (stableSort before l).
Proof using before_total before_trans.
  induction l as [|x t IH]; simpl; [constructor|].
  now apply insertSorted_sorted.
Qed.
End SortFacts.

Lemma firstn_In {A : Type} (n : nat) (l : list A) (x : A) :
  In x (firstn n l) -> In x l.
Proof.
  intros H. rewrite <- (firstn_skipn n l). apply in_or_app. now left.
Qed.

Lemma skipn_In {A : Type} (n : nat) (l : list A) (x : A) :
  In x (skipn n l) -> In x l.
Proof.
  intros H. rewrite <- (firstn_skipn n l). apply in_or_app. now right.
Qed.

Lemma StronglySorted_weaken {A : Type} (R S : A -> A -> Prop) (l : list A) :
  (forall x y, R x y -> S x y) -> StronglySorted R l -> StronglySorted S l.
Proof.
  intros HRS. induction 1 as [|x t Hs IH Hx]; constructor; [exact IH|].
  eapply Forall_impl; [|exact Hx]. intros y. apply HRS.
Qed.

(** A prefix of a sorted list is sorted and stands ahead of what it leaves
    out. *)
Lemma StronglySorted_firstn {A : Type} (R : A -> A -> Prop) (n : nat) (l : list A) :
  StronglySorted R l -> StronglySorted R (firstn n l).
Proof.
  intros Hs. revert n.
  induction Hs as [|x t Hs IH Hx]; intros [|n]; simpl; try constructor.
  - apply IH.
  - rewrite Forall_forall in *. intros y Hy. apply Hx.
    eapply firstn_In. exact Hy.
Qed.

Lemma StronglySorted_firstn_skipn {A : Type} (R : A -> A -> Prop) (n : nat) (l : list A) :
  StronglySorted R l ->
  forall x y, In x (firstn n l) -> In y (skipn n l) -> R x y.
Proof.
  intros Hs. revert n.
  induction Hs as [|a t Hs IH Ha]; intros n x y Hx Hy.
  - destruct n; destruct Hx.
  - destruct n as [|n]; simpl in *; [destruct Hx|].
    destruct Hx as [<-|Hx].
    + rewrite Forall_forall in Ha. apply Ha. eapply skipn_In. exact Hy.
    + eapply IH; eassumption.
Qed.

Lemma StronglySorted_hd {A : Type} (R : A -> A -> Prop) (x : A) (l : list A) :
  StronglySorted R (x :: l) -> forall y, In y l -> R x y.
Proof.
  intros Hs y Hy. apply StronglySorted_inv in Hs as [_ Hx].
  rewrite Forall_forall in Hx. now apply Hx.
Qed.

Lemma orderByDesc_sorted {A : Type} (key : A -> Z) (l : list A) :
  StronglySorted (fun x y => (key y <= key x)%Z) (orderByDesc key l).
Proof.
  unfold orderByDesc.
  eapply StronglySorted_weaken; [|apply stableSort_sorted].
  - intros x y H. now apply Z.leb_le.
  - intros x y. rewrite !Z.leb_le. lia.
  - intros x y z. rewrite !Z.leb_le. lia.
Qed.

Lemma orderByDesc_perm {A : Type} (key : A -> Z) (l : list A) :
  Permutation (orderByDesc key l) l.
Proof. apply stableSort_perm. Qed.

Lemma orderByDesc_In {A : Type} (key : A -> Z) (l : list A) (x : A) :
  In x (orderByDesc key l) <-> In x l.
Proof. apply stableSort_In. Qed.

Lemma sortByScore_sorted (l : list RecommendationResult) :
  StronglySorted (fun a b => score b <= score a) (sortByScore l).
Proof.
  unfold sortByScore.
  eapply StronglySorted_weaken; [|apply stableSort_sorted].
  - intros x y H. now apply Qle_bool_iff.
  - intros x y. rewrite !Qle_bool_iff.
    destruct (Qlt_le_dec (score x) (score y)) as [H|H]; [right; now apply Qlt_le_weak|now left].
  - intros x y z. rewrite !Qle_bool_iff. intros H1 H2. now apply Qle_trans with (score y).
Qed.

Lemma sortByScore_perm (l : list RecommendationResult) : Permutation (sortByScore l) l.
Proof. apply stableSort_perm. Qed.

(** ** Distinct elements and groups *)

Section DistinctFacts.
Context {A : Type} `{EqDecision A}.

Lemma distinct_In (l : list A) (x : A) : In x (distinct l) <-> In x l.
Proof.
  induction l as [|y t IH]; simpl; [tauto|].
  rewrite filter_In, IH.
  destruct (decide (x = y)) as [->|Hne].
  - tauto.
  - rewrite bool_decide_eq_false_2 by exact Hne. simpl.
    split; [intros [?|[? _]]; auto|intros [?|?]; auto].
Qed.

Lemma NoDup_filter (f : A -> bool) (l : list A) : NoDup l -> NoDup (filter f l).
Proof.
  induction 1 as [|x t Hx Ht IH]; simpl; [constructor|].
  destruct (f x); [|exact IH].
  constructor; [|exact IH]. rewrite filter_In. tauto.
Qed.

Lemma distinct_NoDup (l : list A) : NoDup (distinct l).
Proof.
  induction l as [|x t IH]; simpl; constructor.
  - rewrite filter_In. intros [_ H].
    rewrite bool_decide_eq_true_2 in H by reflexivity. discriminate.
  - now apply NoDup_filter.
Qed.
End DistinctFacts.

Section GroupFacts.
Context {A K : Type} `{EqDecision K} (key : A -> K).

Lemma groupBy_keys (rows : list A) :
  map fst (groupBy key rows) = distinct (map key rows).
Proof.
  unfold groupBy. rewrite map_map. simpl. apply map_id.
Qed.

Lemma groupBy_NoDup (rows : list A) : NoDup (map fst (groupBy key rows)).
Proof. rewrite groupBy_keys. apply distinct_NoDup. Qed.

Lemma groupBy_In (rows : list A) (g : K * list A) :
  In g (groupBy key rows) <->
  In (fst g) (map key rows)
  /\ snd g = filter (fun r => bool_decide (key r = fst g)) rows.
Proof.
  unfold groupBy. rewrite in_map_iff. split.
  - intros (k & <- & Hk). simpl. split; [|reflexivity].
    now apply (proj1 (distinct_In _ _)) in Hk.
  - intros [Hk Hg]. exists (fst g). split.
    + destruct g as [k rs]; simpl in *. rewrite Hg. reflexivity.
    + now apply distinct_In.
Qed.

Lemma groupBy_rows_nonempty (rows : list A) (g : K * list A) :
  In g (groupBy key rows) -> snd g <> [].
Proof.
  intros Hg. apply groupBy_In in Hg as [Hk Hrows].
  apply in_map_iff in Hk as (r & Hr & Hin).
  assert (In r (snd g)) as Hmem.
  { rewrite Hrows. apply filter_In. split; [exact Hin|].
    now apply bool_decide_eq_true_2. }
  intros Hnil. rewrite Hnil in Hmem. destruct Hmem.
Qed.
End GroupFacts.

(** The groups of GROUP BY partition the rows. *)
Lemma count_by_key {A K : Type} `{EqDecision K} (key : A -> K) (ks : list K)
    (rows : list A) :
  NoDup ks -> (forall r, In r rows -> In (key r) ks) ->
  fold_right Z.add 0%Z
    (map (fun k => countRows (filter (fun r => bool_decide (key r = k)) rows)) ks)
  = countRows rows.
Proof.
  intros Hnd. induction rows as [|r t IH]; intros Hks.
  - clear. unfold countRows. simpl.
    induction ks as [|k ks IH]; simpl in *; [reflexivity|exact IH].
  - specialize (IH (fun r' Hr' => Hks r' (or_intror Hr'))).
    pose proof (Hks r (or_introl eq_refl)) as Hr.
    unfold countRows in *. simpl length. rewrite Nat2Z.inj_succ, <- IH. clear IH Hks.
    induction ks as [|k ks IHks]; [destruct Hr|].
    apply NoDup_cons_iff in Hnd as [Hk Hnd]. simpl map. simpl fold_right.
    destruct (decide (key r = k)) as [Heq|Hneq].
    + rewrite (bool_decide_eq_true_2 _ Heq). simpl length. rewrite Nat2Z.inj_succ.
      assert (forall l, ~ In (key r) l ->
                map (fun k0 => Z.of_nat (length (filter (fun r0 => bool_decide (key r0 = k0))
                                                   (r :: t)))) l
                = map (fun k0 => Z.of_nat (length (filter (fun r0 => bool_decide (key r0 = k0))
                                                     t))) l) as Hout.
      { intros l Hl. apply map_ext_in. intros k0 Hk0. simpl.
        rewrite bool_decide_eq_false_2; [reflexivity|]. intros E. apply Hl. now rewrite E. }
      rewrite Hout by now rewrite Heq. lia.
    + rewrite (bool_decide_eq_false_2 _ Hneq).
      destruct Hr as [E|Hr]; [congruence|].
      specialize (IHks Hnd Hr). lia.
Qed.

(** ** Keys stay distinct under the steps of a query *)

Section KeyFacts.
Context {A K : Type} (key : A -> K).

Lemma NoDup_map_filter (f : A -> bool) (l : list A) :
  NoDup (map key l) -> NoDup (map key (filter f l)).
Proof.
  induction l as [|x t IH]; simpl; [trivial|].
  intros H. apply NoDup_cons_iff in H as [Hx Ht].
  destruct (f x); simpl; [|now apply IH].
  constructor; [|now apply IH].
  intros Hin. apply Hx.
  apply in_map_iff in Hin as (y & Hy & Hin).
  apply filter_In in Hin as [Hin _].
  apply in_map_iff. now exists y.
Qed.

Lemma NoDup_map_firstn (n : nat) (l : list A) :
  NoDup (map key l) -> NoDup (map key (firstn n l)).
Proof.
  intros H. rewrite <- (firstn_skipn n l), map_app in H.
  now apply NoDup_app_remove_r in H.
Qed.

Lemma NoDup_map_perm (l l' : list A) :
  Permutation l l' -> NoDup (map key l) -> NoDup (map key l').
Proof.
  intros Hp. apply Permutation_NoDup. now apply Permutation_map.
Qed.

Lemma NoDup_map_orderByDesc (rank : A -> Z) (l : list A) :
  NoDup (map key l) -> NoDup (map key (orderByDesc rank l)).
Proof.
  apply NoDup_map_perm. symmetry. apply orderByDesc_perm.
Qed.

End KeyFacts.

(** ** [mapWithIndex] *)

Section MapWithIndexFacts.
Context {A B : Type} (f : A -> nat -> B).

Lemma mapWithIndex_length (l : list A) (start : nat) :
  length (mapWithIndex f start l) = length l.
Proof.
  revert start. induction l as [|x t IH]; intros start; simpl; [reflexivity|].
  now rewrite IH.
Qed.

Lemma mapWithIndex_nth_error (l : list A) (start i : nat) :
  nth_error (mapWithIndex f start l) i
  = option_map (fun x => f x (start + i)%nat) (nth_error l i).
Proof.
  revert start i. induction l as [|x t IH]; intros start [|i]; simpl; try reflexivity.
  - now rewrite Nat.add_0_r.
  - rewrite IH. now rewrite Nat.add_succ_comm.
Qed.

Lemma mapWithIndex_In (l : list A) (start : nat) (y : B) :
  In y (mapWithIndex f start l) -> exists x i, In x l /\ y = f x i.
Proof.
  revert start. induction l as [|x t IH]; intros start; simpl; [tauto|].
  intros [<-|H].
  - exists x, start. auto.
  - apply IH in H as (x' & i & Hx & ->). exists x', i. auto.
Qed.

Lemma mapWithIndex_map {C : Type} (g : B -> C) (h : A -> C) (l : list A) (start : nat) :
  (forall x i, g (f x i) = h x) ->
  map g (mapWithIndex f start l) = map h l.
Proof.
  intros Hgh. revert start.
  induction l as [|x t IH]; intros start; simpl; [reflexivity|].
  now rewrite Hgh, IH.
Qed.
End MapWithIndexFacts.


(** ** Running the asynchronous functions *)

Lemma sameData_refl (w : World) : sameData w w.
Proof. repeat split. Qed.

Lemma sameData_trans (w1 w2 w3 : World) :
  sameData w1 w2 -> sameData w2 w3 -> sameData w1 w3.
Proof.
  intros (?&?&?&?) (?&?&?&?). repeat split; congruence.
Qed.

Lemma withConsole_sameData (c : list (string * Error)) (w : World) :
  sameData w (withConsole c w).
Proof. repeat split. Qed.

Lemma getStoreDbByUrl_run (databaseUrl : string) (w : World) :
  exists w', getStoreDbByUrl databaseUrl w = (Resolved databaseUrl, w')
             /\ sameData w w' /\ console w' = console w.
Proof.
  unfold getStoreDbByUrl. eexists. split; [reflexivity|].
  destruct (bool_decide _); repeat split.
Qed.

(** [getStoreDatabase] rejects and leaves the world alone, or resolves with
    the connection string of the store. *)
Lemma getStoreDatabase_run (id : Z) (w : World) :
  (exists e, getStoreDatabase id w = (Rejected e, w))
  \/ (exists storeDb w', getStoreDatabase id w = (Resolved storeDb, w')
                         /\ sameData w w' /\ console w' = console w).
Proof.
  unfold getStoreDatabase, bind, getStore.
  destruct (mainStores w) as [rows|]; [|left; eauto].
  destruct (hd_error _) as [store|]; [|left; unfold throw; eauto].
  right. unfold getStoreDb.
  destruct (getStoreDbByUrl_run (store_databaseUrl store) w) as (w' & -> & Hw).
  eauto.
Qed.

(** The handle depends on the stores table only. *)
Lemma getStoreDatabase_fst_sameData (id : Z) (w1 w2 : World) :
  sameData w1 w2 -> fst (getStoreDatabase id w1) = fst (getStoreDatabase id w2).
Proof.
  intros (_ & Hs & _). unfold getStoreDatabase, bind, getStore. rewrite Hs.
  destruct (mainStores w2) as [rows|]; [|reflexivity].
  destruct (hd_error _) as [store|]; reflexivity.
Qed.

Lemma select_run {A : Type} (storeDb : Handle) (query : StoreDb -> Z -> A) (w : World) :
  select storeDb query w
  = (match databases w !! storeDb with
     | Some db => Resolved (query db (now w))
     | None => Rejected (ConnectionFailed storeDb)
     end, w).
Proof. unfold select. destruct (databases w !! storeDb); reflexivity. Qed.

Lemma selectIf_run {A : Type} (accepted : bool) (reason : string) (storeDb : Handle)
    (query : StoreDb -> Z -> A) (w : World) :
  selectIf accepted reason storeDb query w
  = (match databases w !! storeDb with
     | Some db => if accepted then Resolved (query db (now w))
                  else Rejected (StatementRejected reason)
     | None => Rejected (ConnectionFailed storeDb)
     end, w).
Proof.
  unfold selectIf, select, selectRejected.
  destruct accepted, (databases w !! storeDb); reflexivity.
Qed.

Ltac run_store request w :=
  let e := fresh "e" in
  let storeDb := fresh "storeDb" in
  let w1 := fresh "w" in
  let Hrun := fresh "Hrun" in
  let Hsame := fresh "Hsame" in
  let Hdb := fresh "Hdb" in
  let Hnow := fresh "Hnow" in
  destruct (getStoreDatabase_run (storeId request) w)
    as [(e & Hrun)|(storeDb & w1 & Hrun & Hsame & _)];
  unfold bind; rewrite Hrun; simpl;
  [split; [apply sameData_refl|reflexivity]
  |pose proof Hsame as (_ & _ & Hdb & Hnow);
   unfold try_catch, bind; rewrite ?select_run, ?selectIf_run; simpl;
   rewrite <- ?Hdb, <- ?Hnow].

Lemma generateTrendingRecommendations_reads :
  readsStore generateTrendingRecommendations trendingOn.
Proof.
  intros request w. unfold generateTrendingRecommendations.
  run_store request w. unfold trendingOn.
  destruct (databases w !! storeDb) as [db|]; simpl;
    [destruct (exclusionAccepted _); simpl|].
  - split; [exact Hsame|reflexivity].
  - split; [|reflexivity].
    eapply sameData_trans; [exact Hsame|apply withConsole_sameData].
  - split; [|reflexivity].
    eapply sameData_trans; [exact Hsame|apply withConsole_sameData].
Qed.

Lemma generateRecentlyViewedRecommendations_reads :
  readsStore generateRecentlyViewedRecommendations recentlyViewedOn.
Proof.
  intros request w. unfold generateRecentlyViewedRecommendations.
  run_store request w. unfold recentlyViewedOn.
  destruct (databases w !! storeDb) as [db|]; simpl;
    [destruct (exclusionAccepted _); simpl|].
  - split; [exact Hsame|reflexivity].
  - split; [|reflexivity].
    eapply sameData_trans; [exact Hsame|apply withConsole_sameData].
  - split; [|reflexivity].
    eapply sameData_trans; [exact Hsame|apply withConsole_sameData].
Qed.

Lemma generateContentBasedRecommendations_reads :
  readsStore generateContentBasedRecommendations contentBasedOn.
Proof.
  intros request w. unfold generateContentBasedRecommendations.
  run_store request w.
  destruct (databases w !! storeDb) as [db|] eqn:Hlookup; simpl.
  - unfold contentBasedOn, topCategoryIdsOn.
    destruct (length (viewedProductsQuery _ _ db (now w)) =? 0)%nat; simpl.
    + split; [exact Hsame|reflexivity].
    + unfold bind. rewrite select_run, <- Hdb, <- Hnow, Hlookup.
      destruct (length (productCategoriesQuery _ db (now w)) =? 0)%nat; simpl.
      * split; [exact Hsame|reflexivity].
      * unfold bind. rewrite selectIf_run, <- Hdb, <- Hnow, Hlookup.
        destruct (joinedIsInteger _ && exclusionAccepted _); simpl.
        -- split; [exact Hsame|reflexivity].
        -- split; [|reflexivity].
           eapply sameData_trans; [exact Hsame|apply withConsole_sameData].
  - split; [|reflexivity].
    eapply sameData_trans; [exact Hsame|apply withConsole_sameData].
Qed.

Lemma generateCollaborativeRecommendations_reads :
  readsStore generateCollaborativeRecommendations collaborativeOn.
Proof.
  intros request w. unfold generateCollaborativeRecommendations.
  run_store request w.
  unfold collaborativeOn.
  destruct (truthy (customerId request)) as [c|]; simpl.
  - unfold try_catch, bind. rewrite select_run, <- Hdb, <- Hnow.
    destruct (databases w !! storeDb) as [db|] eqn:Hlookup; simpl.
    + destruct (length (similarCustomersQuery c db (now w)) =? 0)%nat; simpl.
      * split; [exact Hsame|reflexivity].
      * unfold bind. rewrite selectIf_run, <- Hdb, <- Hnow, Hlookup.
        destruct (exclusionAccepted _); simpl.
        -- split; [exact Hsame|reflexivity].
        -- split; [|reflexivity].
           eapply sameData_trans; [exact Hsame|apply withConsole_sameData].
    + split; [|reflexivity].
      eapply sameData_trans; [exact Hsame|apply withConsole_sameData].
  - split; [exact Hsame|].
    destruct (databases w !! storeDb); reflexivity.
Qed.

Lemma readsStore_at
    (strategy : RecommendationRequest -> Async (list RecommendationResult))
    (on : RecommendationRequest -> StoreDb -> Z -> list RecommendationResult)
    (request : RecommendationRequest) (w0 w : World) :
  readsStore strategy on -> sameData w0 w ->
  exists w',
    strategy request w
    = (match fst (getStoreDatabase (storeId request) w0) with
       | Rejected e => Rejected e
       | Resolved storeDb =>
           Resolved match databases w0 !! storeDb with
                    | Some db => on request db (now w0)
                    | None => []
                    end
       end, w')
    /\ sameData w0 w'.
Proof.
  intros Hreads Hsame. destruct (Hreads request w) as [Hw Hfst].
  exists (snd (strategy request w)). split.
  - rewrite (surjective_pairing (strategy request w)) at 1. f_equal.
    rewrite Hfst, <- (getStoreDatabase_fst_sameData _ w0 w Hsame).
    destruct Hsame as (_ & _ & <- & <-). reflexivity.
  - now apply sameData_trans with w.
Qed.

Lemma firstn_nil_any {A : Type} (n : nat) : firstn n (@nil A) = [].
Proof. now destruct n. Qed.

Lemma generateHybridRecommendations_run (request : RecommendationRequest) (w : World) :
  sameData w (snd (generateHybridRecommendations request w))
  /\ fst (generateHybridRecommendations request w)
     = Resolved match storeDatabase (storeId request) w with
                | Some db => hybridOn request db (now w)
                | None => []
                end.
Proof.
  unfold generateHybridRecommendations, try_catch, bind, storeDatabase.
  set (lim := default 10%nat (limit request)).
  destruct (readsStore_at _ _ (withLimit (ceilShare lim 3) request) w w
              generateCollaborativeRecommendations_reads (sameData_refl w))
    as (w1 & -> & H1).
  simpl storeId.
  destruct (fst (getStoreDatabase (storeId request) w)) as [storeDb|e] eqn:Hget.
  - destruct (readsStore_at _ _ (withLimit (ceilShare lim 3) request) w w1
                generateContentBasedRecommendations_reads H1) as (w2 & -> & H2).
    simpl storeId. rewrite Hget.
    destruct (readsStore_at _ _ (withLimit (ceilShare lim 2) request) w w2
                generateTrendingRecommendations_reads H2) as (w3 & -> & H3).
    simpl storeId. rewrite Hget.
    destruct (readsStore_at _ _ (withLimit (ceilShare lim 2) request) w w3
                generateRecentlyViewedRecommendations_reads H3) as (w4 & -> & H4).
    simpl storeId. rewrite Hget. simpl.
    split; [exact H4|].
    destruct (databases w !! storeDb) as [db|]; [reflexivity|].
    simpl. now rewrite firstn_nil_any.
  - simpl. split; [|reflexivity].
    eapply sameData_trans; [exact H1|apply withConsole_sameData].
Qed.

(** [generateRecommendations] always resolves: with the list the requested
    strategy builds from the store's tables, and with no list when the store
    or its database cannot be reached. *)
Lemma generateRecommendations_run (request : RecommendationRequest) (w : World) :
  exists w',
    generateRecommendations request w
    = (Resolved match storeDatabase (storeId request) w with
                | Some db => recommendationsOn request db (now w)
                | None => []
                end, w')
    /\ sameData w w'.
Proof.
  assert (forall strategy on,
             readsStore strategy on ->
             exists w',
               try_catch (strategy request)
                 (fun error =>
                    let! _ := consoleError "Error generating recommendations:" error in ret [])
                 w
               = (Resolved match storeDatabase (storeId request) w with
                           | Some db => on request db (now w)
                           | None => []
                           end, w')
               /\ sameData w w') as Hstrategy.
  { intros strategy on Hreads.
    destruct (readsStore_at _ _ request w w Hreads (sameData_refl w)) as (w1 & Hrun & H1).
    unfold try_catch, storeDatabase. rewrite Hrun.
    destruct (fst (getStoreDatabase (storeId request) w)) as [storeDb|e].
    - exists w1. split; [|exact H1]. reflexivity.
    - eexists. split; [reflexivity|].
      eapply sameData_trans; [exact H1|apply withConsole_sameData]. }
  unfold generateRecommendations, recommendationsOn.
  destruct (default hybrid (requestType request)).
  - apply Hstrategy, generateCollaborativeRecommendations_reads.
  - apply Hstrategy, generateContentBasedRecommendations_reads.
  - apply Hstrategy, generateTrendingRecommendations_reads.
  - apply Hstrategy, generateRecentlyViewedRecommendations_reads.
  - destruct (generateHybridRecommendations_run request w) as [Hw Hfst].
    exists (snd (generateHybridRecommendations request w)). split; [|exact Hw].
    unfold try_catch.
    rewrite (surjective_pairing (generateHybridRecommendations request w)) at 1.
    rewrite Hfst. reflexivity.
Qed.

(** ** Recently viewed *)

Lemma StronglySorted_nth_error {A : Type} (R : A -> A -> Prop) (l : list A) :
  StronglySorted R l ->
  forall i j a b, (i < j)%nat -> nth_error l i = Some a -> nth_error l j = Some b -> R a b.
Proof.
  induction 1 as [|x t Hs IH Hx]; intros i j a b Hij Hi Hj.
  - destruct i; discriminate.
  - destruct j as [|j]; [lia|]. simpl in Hj.
    destruct i as [|i]; simpl in Hi.
    + injection Hi as <-. rewrite Forall_forall in Hx.
      apply Hx. eapply nth_error_In. exact Hj.
    + apply (IH i j); [lia|assumption..].
Qed.

Lemma rankScore_floor (rank : nat) : 0.1 <= rankScore rank.
Proof. unfold rankScore. apply Q.le_max_r. Qed.

Lemma rankScore_decreasing (i j : nat) : (i <= j)%nat -> rankScore j <= rankScore i.
Proof.
  intros Hij. unfold rankScore.
  apply Q.max_le_compat_r.
  assert (inject_Z (Z.of_nat i) <= inject_Z (Z.of_nat j)) as H.
  { rewrite <- Zle_Qle. lia. }
  lra.
Qed.

(** Each row of the recently-viewed query is a product with its most recent
    view in the window. *)
Lemma recentlyViewedQuery_lastViewed (request : RecommendationRequest) (db : StoreDb)
    (now : Z) (excluded : list Z) (n : nat) (g : Z * Z) :
  In g (recentlyViewedQuery (customerId request) (sessionId request) excluded n db now) ->
  snd g = lastViewed request db now (fst g).
Proof.
  unfold recentlyViewedQuery. intros Hg.
  apply firstn_In in Hg. apply (proj1 (orderByDesc_In _ _ _)) in Hg.
  apply in_map_iff in Hg as ([p rows] & <- & Hgroup). simpl.
  pose proof (groupBy_rows_nonempty _ _ _ Hgroup) as Hne.
  apply groupBy_In in Hgroup as [_ Hrows]. simpl in *. subst rows.
  unfold lastViewed. f_equal.
  assert (notExcluded excluded (Some p) = true) as Hp.
  { destruct (filter _ (filter _ _)) as [|v rest] eqn:Hf; [now elim Hne|].
    assert (In v (v :: rest)) as Hv by now left.
    rewrite <- Hf in Hv. apply filter_In in Hv as [Hv Hkey].
    apply filter_In in Hv as [_ Hv]. apply bool_decide_eq_true_1 in Hkey.
    unfold recentView in Hv. apply andb_prop in Hv as [_ Hv]. now rewrite <- Hkey. }
  clear Hne.
  induction (productViews db) as [|v t IH]; simpl; [reflexivity|].
  unfold recentView at 1.
  destruct (viewedBy _ _ v); simpl; [|exact IH].
  destruct (now - days 30 <? pv_timestamp v)%Z; simpl; [|exact IH].
  destruct (decide (pv_productId v = p)) as [Heq|Hq].
  - rewrite Heq, Hp. simpl. rewrite (bool_decide_eq_true_2 _ Heq).
    rewrite (bool_decide_eq_true_2 (p = p)) by reflexivity. now rewrite IH.
  - rewrite (bool_decide_eq_false_2 _ Hq).
    destruct (notExcluded excluded (Some (pv_productId v))); simpl; [|exact IH].
    now rewrite (bool_decide_eq_false_2 _ Hq).
Qed.

Lemma recentlyViewedQuery_sorted (c : option Z) (s : string) (excluded : list Z) (n : nat)
    (db : StoreDb) (now : Z) :
  StronglySorted (fun x y => (snd y <= snd x)%Z) (recentlyViewedQuery c s excluded n db now).
Proof.
  unfold recentlyViewedQuery.
  apply StronglySorted_firstn, (orderByDesc_sorted snd).
Qed.

(** C10: a recently-viewed request resolves with a list whose entry at rank
    [i] has score max(0.9 - 0.1 i, 0.1); the scores do not increase with the
    rank, start at 0.9 and stay at or above 0.1; and the entries stand in
    descending order of the product's most recent view within the last 30
    days. *)
Theorem recently_viewed_scores_by_rank (request : RecommendationRequest) (w : World) :
  exists results w',
    generateRecommendations (withType recently_viewed request) w = (Resolved results, w')
    /\ (forall i r, nth_error results i = Some r -> score r == rankScore i)
    /\ (forall i j ri rj, (i <= j)%nat ->
          nth_error results i = Some ri -> nth_error results j = Some rj ->
          score rj <= score ri)
    /\ (forall r, nth_error results 0 = Some r -> score r == 0.9)
    /\ (forall r, In r results -> 0.1 <= score r)
    /\ (forall db, storeDatabase (storeId request) w = Some db ->
          forall i j ri rj, (i <= j)%nat ->
            nth_error results i = Some ri -> nth_error results j = Some rj ->
            (lastViewed request db (now w) (productId rj)
             <= lastViewed request db (now w) (productId ri))%Z).
Proof.
  destruct (generateRecommendations_run (withType recently_viewed request) w)
    as (w' & Hrun & _).
  eexists _, w'. split; [exact Hrun|]. clear Hrun. simpl storeId.
  destruct (storeDatabase (storeId request) w) as [db|];
    [|repeat split; intros; try discriminate;
      repeat match goal with
             | H : nth_error [] ?i = Some _ |- _ => destruct i; discriminate
             | H : In _ [] |- _ => destruct H
             end].
  unfold recommendationsOn, recentlyViewedOn. simpl.
  destruct (exclusionAccepted (default [] (excludeProductIds request)));
    [|repeat split; intros; try discriminate;
      repeat match goal with
             | H : nth_error [] ?i = Some _ |- _ => destruct i; discriminate
             | H : In _ [] |- _ => destruct H
             end].
  set (rows := recentlyViewedQuery _ _ _ _ db (now w)).
  assert (forall i r,
             nth_error (mapWithIndex
                          (fun (item : Z * Z) index =>
                             {| productId := fst item;
                                score := Qmax (0.9 - inject_Z (Z.of_nat index) * 0.1) 0.1;
                                type := "recently_viewed";
                                reasons := ["You viewed this recently"] |}) 0 rows) i = Some r ->
             exists g, nth_error rows i = Some g
                       /\ productId r = fst g /\ score r = rankScore i) as Hnth.
  { intros i r Hr. rewrite mapWithIndex_nth_error in Hr.
    destruct (nth_error rows i) as [g|]; [|discriminate].
    injection Hr as <-. exists g. auto. }
  repeat split.
  - intros i r Hr. apply Hnth in Hr as (g & _ & _ & ->). reflexivity.
  - intros i j ri rj Hij Hi Hj.
    apply Hnth in Hi as (gi & _ & _ & ->). apply Hnth in Hj as (gj & _ & _ & ->).
    now apply rankScore_decreasing.
  - intros r Hr. apply (Hnth 0%nat) in Hr as (g & _ & _ & ->). reflexivity.
  - intros r Hr. apply In_nth_error in Hr as (i & Hr).
    apply Hnth in Hr as (g & _ & _ & ->). apply rankScore_floor.
  - intros db' Hdb' i j ri rj Hij Hi Hj. injection Hdb' as <-.
    apply Hnth in Hi as (gi & Hgi & -> & _). apply Hnth in Hj as (gj & Hgj & -> & _).
    rewrite <- (recentlyViewedQuery_lastViewed _ _ _ _ _ gi (nth_error_In _ _ Hgi)).
    rewrite <- (recentlyViewedQuery_lastViewed _ _ _ _ _ gj (nth_error_In _ _ Hgj)).
    destruct (Nat.eq_dec i j) as [->|Hne].
    + rewrite Hgi in Hgj. injection Hgj as <-. lia.
    + eapply (StronglySorted_nth_error _ _ (recentlyViewedQuery_sorted _ _ _ _ _ _) i j);
        [lia|eassumption..].
Qed.

(** ** The productScores map of the hybrid strategy *)

Lemma sumScores_app (l l' : list RecommendationResult) :
  sumScores (l ++ l') == sumScores l + sumScores l'.
Proof.
  unfold sumScores. induction l as [|r t IH]; simpl; [ring|].
  rewrite IH. ring.
Qed.

Lemma entriesFor_app (p : Z) (l l' : list RecommendationResult) :
  entriesFor p (l ++ l') = entriesFor p l ++ entriesFor p l'.
Proof. apply filter_app. Qed.

Lemma scoreIn_app (l l' : list RecommendationResult) (p : Z) :
  scoreIn (l ++ l') p == scoreIn l p + scoreIn l' p.
Proof. unfold scoreIn. rewrite entriesFor_app. apply sumScores_app. Qed.

Lemma scoreIn_absent (l : list RecommendationResult) (p : Z) :
  ~ In p (map productId l) -> scoreIn l p = 0.
Proof.
  intros Hp. unfold scoreIn, entriesFor.
  induction l as [|r t IH]; simpl; [reflexivity|].
  rewrite bool_decide_eq_false_2.
  - apply IH. intros H. apply Hp. now right.
  - intros H. apply Hp. now left.
Qed.

Lemma scoreIn_single (r : RecommendationResult) (p : Z) :
  scoreIn [r] p == (if bool_decide (productId r = p) then score r else 0).
Proof.
  unfold scoreIn, entriesFor, sumScores. simpl.
  destruct (bool_decide (productId r = p)); simpl; ring.
Qed.

(** A list that names each product once gives it the score of its entry. *)
Lemma scoreIn_entry (l : list RecommendationResult) (r : RecommendationResult) :
  NoDup (map productId l) -> In r l -> scoreIn l (productId r) == score r.
Proof.
  induction l as [|a t IH]; simpl; [tauto|].
  intros Hnd Hr. apply NoDup_cons_iff in Hnd as [Ha Ht].
  change (a :: t) with ([a] ++ t). rewrite scoreIn_app, scoreIn_single.
  destruct Hr as [->|Hr].
  - rewrite bool_decide_eq_true_2 by reflexivity.
    rewrite (scoreIn_absent t _ Ha). ring.
  - rewrite bool_decide_eq_false_2.
    + rewrite (IH Ht Hr). ring.
    + intros Heq. apply Ha. rewrite Heq. now apply in_map.
Qed.

Lemma scoreIn_weighted (weight : Q) (l : list RecommendationResult) (p : Z) :
  scoreIn (map (weighted weight) l) p == scoreIn l p * weight.
Proof.
  unfold scoreIn, entriesFor, sumScores.
  induction l as [|r t IH]; simpl; [ring|].
  destruct (bool_decide (productId r = p)); simpl; rewrite IH; ring.
Qed.

Lemma addToProductScores_keys (rec : RecommendationResult)
    (productScores : list (Z * RecommendationResult)) (k : Z) :
  In k (map fst (addToProductScores rec productScores))
  <-> k = productId rec \/ In k (map fst productScores).
Proof.
  induction productScores as [|[key existing] rest IH]; simpl.
  - intuition.
  - destruct (decide (key = productId rec)) as [Heq|Hne].
    + rewrite (bool_decide_eq_true_2 _ Heq). simpl. subst key. intuition.
    + rewrite (bool_decide_eq_false_2 _ Hne). simpl. rewrite IH. intuition.
Qed.

Lemma addToProductScores_NoDup (rec : RecommendationResult)
    (productScores : list (Z * RecommendationResult)) :
  NoDup (map fst productScores) ->
  NoDup (map fst (addToProductScores rec productScores)).
Proof.
  induction productScores as [|[key existing] rest IH]; simpl; intros Hnd.
  - repeat constructor. intros [].
  - apply NoDup_cons_iff in Hnd as [Hkey Hrest].
    destruct (decide (key = productId rec)) as [Heq|Hne].
    + rewrite (bool_decide_eq_true_2 _ Heq). simpl. now constructor.
    + rewrite (bool_decide_eq_false_2 _ Hne). simpl. constructor; [|now apply IH].
      rewrite addToProductScores_keys. intros [H|H]; [congruence|contradiction].
Qed.

(** An entry after a step is an untouched entry of another product, the
    entry of the product with the new score added, or a new entry. *)
Lemma addToProductScores_In (rec : RecommendationResult)
    (productScores : list (Z * RecommendationResult)) (k : Z) (m : RecommendationResult) :
  NoDup (map fst productScores) ->
  In (k, m) (addToProductScores rec productScores) ->
  (k <> productId rec /\ In (k, m) productScores)
  \/ (k = productId rec
      /\ exists existing, In (k, existing) productScores
           /\ productId m = productId existing
           /\ score m = score existing + score rec
           /\ type m = "hybrid"
           /\ reasons m = distinct (reasons existing ++ reasons rec))
  \/ (k = productId rec
      /\ ~ In k (map fst productScores)
      /\ productId m = productId rec /\ score m = score rec
      /\ type m = "hybrid" /\ reasons m = reasons rec).
Proof.
  induction productScores as [|[key existing] rest IH]; simpl; intros Hnd Hin.
  - destruct Hin as [Hin|[]]. injection Hin as <- <-.
    right. right. simpl. intuition.
  - apply NoDup_cons_iff in Hnd as [Hkey Hrest].
    destruct (decide (key = productId rec)) as [Heq|Hne].
    + rewrite (bool_decide_eq_true_2 _ Heq) in Hin. destruct Hin as [Hin|Hin].
      * injection Hin as <- <-. right. left. split; [exact Heq|].
        exists existing. simpl. intuition.
      * left. split; [|now right].
        intros ->. apply Hkey. rewrite Heq.
        change (productId rec) with (fst (productId rec, m)). now apply in_map.
    + rewrite (bool_decide_eq_false_2 _ Hne) in Hin. destruct Hin as [Hin|Hin].
      * injection Hin as <- <-. left. split; [exact Hne|now left].
      * destruct (IH Hrest Hin) as [[H1 H2]|[(H1 & e & H2 & H3)|(H1 & H2 & H3)]].
        -- left. split; [exact H1|now right].
        -- right. left. split; [exact H1|]. exists e. split; [now right|exact H3].
        -- right. right. split; [exact H1|]. split; [|exact H3].
           intros [H|H]; [congruence|contradiction].
Qed.

Lemma mergedFrom_nil : mergedFrom [] [].
Proof.
  split; [constructor|]. split; [simpl; tauto|]. intros k m [].
Qed.

Lemma mergedFrom_step (processed : list RecommendationResult)
    (productScores : list (Z * RecommendationResult)) (rec : RecommendationResult) :
  mergedFrom processed productScores ->
  mergedFrom (processed ++ [rec]) (addToProductScores rec productScores).
Proof.
  intros (Hnd & Hkeys & Hentries). split; [|split].
  - now apply addToProductScores_NoDup.
  - intros p. rewrite addToProductScores_keys, Hkeys, map_app, in_app_iff. simpl.
    intuition.
  - intros k m Hin.
    destruct (addToProductScores_In _ _ _ _ Hnd Hin)
      as [[Hne Hin']|[(Heq & e & Hin' & Hp & Hs & Ht & Hr)|(Heq & Hnew & Hp & Hs & Ht & Hr)]];
      clear Hin; try rename Hin' into Hin.
    + destruct (Hentries k m Hin) as (Hp & Ht & Hs & Hr & Hdup).
      split; [exact Hp|]. split; [exact Ht|]. split; [|split].
      * rewrite scoreIn_app, scoreIn_single, bool_decide_eq_false_2 by congruence.
        rewrite Hs. ring.
      * intros reason. rewrite Hr. split.
        -- intros (r & H1 & H2 & H3). exists r. rewrite in_app_iff. auto.
        -- intros (r & H1 & H2 & H3). apply in_app_iff in H1 as [H1|[<-|[]]].
           ++ exists r. auto.
           ++ congruence.
      * intros Hall. apply Hdup. intros r Hr'. apply Hall, in_app_iff. now left.
    + destruct (Hentries k e Hin) as (Hpe & _ & Hse & Hre & _).
      split; [congruence|]. split; [exact Ht|]. split; [|split].
      * rewrite scoreIn_app, scoreIn_single, bool_decide_eq_true_2 by congruence.
        rewrite Hs, Hse. reflexivity.
      * intros reason. rewrite Hr, distinct_In, in_app_iff, Hre. split.
        -- intros [(r & H1 & H2 & H3)|H].
           ++ exists r. rewrite in_app_iff. auto.
           ++ exists rec. rewrite in_app_iff. simpl. auto.
        -- intros (r & H1 & H2 & H3). apply in_app_iff in H1 as [H1|[<-|[]]].
           ++ left. exists r. auto.
           ++ now right.
      * intros _. rewrite Hr. apply distinct_NoDup.
    + split; [congruence|]. split; [exact Ht|]. split; [|split].
      * rewrite scoreIn_app, scoreIn_single, bool_decide_eq_true_2 by congruence.
        rewrite scoreIn_absent by (rewrite <- Hkeys; exact Hnew).
        rewrite Hs. ring.
      * intros reason. rewrite Hr. split.
        -- intros H. exists rec. rewrite in_app_iff. simpl. auto.
        -- intros (r & H1 & H2 & H3). apply in_app_iff in H1 as [H1|[<-|[]]].
           ++ exfalso. apply Hnew. rewrite Hkeys, <- H2. now apply in_map.
           ++ exact H3.
      * intros Hall. rewrite Hr. apply Hall, in_app_iff. simpl. auto.
Qed.

Lemma mergedFrom_fold (l processed : list RecommendationResult)
    (productScores : list (Z * RecommendationResult)) :
  mergedFrom processed productScores ->
  mergedFrom (processed ++ l)
    (fold_left (fun productScores rec => addToProductScores rec productScores)
               l productScores).
Proof.
  revert processed productScores.
  induction l as [|rec t IH]; intros processed productScores H; simpl.
  - now rewrite app_nil_r.
  - change (rec :: t) with ([rec] ++ t). rewrite app_assoc.
    apply IH. now apply mergedFrom_step.
Qed.

Lemma productScoresOf_merged (allRecommendations : list RecommendationResult) :
  mergedFrom allRecommendations (productScoresOf allRecommendations).
Proof.
  apply (mergedFrom_fold allRecommendations [] []), mergedFrom_nil.
Qed.

(** ** What the lists of the four strategies have in common *)

Lemma notExcluded_Some (excluded : list Z) (p : Z) :
  notExcluded excluded (Some p) = true -> ~ In p excluded.
Proof.
  unfold notExcluded. destruct excluded as [|x t]; [intros _ []|].
  change (0 <? length (x :: t))%nat with true. cbv iota.
  unfold sqlNotIn. rewrite forallb_forall. intros Hall Hin.
  specialize (Hall (Some p) (in_map Some _ _ Hin)). simpl in Hall.
  rewrite bool_decide_eq_true_2 in Hall by reflexivity. discriminate.
Qed.

Lemma groupBy_filter_row {A K : Type} `{EqDecision K} (key : A -> K) (f : A -> bool)
    (rows : list A) (g : K * list A) :
  In g (groupBy key (filter f rows)) ->
  exists r, In r rows /\ f r = true /\ key r = fst g.
Proof.
  intros Hg. apply groupBy_In in Hg as [Hk _].
  apply in_map_iff in Hk as (r & Hkey & Hr).
  apply filter_In in Hr as [Hr Hf]. eauto.
Qed.

Lemma NoDup_map_compose {A K B : Type} (key : A -> K) (h : K -> B) (l : list A) :
  (forall x y, In x l -> In y l -> h (key x) = h (key y) -> key x = key y) ->
  NoDup (map key l) -> NoDup (map (fun x => h (key x)) l).
Proof.
  induction l as [|a t IH]; simpl; intros Hinj Hnd; [constructor|].
  apply NoDup_cons_iff in Hnd as [Ha Ht]. constructor.
  - intros Hin. apply in_map_iff in Hin as (y & Hy & Hin).
    apply Ha. rewrite <- (Hinj y a); auto. now apply in_map.
  - apply IH; auto.
Qed.

Lemma truthy_default_inj (x y : option Z) :
  isTruthy x = true -> isTruthy y = true -> default 0%Z x = default 0%Z y -> x = y.
Proof.
  unfold isTruthy, truthy. destruct x, y; simpl; try discriminate. now intros _ _ ->.
Qed.

Lemma isTruthy_Some (x : option Z) :
  isTruthy x = true -> x = Some (default 0%Z x).
Proof. unfold isTruthy, truthy. destruct x; [reflexivity|discriminate]. Qed.

Lemma recommendedProductsQuery_keys (c : Z) (ids : list (option Z)) (excluded : list Z)
    (n : nat) (db : StoreDb) (now : Z) :
  NoDup (map fst (recommendedProductsQuery c ids excluded n db now)).
Proof.
  unfold recommendedProductsQuery.
  apply NoDup_map_firstn, NoDup_map_orderByDesc.
  rewrite map_map. simpl. apply groupBy_NoDup.
Qed.

Lemma recommendedProductsQuery_notExcluded (c : Z) (ids : list (option Z))
    (excluded : list Z) (n : nat) (db : StoreDb) (now : Z) (item : option Z * Z) :
  In item (recommendedProductsQuery c ids excluded n db now) ->
  notExcluded excluded (fst item) = true.
Proof.
  unfold recommendedProductsQuery. intros H.
  apply firstn_In in H. apply (proj1 (orderByDesc_In _ _ _)) in H.
  apply in_map_iff in H as (g & <- & Hg). simpl.
  apply groupBy_filter_row in Hg as (r & _ & Hf & <-).
  now apply andb_prop in Hf as [_ Hf].
Qed.

Lemma collaborativeOn_output (request : RecommendationRequest) (db : StoreDb) (now : Z) :
  strategyOutput (default [] (excludeProductIds request)) 1
    (collaborativeOn request db now).
Proof.
  unfold collaborativeOn.
  destruct (truthy (customerId request)) as [c|];
    [|split; [constructor|intros r []]].
  destruct (length _ =? 0)%nat; [split; [constructor|intros r []]|].
  destruct (exclusionAccepted _); [|split; [constructor|intros r []]].
  set (items := recommendedProductsQuery _ _ _ _ _ _).
  split.
  - rewrite map_map. simpl.
    apply (NoDup_map_compose fst (default 0%Z)).
    + intros x y Hx Hy. apply filter_In in Hx as [_ Hx]. apply filter_In in Hy as [_ Hy].
      now apply truthy_default_inj.
    + apply NoDup_map_filter, recommendedProductsQuery_keys.
  - intros r Hr. apply in_map_iff in Hr as (item & <- & Hitem). simpl.
    apply filter_In in Hitem as [Hitem Htruthy]. subst items.
    split; [|split; [apply Q.le_min_r|eauto]].
    apply notExcluded_Some. rewrite <- (isTruthy_Some _ Htruthy).
    exact (recommendedProductsQuery_notExcluded _ _ _ _ _ _ _ Hitem).
Qed.

Lemma sumOver_actionWeight_nonneg (rows : list CustomerBehaviorRow) :
  (0 <= sumOver actionWeight rows)%Z.
Proof.
  unfold sumOver. induction rows as [|r t IH]; simpl; [lia|].
  unfold actionWeight at 1. destruct (cb_action r); lia.
Qed.

Lemma trendingProductsQuery_keys (excluded : list Z) (n : nat) (db : StoreDb) (now : Z) :
  NoDup (map tr_productId (trendingProductsQuery excluded n db now)).
Proof.
  unfold trendingProductsQuery.
  apply NoDup_map_firstn, NoDup_map_orderByDesc.
  rewrite map_map. simpl. apply NoDup_map_filter, groupBy_NoDup.
Qed.

(** A row of the trending query is the group of a product's events in the
    window. *)
Lemma trendingProductsQuery_row (excluded : list Z) (n : nat) (db : StoreDb) (now : Z)
    (item : TrendingRow) :
  In item (trendingProductsQuery excluded n db now) ->
  exists events,
    item = trendingRow (tr_productId item, events)
    /\ events = filter (fun r => bool_decide (cb_productId r = tr_productId item))
                       (filter (trendingEvent excluded now) (customerBehavior db))
    /\ (2 < countRows events)%Z.
Proof.
  unfold trendingProductsQuery. intros H.
  apply firstn_In in H. apply (proj1 (orderByDesc_In _ _ _)) in H.
  apply in_map_iff in H as ([k events] & <- & Hg).
  apply filter_In in Hg as [Hg Hcount]. simpl in *.
  apply groupBy_In in Hg as [_ Hevents]. simpl in Hevents.
  exists events. repeat split; [exact Hevents|now apply Z.ltb_lt].
Qed.

Lemma trendingProductsQuery_sorted (excluded : list Z) (n : nat) (db : StoreDb) (now : Z) :
  StronglySorted (fun x y => (tr_totalScore y <= tr_totalScore x)%Z)
    (trendingProductsQuery excluded n db now).
Proof.
  unfold trendingProductsQuery.
  apply StronglySorted_firstn, (orderByDesc_sorted tr_totalScore).
Qed.

Lemma trendingProductsQuery_nonneg (excluded : list Z) (n : nat) (db : StoreDb) (now : Z)
    (item : TrendingRow) :
  In item (trendingProductsQuery excluded n db now) -> (0 <= tr_totalScore item)%Z.
Proof.
  intros H. apply trendingProductsQuery_row in H as (events & -> & _).
  apply sumOver_actionWeight_nonneg.
Qed.

(** The divisor of the trending scores is the largest total of the rows. *)
Lemma trendingMaxScore_max (excluded : list Z) (n : nat) (db : StoreDb) (now : Z)
    (item : TrendingRow) :
  let rows := trendingProductsQuery excluded n db now in
  In item rows ->
  (0 <= tr_totalScore item <= trendingMaxScore rows)%Z /\ (0 < trendingMaxScore rows)%Z.
Proof.
  intros rows Hitem.
  pose proof (trendingProductsQuery_sorted excluded n db now) as Hsorted.
  pose proof (trendingProductsQuery_nonneg excluded n db now) as Hnonneg.
  fold rows in Hsorted, Hnonneg.
  unfold trendingMaxScore.
  destruct rows as [|first rest]; [destruct Hitem|]. simpl.
  assert (tr_totalScore item <= tr_totalScore first)%Z as Hle.
  { destruct Hitem as [<-|Hitem]; [lia|].
    now apply (StronglySorted_hd _ _ _ Hsorted). }
  pose proof (Hnonneg item Hitem). pose proof (Hnonneg first (or_introl eq_refl)).
  destruct (tr_totalScore first =? 0)%Z eqn:Hzero.
  - apply Z.eqb_eq in Hzero. lia.
  - apply Z.eqb_neq in Hzero. lia.
Qed.

Lemma trendingOn_output (request : RecommendationRequest) (db : StoreDb) (now : Z) :
  strategyOutput (default [] (excludeProductIds request)) 1 (trendingOn request db now).
Proof.
  unfold trendingOn.
  set (rows := trendingProductsQuery _ _ _ _).
  destruct (exclusionAccepted _); [|split; [constructor|intros r []]].
  split.
  - rewrite map_map. simpl.
    apply (NoDup_map_compose tr_productId (default 0%Z)).
    + intros x y Hx Hy. apply filter_In in Hx as [_ Hx]. apply filter_In in Hy as [_ Hy].
      now apply truthy_default_inj.
    + apply NoDup_map_filter, trendingProductsQuery_keys.
  - intros r Hr. apply in_map_iff in Hr as (item & <- & Hitem). simpl.
    apply filter_In in Hitem as [Hitem Htruthy].
    split; [|split; [|eauto]].
    + apply notExcluded_Some. rewrite <- (isTruthy_Some _ Htruthy).
      pose proof Hitem as Hrow.
      apply trendingProductsQuery_row in Hrow as (events & _ & Hevents & Hcount).
      destruct events as [|e rest]; [unfold countRows in Hcount; simpl in Hcount; lia|].
      assert (In e (e :: rest)) as He by now left.
      rewrite Hevents in He. apply filter_In in He as [He Hkey].
      apply filter_In in He as [_ He]. apply bool_decide_eq_true_1 in Hkey.
      rewrite <- Hkey. unfold trendingEvent in He. now apply andb_prop in He as [_ He].
    + destruct (trendingMaxScore_max _ _ _ _ item Hitem) as [Hle Hpos].
      fold rows in Hle, Hpos.
      apply Qle_shift_div_r.
      * change 0 with (inject_Z 0). rewrite <- Zlt_Qlt. exact Hpos.
      * rewrite Qmult_1_l, <- Zle_Qle. lia.
Qed.

Lemma similarProductsQuery_keys (top viewed excluded : list Z) (n : nat)
    (db : StoreDb) (now : Z) :
  NoDup (map fst (similarProductsQuery top viewed excluded n db now)).
Proof.
  unfold similarProductsQuery.
  apply NoDup_map_firstn, NoDup_map_orderByDesc.
  rewrite map_map. simpl. apply groupBy_NoDup.
Qed.

(** A row of the similar-products query: a product with the number of its
    category mappings into the top categories; it is neither viewed nor
    excluded. *)
Lemma similarProductsQuery_row (top viewed excluded : list Z) (n : nat)
    (db : StoreDb) (now : Z) (item : Z * Z) :
  In item (similarProductsQuery top viewed excluded n db now) ->
  snd item
  = countRows (filter (fun m => bool_decide (pcm_productId m = fst item))
                 (filter (fun m => memZ (pcm_categoryId m) top
                                   && sqlNotIn (Some (pcm_productId m)) (map Some viewed)
                                   && notExcluded excluded (Some (pcm_productId m)))
                         (productCategoryMappings db)))
  /\ sqlNotIn (Some (fst item)) (map Some viewed) = true
  /\ notExcluded excluded (Some (fst item)) = true.
Proof.
  unfold similarProductsQuery. intros H.
  apply firstn_In in H. apply (proj1 (orderByDesc_In _ _ _)) in H.
  apply in_map_iff in H as ([p rows] & <- & Hg). simpl.
  pose proof Hg as Hrow. apply groupBy_In in Hg as [_ Hrows]. simpl in Hrows.
  split; [now rewrite Hrows|].
  apply groupBy_filter_row in Hrow as (m & _ & Hf & Hkey). simpl in Hkey. subst p.
  apply andb_prop in Hf as [Hf Hex]. apply andb_prop in Hf as [_ Hviewed]. auto.
Qed.

Lemma contentBasedOn_output (request : RecommendationRequest) (db : StoreDb) (now : Z) :
  strategyOutput (default [] (excludeProductIds request)) 1
    (contentBasedOn request db now).
Proof.
  unfold contentBasedOn.
  destruct (length _ =? 0)%nat; [split; [constructor|intros r []]|].
  destruct (length _ =? 0)%nat; [split; [constructor|intros r []]|].
  destruct (joinedIsInteger _ && exclusionAccepted _); [|split; [constructor|intros r []]].
  split.
  - rewrite map_map. simpl. apply similarProductsQuery_keys.
  - intros r Hr. apply in_map_iff in Hr as (item & <- & Hitem). simpl.
    apply similarProductsQuery_row in Hitem as (_ & _ & Hex).
    split; [now apply notExcluded_Some|]. split; [apply Q.le_min_r|eauto].
Qed.

Lemma recentlyViewedQuery_keys (c : option Z) (s : string) (excluded : list Z) (n : nat)
    (db : StoreDb) (now : Z) :
  NoDup (map fst (recentlyViewedQuery c s excluded n db now)).
Proof.
  unfold recentlyViewedQuery.
  apply NoDup_map_firstn, NoDup_map_orderByDesc.
  rewrite map_map. simpl. apply groupBy_NoDup.
Qed.

Lemma recentlyViewedQuery_row (c : option Z) (s : string) (excluded : list Z) (n : nat)
    (db : StoreDb) (now : Z) (item : Z * Z) :
  In item (recentlyViewedQuery c s excluded n db now) ->
  exists v, In v (productViews db)
            /\ recentView c s excluded now v = true
            /\ pv_productId v = fst item.
Proof.
  unfold recentlyViewedQuery. intros H.
  apply firstn_In in H. apply (proj1 (orderByDesc_In _ _ _)) in H.
  apply in_map_iff in H as (g & <- & Hg). simpl.
  now apply groupBy_filter_row in Hg.
Qed.

Lemma rankScore_le_first (rank : nat) : rankScore rank <= 0.9.
Proof.
  unfold rankScore. apply Q.max_lub; [|discriminate].
  assert (inject_Z 0 <= inject_Z (Z.of_nat rank)) as H by (rewrite <- Zle_Qle; lia).
  change (inject_Z 0) with 0 in H. lra.
Qed.

Lemma recentlyViewedOn_output (request : RecommendationRequest) (db : StoreDb) (now : Z) :
  strategyOutput (default [] (excludeProductIds request)) 0.9
    (recentlyViewedOn request db now).
Proof.
  unfold recentlyViewedOn.
  destruct (exclusionAccepted _); [|split; [constructor|intros r []]].
  split.
  - rewrite (mapWithIndex_map _ productId fst) by reflexivity.
    apply recentlyViewedQuery_keys.
  - intros r Hr. apply mapWithIndex_In in Hr as (item & i & Hitem & ->). simpl.
    split; [|split; [apply rankScore_le_first|eauto]].
    apply recentlyViewedQuery_row in Hitem as (v & _ & Hv & <-).
    apply notExcluded_Some. unfold recentView in Hv.
    now apply andb_prop in Hv as [_ Hv].
Qed.

(** ** The hybrid list *)

Lemma hybridOn_unfold (request : RecommendationRequest) (db : StoreDb) (now : Z) :
  hybridOn request db now
  = firstn (default 10%nat (limit request)) (sortByScore (hybridMerged request db now)).
Proof. reflexivity. Qed.

Lemma productScoresOf_productIds (allRecommendations : list RecommendationResult) :
  map productId (map snd (productScoresOf allRecommendations))
  = map fst (productScoresOf allRecommendations).
Proof.
  destruct (productScoresOf_merged allRecommendations) as (_ & _ & Hentries).
  rewrite map_map. apply map_ext_in. intros [k m] Hin. simpl.
  now destruct (Hentries k m Hin) as [-> _].
Qed.

Lemma weighted_productIds (weight : Q) (l : list RecommendationResult) :
  map productId (map (weighted weight) l) = map productId l.
Proof. rewrite map_map. reflexivity. Qed.

Lemma weightedAll_productIds (c cb t rv : list RecommendationResult) (p : Z) :
  In p (map productId (weightedAll c cb t rv))
  <-> In p (map productId c) \/ In p (map productId cb)
      \/ In p (map productId t) \/ In p (map productId rv).
Proof.
  unfold weightedAll. rewrite !map_app, !in_app_iff, !weighted_productIds. tauto.
Qed.

Lemma weightedAll_scoreIn (c cb t rv : list RecommendationResult) (p : Z) :
  scoreIn (weightedAll c cb t rv) p
  == scoreIn c p * 0.4 + scoreIn cb p * 0.3 + scoreIn t p * 0.2 + scoreIn rv p * 0.1.
Proof.
  unfold weightedAll. rewrite !scoreIn_app, !scoreIn_weighted. ring.
Qed.

Lemma weightedAll_reasons (c cb t rv : list RecommendationResult) (r : RecommendationResult) :
  In r (weightedAll c cb t rv) ->
  exists r0, In r0 (c ++ cb ++ t ++ rv)
             /\ productId r = productId r0 /\ reasons r = reasons r0.
Proof.
  unfold weightedAll. rewrite !in_app_iff, !in_map_iff.
  intros [(r0 & <- & H)|[(r0 & <- & H)|[(r0 & <- & H)|(r0 & <- & H)]]];
    exists r0; rewrite !in_app_iff; auto.
Qed.

Lemma strategyOutput_scoreIn (excluded : list Z) (bound : Q)
    (results : list RecommendationResult) (p : Z) :
  strategyOutput excluded bound results -> 0 <= bound -> scoreIn results p <= bound.
Proof.
  intros [Hnd Hall] Hbound.
  destruct (in_dec Z.eq_dec p (map productId results)) as [Hin|Hout].
  - apply in_map_iff in Hin as (r & <- & Hr).
    rewrite (scoreIn_entry _ _ Hnd Hr). now apply Hall.
  - now rewrite (scoreIn_absent _ _ Hout).
Qed.

Lemma hybridOn_In (request : RecommendationRequest) (db : StoreDb) (now : Z)
    (r : RecommendationResult) :
  In r (hybridOn request db now) -> In r (hybridMerged request db now).
Proof.
  rewrite hybridOn_unfold. intros H. apply firstn_In in H.
  now apply (Permutation_in _ (sortByScore_perm _)) in H.
Qed.

(** An entry of the merged map: its product is named by a strategy, and its
    score is the weighted sum of the scores the strategies give the
    product. *)
Lemma hybridMerged_entry (request : RecommendationRequest) (db : StoreDb) (now : Z)
    (m : RecommendationResult) :
  let limit := default 10%nat (limit request) in
  let collaborative := collaborativeOn (withLimit (ceilShare limit 3) request) db now in
  let contentBased := contentBasedOn (withLimit (ceilShare limit 3) request) db now in
  let trending := trendingOn (withLimit (ceilShare limit 2) request) db now in
  let recentlyViewed := recentlyViewedOn (withLimit (ceilShare limit 2) request) db now in
  In m (hybridMerged request db now) ->
  In (productId m) (map productId (collaborative ++ contentBased ++ trending ++ recentlyViewed))
  /\ type m = "hybrid"
  /\ score m == scoreIn collaborative (productId m) * 0.4
                + scoreIn contentBased (productId m) * 0.3
                + scoreIn trending (productId m) * 0.2
                + scoreIn recentlyViewed (productId m) * 0.1.
Proof.
  intros limit collaborative contentBased trending recentlyViewed Hm.
  unfold hybridMerged in Hm. apply in_map_iff in Hm as ([k m'] & Heq & Hin).
  simpl in Heq. subst m'.
  destruct (productScoresOf_merged (hybridInputs request db now)) as (_ & Hkeys & Hentries).
  destruct (Hentries k m Hin) as (Hp & Ht & Hs & _). subst k.
  split; [|split; [exact Ht|]].
  - assert (In (productId m) (map fst (productScoresOf (hybridInputs request db now)))) as Hk.
    { change (productId m) with (fst (productId m, m)). now apply in_map. }
    apply Hkeys in Hk. unfold hybridInputs in Hk. apply weightedAll_productIds in Hk.
    rewrite !map_app, !in_app_iff. exact Hk.
  - rewrite Hs. unfold hybridInputs. apply weightedAll_scoreIn.
Qed.

Lemma hybridOn_notExcluded (request : RecommendationRequest) (db : StoreDb) (now : Z)
    (r : RecommendationResult) :
  In r (hybridOn request db now) ->
  ~ In (productId r) (default [] (excludeProductIds request)).
Proof.
  intros Hr. apply hybridOn_In, hybridMerged_entry in Hr as (Hr & _).
  rewrite !map_app, !in_app_iff, !in_map_iff in Hr.
  destruct Hr as [(r0 & <- & H)|[(r0 & <- & H)|[(r0 & <- & H)|(r0 & <- & H)]]].
  - now apply (collaborativeOn_output (withLimit _ request) db now) in H.
  - now apply (contentBasedOn_output (withLimit _ request) db now) in H.
  - now apply (trendingOn_output (withLimit _ request) db now) in H.
  - now apply (recentlyViewedOn_output (withLimit _ request) db now) in H.
Qed.

Lemma hybridMerged_bound (request : RecommendationRequest) (db : StoreDb) (now : Z)
    (m : RecommendationResult) :
  In m (hybridMerged request db now) -> score m <= 0.99.
Proof.
  intros Hm. apply hybridMerged_entry in Hm as (_ & _ & ->).
  set (limit := default 10%nat (limit request)).
  pose proof (strategyOutput_scoreIn _ _ _ (productId m)
                (collaborativeOn_output (withLimit (ceilShare limit 3) request) db now)).
  pose proof (strategyOutput_scoreIn _ _ _ (productId m)
                (contentBasedOn_output (withLimit (ceilShare limit 3) request) db now)).
  pose proof (strategyOutput_scoreIn _ _ _ (productId m)
                (trendingOn_output (withLimit (ceilShare limit 2) request) db now)).
  pose proof (strategyOutput_scoreIn _ _ _ (productId m)
                (recentlyViewedOn_output (withLimit (ceilShare limit 2) request) db now)).
  lra.
Qed.

(** ** Exclusions *)

(** C3: a request of any type resolves with a list that holds no product of
    its excludeProductIds. *)
Theorem excluded_products_not_returned (request : RecommendationRequest) (w : World) :
  exists results w',
    generateRecommendations request w = (Resolved results, w')
    /\ forall r, In r results ->
         ~ In (productId r) (default [] (excludeProductIds request)).
Proof.
  destruct (generateRecommendations_run request w) as (w' & Hrun & _).
  eexists _, w'. split; [exact Hrun|]. clear Hrun.
  destruct (storeDatabase (storeId request) w) as [db|]; [|intros r []].
  unfold recommendationsOn. intros r Hr.
  destruct (default hybrid (requestType request)).
  - now apply collaborativeOn_output in Hr.
  - now apply contentBasedOn_output in Hr.
  - now apply trendingOn_output in Hr.
  - now apply recentlyViewedOn_output in Hr.
  - now apply hybridOn_notExcluded in Hr.
Qed.

(** ** The range of hybrid scores *)

Lemma hybrid_scores_bounded (request : RecommendationRequest) (w : World)
    (results : list RecommendationResult) (w' : World) (r : RecommendationResult) :
  default hybrid (requestType request) = hybrid ->
  generateRecommendations request w = (Resolved results, w') ->
  In r results -> score r <= 0.99.
Proof.
  intros Htype Hrun Hr.
  destruct (generateRecommendations_run request w) as (w1 & Hrun1 & _).
  rewrite Hrun in Hrun1. injection Hrun1 as -> _.
  destruct (storeDatabase (storeId request) w) as [db|]; [|destruct Hr].
  unfold recommendationsOn in Hr. rewrite Htype in Hr.
  now apply hybridOn_In, hybridMerged_bound in Hr.
Qed.

(** C5, as stated, fails: in no state does a hybrid request (the type given
    or left to its default) return an entry whose score exceeds 1.0. *)
Lemma hybrid_score_above_one_unreachable :
  ~ exists (request : RecommendationRequest) (w : World)
           (results : list RecommendationResult) (w' : World) (r : RecommendationResult),
      default hybrid (requestType request) = hybrid
      /\ generateRecommendations request w = (Resolved results, w')
      /\ In r results
      /\ 1 < score r.
Proof.
  intros (request & w & results & w' & r & Htype & Hrun & Hr & Hscore).
  pose proof (hybrid_scores_bounded request w results w' r Htype Hrun Hr). lra.
Qed.

Lemma outputOf_reads
    (strategy : RecommendationRequest -> Async (list RecommendationResult))
    (on : RecommendationRequest -> StoreDb -> Z -> list RecommendationResult)
    (request : RecommendationRequest) (w : World) :
  readsStore strategy on ->
  outputOf (strategy request) w
  = match storeDatabase (storeId request) w with
    | Some db => on request db (now w)
    | None => []
    end.
Proof.
  intros Hreads. destruct (Hreads request w) as [_ Hfst].
  unfold outputOf, storeDatabase. rewrite Hfst.
  destruct (fst (getStoreDatabase (storeId request) w)); reflexivity.
Qed.

(** ** The range of hybrid scores, stated on the strategies' lists *)

Lemma strategyOutput_nil (excluded : list Z) (bound : Q) : strategyOutput excluded bound [].
Proof. split; [constructor|intros r []]. Qed.

Lemma outputOf_strategyOutput
    (strategy : RecommendationRequest -> Async (list RecommendationResult))
    (on : RecommendationRequest -> StoreDb -> Z -> list RecommendationResult)
    (bound : Q) (request : RecommendationRequest) (w : World) :
  readsStore strategy on ->
  (forall db now, strategyOutput (default [] (excludeProductIds request)) bound
                    (on request db now)) ->
  strategyOutput (default [] (excludeProductIds request)) bound
    (outputOf (strategy request) w).
Proof.
  intros Hreads Hon. rewrite (outputOf_reads _ _ _ _ Hreads).
  destruct (storeDatabase (storeId request) w); [apply Hon|apply strategyOutput_nil].
Qed.

(** C5, amended: the scores of a hybrid request are the sums of the weighted
    scores the four strategies give the product (0.4, 0.3, 0.2 and 0.1 times
    the collaborative, content-based, trending and recently-viewed score),
    not renormalized; each strategy names a product once at most, with a
    score of at most 1 (0.9 for recently viewed), so a hybrid score is at
    most 0.99 and never exceeds 1.0. *)
Theorem hybrid_score_is_weighted_sum_below_one (request : RecommendationRequest) (w : World) :
  let limit := default 10%nat (limit request) in
  let excluded := default [] (excludeProductIds request) in
  let collaborative :=
    outputOf (generateCollaborativeRecommendations (withLimit (ceilShare limit 3) request)) w in
  let contentBased :=
    outputOf (generateContentBasedRecommendations (withLimit (ceilShare limit 3) request)) w in
  let trending :=
    outputOf (generateTrendingRecommendations (withLimit (ceilShare limit 2) request)) w in
  let recentlyViewed :=
    outputOf (generateRecentlyViewedRecommendations (withLimit (ceilShare limit 2) request)) w in
  exists results w',
    generateRecommendations (withType hybrid request) w = (Resolved results, w')
    /\ strategyOutput excluded 1 collaborative
    /\ strategyOutput excluded 1 contentBased
    /\ strategyOutput excluded 1 trending
    /\ strategyOutput excluded 0.9 recentlyViewed
    /\ forall r, In r results ->
         score r == scoreIn collaborative (productId r) * 0.4
                    + scoreIn contentBased (productId r) * 0.3
                    + scoreIn trending (productId r) * 0.2
                    + scoreIn recentlyViewed (productId r) * 0.1
         /\ score r <= 0.99.
Proof.
  intros limit excluded collaborative contentBased trending recentlyViewed.
  destruct (generateRecommendations_run (withType hybrid request) w) as (w' & Hrun & _).
  eexists _, w'. split; [exact Hrun|]. clear Hrun. simpl storeId.
  split; [apply (outputOf_strategyOutput _ _ _ (withLimit _ request) w
                   generateCollaborativeRecommendations_reads);
          intros; apply collaborativeOn_output|].
  split; [apply (outputOf_strategyOutput _ _ _ (withLimit _ request) w
                   generateContentBasedRecommendations_reads);
          intros; apply contentBasedOn_output|].
  split; [apply (outputOf_strategyOutput _ _ _ (withLimit _ request) w
                   generateTrendingRecommendations_reads);
          intros; apply trendingOn_output|].
  split; [apply (outputOf_strategyOutput _ _ _ (withLimit _ request) w
                   generateRecentlyViewedRecommendations_reads);
          intros; apply recentlyViewedOn_output|].
  unfold collaborative, contentBased, trending, recentlyViewed.
  rewrite (outputOf_reads _ _ _ _ generateCollaborativeRecommendations_reads),
    (outputOf_reads _ _ _ _ generateContentBasedRecommendations_reads),
    (outputOf_reads _ _ _ _ generateTrendingRecommendations_reads),
    (outputOf_reads _ _ _ _ generateRecentlyViewedRecommendations_reads).
  simpl storeId.
  destruct (storeDatabase (storeId request) w) as [db|]; [|intros r []].
  intros r Hr. unfold recommendationsOn in Hr. simpl in Hr.
  apply hybridOn_In in Hr. split.
  - now apply (hybridMerged_entry (withType hybrid request)) in Hr as (_ & _ & Hr).
  - now apply hybridMerged_bound in Hr.
Qed.


(** ** The merge of the hybrid strategy *)

Lemma weightedAll_entries (c cb t rv : list RecommendationResult) (p : Z) (reason : string) :
  (exists r, In r (weightedAll c cb t rv) /\ productId r = p /\ In reason (reasons r))
  <-> (exists r, In r (c ++ cb ++ t ++ rv) /\ productId r = p /\ In reason (reasons r)).
Proof.
  split.
  - intros (r & Hr & Hp & Hreason).
    apply weightedAll_reasons in Hr as (r0 & Hr0 & Hp0 & Hreasons).
    exists r0. rewrite <- Hp0, <- Hreasons. auto.
  - intros (r & Hr & Hp & Hreason). unfold weightedAll.
    rewrite !in_app_iff in Hr.
    destruct Hr as [Hr|[Hr|[Hr|Hr]]];
      [exists (weighted 0.4 r)|exists (weighted 0.3 r)
      |exists (weighted 0.2 r)|exists (weighted 0.1 r)];
      (split; [rewrite !in_app_iff, !in_map_iff; eauto 7|simpl; auto]).
Qed.

(** The merge of four lists whose entries carry reasons without repeats. *)
Lemma merge_by_product (c cb t rv : list RecommendationResult) (limit : nat) :
  (forall r, In r (c ++ cb ++ t ++ rv) -> NoDup (reasons r)) ->
  let merged := map snd (productScoresOf (weightedAll c cb t rv)) in
  let results := firstn limit (sortByScore merged) in
  NoDup (map productId merged)
  /\ (forall p, In p (map productId merged) <-> In p (map productId (c ++ cb ++ t ++ rv)))
  /\ (forall m, In m merged ->
        type m = "hybrid"
        /\ score m == scoreIn c (productId m) * 0.4 + scoreIn cb (productId m) * 0.3
                      + scoreIn t (productId m) * 0.2 + scoreIn rv (productId m) * 0.1
        /\ NoDup (reasons m)
        /\ forall reason,
             In reason (reasons m)
             <-> exists r, In r (c ++ cb ++ t ++ rv)
                           /\ productId r = productId m /\ In reason (reasons r))
  /\ Permutation (results ++ skipn limit (sortByScore merged)) merged
  /\ StronglySorted (fun a b => score b <= score a) results
  /\ length results = Nat.min limit (length merged)
  /\ (forall r d, In r results -> In d (skipn limit (sortByScore merged)) ->
        score d <= score r).
Proof.
  intros Hreasons merged results.
  destruct (productScoresOf_merged (weightedAll c cb t rv)) as (Hnd & Hkeys & Hentries).
  split; [|split; [|split; [|split; [|split; [|split]]]]].
  - unfold merged. now rewrite productScoresOf_productIds.
  - intros p. unfold merged. rewrite productScoresOf_productIds, Hkeys.
    rewrite weightedAll_productIds, !map_app, !in_app_iff. tauto.
  - intros m Hm. unfold merged in Hm.
    apply in_map_iff in Hm as ([k m'] & Heq & Hin). simpl in Heq. subst m'.
    destruct (Hentries k m Hin) as (Hp & Ht & Hs & Hr & Hdup). subst k.
    split; [exact Ht|]. split; [|split].
    + rewrite Hs. apply weightedAll_scoreIn.
    + apply Hdup. intros r Hr'.
      apply weightedAll_reasons in Hr' as (r0 & Hr0 & _ & ->). now apply Hreasons.
    + intros reason. rewrite Hr. apply weightedAll_entries.
  - unfold results. rewrite firstn_skipn. apply sortByScore_perm.
  - apply StronglySorted_firstn, sortByScore_sorted.
  - unfold results. rewrite length_firstn.
    now rewrite (Permutation_length (sortByScore_perm merged)).
  - intros r d Hr Hd.
    apply (StronglySorted_firstn_skipn _ limit _ (sortByScore_sorted merged) r d Hr Hd).
Qed.

Lemma strategyOutput_reasons (excluded : list Z) (bound : Q)
    (results : list RecommendationResult) (r : RecommendationResult) :
  strategyOutput excluded bound results -> In r results -> NoDup (reasons r).
Proof.
  intros [_ Hall] Hr. destruct (Hall r Hr) as (_ & _ & reason & ->).
  repeat constructor. intros [].
Qed.

(** C1: a hybrid request resolves with the first [limit] entries, in
    descending order of score, of the merge of the four strategies' lists.
    The merge holds every product a strategy names exactly once; its entry is
    of type "hybrid", its score is the sum of the scores the strategies give
    the product, weighted 0.4 (collaborative), 0.3 (content-based), 0.2
    (trending) and 0.1 (recently viewed), and its reasons are the union,
    without repeats, of the reasons of the product's entries.  What the
    truncation drops scores no higher than what it keeps. *)
Theorem hybrid_merges_strategies_by_product (request : RecommendationRequest) (w : World) :
  let limit := default 10%nat (limit request) in
  let collaborative :=
    outputOf (generateCollaborativeRecommendations (withLimit (ceilShare limit 3) request)) w in
  let contentBased :=
    outputOf (generateContentBasedRecommendations (withLimit (ceilShare limit 3) request)) w in
  let trending :=
    outputOf (generateTrendingRecommendations (withLimit (ceilShare limit 2) request)) w in
  let recentlyViewed :=
    outputOf (generateRecentlyViewedRecommendations (withLimit (ceilShare limit 2) request)) w in
  let strategies := collaborative ++ contentBased ++ trending ++ recentlyViewed in
  exists results w' merged dropped,
    generateRecommendations (withType hybrid request) w = (Resolved results, w')
    /\ NoDup (map productId merged)
    /\ (forall p, In p (map productId merged) <-> In p (map productId strategies))
    /\ (forall m, In m merged ->
          type m = "hybrid"
          /\ score m == scoreIn collaborative (productId m) * 0.4
                        + scoreIn contentBased (productId m) * 0.3
                        + scoreIn trending (productId m) * 0.2
                        + scoreIn recentlyViewed (productId m) * 0.1
          /\ NoDup (reasons m)
          /\ forall reason,
               In reason (reasons m)
               <-> exists r, In r strategies
                             /\ productId r = productId m /\ In reason (reasons r))
    /\ Permutation (results ++ dropped) merged
    /\ StronglySorted (fun a b => score b <= score a) results
    /\ length results = Nat.min limit (length merged)
    /\ (forall r d, In r results -> In d dropped -> score d <= score r).
Proof.
  intros limit collaborative contentBased trending recentlyViewed strategies.
  destruct (generateRecommendations_run (withType hybrid request) w) as (w' & Hrun & _).
  set (merged := map snd (productScoresOf
                            (weightedAll collaborative contentBased trending recentlyViewed))).
  exists (firstn limit (sortByScore merged)), w', merged,
         (skipn limit (sortByScore merged)).
  assert (forall r, In r strategies -> NoDup (reasons r)) as Hreasons.
  { intros r Hr. unfold strategies in Hr. rewrite !in_app_iff in Hr.
    unfold collaborative, contentBased, trending, recentlyViewed in Hr.
    rewrite (outputOf_reads _ _ _ _ generateCollaborativeRecommendations_reads),
      (outputOf_reads _ _ _ _ generateContentBasedRecommendations_reads),
      (outputOf_reads _ _ _ _ generateTrendingRecommendations_reads),
      (outputOf_reads _ _ _ _ generateRecentlyViewedRecommendations_reads) in Hr.
    simpl storeId in Hr.
    destruct (storeDatabase (storeId request) w) as [db|]; [|simpl in Hr; tauto].
    destruct Hr as [Hr|[Hr|[Hr|Hr]]].
    - eapply strategyOutput_reasons; [apply collaborativeOn_output|exact Hr].
    - eapply strategyOutput_reasons; [apply contentBasedOn_output|exact Hr].
    - eapply strategyOutput_reasons; [apply trendingOn_output|exact Hr].
    - eapply strategyOutput_reasons; [apply recentlyViewedOn_output|exact Hr]. }
  split; [|exact (merge_by_product collaborative contentBased trending recentlyViewed
                    limit Hreasons)].
  rewrite Hrun. f_equal. f_equal. simpl storeId.
  unfold merged, collaborative, contentBased, trending, recentlyViewed.
  rewrite (outputOf_reads _ _ _ _ generateCollaborativeRecommendations_reads),
    (outputOf_reads _ _ _ _ generateContentBasedRecommendations_reads),
    (outputOf_reads _ _ _ _ generateTrendingRecommendations_reads),
    (outputOf_reads _ _ _ _ generateRecentlyViewedRecommendations_reads).
  simpl storeId.
  destruct (storeDatabase (storeId request) w) as [db|].
  - reflexivity.
  - simpl. now rewrite firstn_nil_any.
Qed.

(** ** Tracking *)

Lemma execute_run (storeDb : Handle) (statement : StoreDb -> Z -> Outcome StoreDb)
    (w : World) :
  execute storeDb statement w
  = match databases w !! storeDb with
    | Some db =>
        match statement db (now w) with
        | Resolved db' => (Resolved tt, withDatabases (<[storeDb := db']> (databases w)) w)
        | Rejected e => (Rejected e, w)
        end
    | None => (Rejected (ConnectionFailed storeDb), w)
    end.
Proof. reflexivity. Qed.

(** C4: [trackBehavior] resolves for every input and every state of the
    world.  Either the event is appended to the customer_behavior table of
    the store's database and nothing is printed, or (the store is not found,
    the main database or the store database cannot be reached, the insert
    fails) the error is printed and no database changes. *)
Theorem trackBehavior_never_rejects (data : BehaviorData) (w : World) :
  exists w',
    trackBehavior data w = (Resolved tt, w')
    /\ mainStores w' = mainStores w
    /\ ((exists storeDb db db',
           fst (getStoreDatabase (bd_storeId data) w) = Resolved storeDb
           /\ databases w !! storeDb = Some db
           /\ customerBehavior db' = customerBehavior db ++ [behaviorRow data (now w)]
           /\ databases w' = <[storeDb := db']> (databases w)
           /\ console w' = console w)
        \/ (exists error,
              console w' = ("Error tracking customer behavior:", error) :: console w
              /\ databases w' = databases w)).
Proof.
  unfold trackBehavior, try_catch, bind.
  destruct (getStoreDatabase_run (bd_storeId data) w)
    as [(e & Hrun)|(storeDb & w1 & Hrun & (_ & Hstores & Hdb & Hnow) & Hconsole)];
    rewrite Hrun.
  - eexists. split; [reflexivity|]. split; [reflexivity|]. right. exists e. auto.
  - rewrite execute_run, <- Hdb, <- Hnow.
    destruct (databases w !! storeDb) as [db|] eqn:Hlookup.
    + destruct (insertCustomerBehavior (behaviorRow data (now w)) db (now w))
        as [db'|e] eqn:Hinsert.
      * eexists. split; [reflexivity|]. split; [simpl; congruence|].
        left. exists storeDb, db, db'. simpl. repeat split; try assumption.
        unfold insertCustomerBehavior in Hinsert.
        destruct (_ && _); [|discriminate]. injection Hinsert as <-. reflexivity.
      * eexists. split; [reflexivity|]. split; [simpl; congruence|].
        right. exists e. simpl. split; congruence.
    + eexists. split; [reflexivity|]. split; [simpl; congruence|].
      right. exists (ConnectionFailed storeDb). simpl. split; congruence.
Qed.

(** The cases C4 names: the store is not found, and the insert fails. *)
Lemma trackBehavior_store_not_found (data : BehaviorData) (w : World) (rows : list Store) :
  mainStores w = Some rows ->
  (forall s, In s rows -> store_id s <> bd_storeId data) ->
  trackBehavior data w
  = (Resolved tt,
     withConsole (("Error tracking customer behavior:", StoreNotFound (bd_storeId data))
                    :: console w) w).
Proof.
  intros Hrows Hnone.
  unfold trackBehavior, try_catch, bind, getStoreDatabase, bind, getStore.
  rewrite Hrows.
  assert (filter (fun s => bool_decide (store_id s = bd_storeId data)) rows = []) as ->.
  { clear Hrows. induction rows as [|s t IH]; simpl; [reflexivity|].
    rewrite bool_decide_eq_false_2 by (apply Hnone; now left).
    apply IH. intros s' Hs'. apply Hnone. now right. }
  reflexivity.
Qed.

Lemma trackBehavior_insert_fails (data : BehaviorData) (w : World) (storeDb : Handle)
    (db : StoreDb) (error : Error) :
  fst (getStoreDatabase (bd_storeId data) w) = Resolved storeDb ->
  databases w !! storeDb = Some db ->
  insertCustomerBehavior (behaviorRow data (now w)) db (now w) = Rejected error ->
  exists w',
    trackBehavior data w = (Resolved tt, w')
    /\ databases w' = databases w
    /\ console w' = ("Error tracking customer behavior:", error) :: console w.
Proof.
  intros Hget Hlookup Hinsert.
  unfold trackBehavior, try_catch, bind.
  destruct (getStoreDatabase_run (bd_storeId data) w)
    as [(e & Hrun)|(storeDb' & w1 & Hrun & (_ & Hstores & Hdb & Hnow) & Hconsole)];
    rewrite Hrun in *; simpl in Hget; [discriminate|].
  injection Hget as ->.
  rewrite execute_run, <- Hdb, <- Hnow, Hlookup, Hinsert.
  eexists. split; [reflexivity|]. simpl. split; congruence.
Qed.

(** ** Feedback *)

Lemma map_unchanged {A : Type} (f : A -> A) (l : list A) :
  (forall x, In x l -> f x = x) -> map f l = l.
Proof.
  intros H. induction l as [|x t IH]; simpl; [reflexivity|].
  rewrite H by now left. rewrite IH; [reflexivity|].
  intros y Hy. apply H. now right.
Qed.

Lemma feedbackTarget_true (data : FeedbackData) (r : RecommendationRow) :
  feedbackTarget data r = true
  <-> rec_productId r = fb_productId data
      /\ match truthy (fb_customerId data) with
         | Some c => rec_customerId r = Some c
         | None => rec_sessionId r = fb_sessionId data
         end.
Proof.
  unfold feedbackTarget. rewrite andb_true_iff.
  destruct (truthy (fb_customerId data)); rewrite !bool_decide_eq_true; tauto.
Qed.

(** C9, amended: when the store's database is reached, feedback with action
    "clicked" resolves.  The rows it names are the rows of the product
    whose customer is the customer of the call, or, when the call has no
    customer (none, or the id 0), whose session is the session of the call:
    on each of them it sets clicked and stamps clickedAt with the current
    time and changes no other column; every row of another product, of
    another customer or, without a customer, of another session stays as it
    was, as do every other table and the console; and when it names no row,
    no database changes. *)
Theorem feedback_clicked_sets_one_flag (data : FeedbackData) (w : World)
    (storeDb : Handle) (db : StoreDb) :
  fb_action data = clicked ->
  fst (getStoreDatabase (fb_storeId data) w) = Resolved storeDb ->
  databases w !! storeDb = Some db ->
  exists w' db',
    trackRecommendationFeedback data w = (Resolved tt, w')
    /\ databases w' = <[storeDb := db']> (databases w)
    /\ mainStores w' = mainStores w
    /\ console w' = console w
    /\ customers db' = customers db
    /\ products db' = products db
    /\ customerBehavior db' = customerBehavior db
    /\ productViews db' = productViews db
    /\ productCategoryMappings db' = productCategoryMappings db
    /\ length (recommendations db') = length (recommendations db)
    /\ (forall i r, nth_error (recommendations db) i = Some r ->
          exists r', nth_error (recommendations db') i = Some r'
                     /\ (rec_productId r = fb_productId data ->
                         match truthy (fb_customerId data) with
                         | Some c => rec_customerId r = Some c
                         | None => rec_sessionId r = fb_sessionId data
                         end ->
                         onlyClickedSet (now w) r r')
                     /\ (rec_productId r <> fb_productId data -> r' = r)
                     /\ (match truthy (fb_customerId data) with
                         | Some c => rec_customerId r <> Some c
                         | None => rec_sessionId r <> fb_sessionId data
                         end ->
                         r' = r))
    /\ ((forall r, In r (recommendations db) ->
           rec_productId r = fb_productId data ->
           match truthy (fb_customerId data) with
           | Some c => rec_customerId r <> Some c
           | None => rec_sessionId r <> fb_sessionId data
           end) ->
        databases w' = databases w).
Proof.
  intros Haction Hget Hlookup.
  unfold trackRecommendationFeedback, try_catch, bind.
  destruct (getStoreDatabase_run (fb_storeId data) w)
    as [(e & Hrun)|(storeDb' & w1 & Hrun & (_ & Hstores & Hdb & Hnow) & Hconsole)];
    rewrite Hrun in *; simpl in Hget; [discriminate|].
  injection Hget as ->.
  rewrite execute_run, <- Hdb, <- Hnow, Hlookup. simpl.
  eexists _, _. split; [reflexivity|]. simpl.
  split; [reflexivity|]. split; [congruence|]. split; [congruence|].
  repeat (split; [reflexivity|]).
  split; [apply length_map|]. split.
  - intros i r Hr. simpl. rewrite nth_error_map, Hr. simpl. eexists. split; [reflexivity|].
    destruct (feedbackTarget data r) eqn:Htarget.
    + apply feedbackTarget_true in Htarget as [Hproduct Hkey].
      split; [intros _ _; rewrite Haction; repeat split|].
      split; [intros Hother; contradiction|].
      intros Hother. destruct (truthy (fb_customerId data)); contradiction.
    + split; [|split; reflexivity].
      intros Hproduct Hkey.
      assert (feedbackTarget data r = true) as Htrue
        by (apply feedbackTarget_true; now split).
      congruence.
  - intros Hnone. rewrite map_unchanged.
    + destruct db. simpl in *. now rewrite insert_id.
    + intros r Hr. destruct (feedbackTarget data r) eqn:Htarget; [|reflexivity].
      apply feedbackTarget_true in Htarget as [Hproduct Hkey].
      specialize (Hnone r Hr Hproduct).
      destruct (truthy (fb_customerId data)); contradiction.
Qed.

(** ** The collaborative scenario *)

Lemma sqlIn_spec (x : option Z) (l : list (option Z)) :
  sqlIn x l = true <-> x <> None /\ In x l.
Proof.
  unfold sqlIn. destruct x as [v|]; [|split; [discriminate|tauto]].
  rewrite existsb_exists. split.
  - intros (y & Hy & Heq). apply bool_decide_eq_true_1 in Heq. subst y. split; [discriminate|exact Hy].
  - intros [_ Hin]. exists (Some v). split; [exact Hin|now apply bool_decide_eq_true_2].
Qed.

Lemma sqlNotIn_spec (x : option Z) (l : list (option Z)) :
  sqlNotIn x l = true <-> x <> None /\ ~ In None l /\ ~ In x l.
Proof.
  unfold sqlNotIn. destruct x as [v|]; [|split; [discriminate|tauto]].
  rewrite forallb_forall. split.
  - intros Hall. split; [discriminate|]. split; intros Hin; specialize (Hall _ Hin); simpl in Hall.
    + discriminate.
    + rewrite bool_decide_eq_true_2 in Hall by reflexivity. discriminate.
  - intros (_ & Hnone & Hnot) y Hy. destruct y as [u|]; [|contradiction].
    apply negb_true_iff, bool_decide_eq_false_2. congruence.
Qed.

Lemma bool_ext (a b : bool) : (a = true <-> b = true) -> a = b.
Proof. destruct a, b; intuition congruence. Qed.

Lemma map_filter_comm {A B : Type} (g : A -> B) (f : B -> bool) (l : list A) :
  map g (filter (fun r => f (g r)) l) = filter f (map g l).
Proof.
  induction l as [|x t IH]; simpl; [reflexivity|].
  destruct (f (g x)); simpl; now rewrite IH.
Qed.

Lemma filter_filter {A : Type} (f g : A -> bool) (l : list A) :
  filter f (filter g l) = filter (fun x => g x && f x) l.
Proof.
  induction l as [|x t IH]; simpl; [reflexivity|].
  destruct (g x); simpl; [destruct (f x)|]; now rewrite IH.
Qed.

(** The purchases a customer shares with the products of [mine], counted by
    event: the COUNT( * ) of the customer's group in the similar-customers
    query. *)
Lemma similar_group_count (c : Z) (mine : list (option Z)) (db : StoreDb) :
  filter (fun r => bool_decide (cb_customerId r = Some c))
         (filter (fun r => bool_decide (cb_action r = purchase)
                           && sqlIn (cb_productId r) mine)
                 (customerBehavior db))
  = filter (fun r => sqlIn (cb_productId r) mine)
           (filter (fun r => bool_decide (cb_customerId r = Some c)
                             && bool_decide (cb_action r = purchase))
                   (customerBehavior db)).
Proof.
  rewrite !filter_filter. apply filter_ext. intros r.
  destruct (bool_decide (cb_action r = purchase)), (sqlIn (cb_productId r) mine),
    (bool_decide (cb_customerId r = Some c)); reflexivity.
Qed.

Lemma shared_purchases_length (c : Z) (mine : list (option Z)) (db : StoreDb) :
  length (filter (fun r => bool_decide (cb_customerId r = Some c))
            (filter (fun r => bool_decide (cb_action r = purchase)
                              && sqlIn (cb_productId r) mine)
                    (customerBehavior db)))
  = length (filter (fun p => sqlIn p mine) (purchasedProductIds c db)).
Proof.
  rewrite similar_group_count. unfold purchasedProductIds.
  rewrite <- map_filter_comm. now rewrite length_map.
Qed.

Lemma NoDup_incl_three {A : Type} (l : list A) (a b c : A) :
  NoDup l -> (forall x, In x l -> x = a \/ x = b \/ x = c) -> (length l <= 3)%nat.
Proof.
  intros Hnd Hin.
  apply (NoDup_incl_length Hnd (l' := [a; b; c])).
  intros x Hx. destruct (Hin x Hx) as [-> | [-> | ->]]; simpl; auto.
Qed.

Lemma Permutation_singleton_map {A B : Type} (g : A -> B) (l : list A) (b : B) :
  Permutation (map g l) [b] -> exists a, l = [a] /\ g a = b.
Proof.
  intros Hp. apply Permutation_sym, Permutation_length_1_inv in Hp.
  destruct l as [|a [|a' t]]; simpl in Hp; try discriminate.
  injection Hp as Hp. eauto.
Qed.

Lemma filter_two_distinct {A : Type} (f : A -> bool) (l : list A) (a b : A) :
  a <> b -> In a l -> In b l -> f a = true -> f b = true ->
  (2 <= length (filter f l))%nat.
Proof.
  intros Hab Ha Hb Hfa Hfb.
  assert (NoDup [a; b]) as Hnd.
  { constructor; [intros [H|[]]; congruence|].
    constructor; [intros []|constructor]. }
  apply (NoDup_incl_length Hnd (l' := filter f l)).
  intros x [<-|[<-|[]]]; apply filter_In; auto.
Qed.

Section CollaborativeScenario.
Variables (db : StoreDb) (now : Z) (C D A B X : Z).
Hypothesis C_purchases :
  forall p, In p (purchasedProductIds C db) <-> p = Some A \/ p = Some B.
Hypothesis D_purchases :
  forall p, In p (purchasedProductIds D db) <-> p = Some A \/ p = Some B \/ p = Some X.
Hypothesis D_purchased_X_once :
  length (filter (fun p => bool_decide (p = Some X)) (purchasedProductIds D db)) = 1%nat.
Hypothesis others_share_less :
  forall c, c <> C -> c <> D ->
    (length (filter (fun p => sqlIn p [Some A; Some B]) (purchasedProductIds c db)) <= 1)%nat.
Hypothesis A_not_B : A <> B.
Hypothesis X_not_A : X <> A.
Hypothesis X_not_B : X <> B.

Lemma scenario_D_not_C : D <> C.
Proof using C_purchases D_purchases X_not_A X_not_B.
  intros HDC. assert (In (Some X) (purchasedProductIds D db)) as H
    by (apply D_purchases; auto).
  rewrite HDC in H. apply C_purchases in H as [H|H]; congruence.
Qed.

Lemma scenario_sqlIn (p : option Z) :
  sqlIn p (purchasedProductIds C db) = sqlIn p [Some A; Some B].
Proof using C_purchases.
  apply bool_ext. rewrite !sqlIn_spec, C_purchases. simpl. intuition congruence.
Qed.

Lemma scenario_sqlNotIn (p : option Z) :
  sqlNotIn p (purchasedProductIds C db) = sqlNotIn p [Some A; Some B].
Proof using C_purchases.
  apply bool_ext. rewrite !sqlNotIn_spec, !C_purchases. simpl. intuition congruence.
Qed.

Lemma scenario_sqlIn_cases :
  sqlIn (Some A) [Some A; Some B] = true
  /\ sqlIn (Some B) [Some A; Some B] = true
  /\ sqlIn (Some X) [Some A; Some B] = false.
Proof using X_not_A X_not_B.
  repeat split.
  - apply sqlIn_spec. simpl. split; [discriminate|auto].
  - apply sqlIn_spec. simpl. split; [discriminate|auto].
  - destruct (sqlIn (Some X) [Some A; Some B]) eqn:H; [|reflexivity].
    apply sqlIn_spec in H as [_ [H|[H|[]]]]; congruence.
Qed.

Lemma scenario_sqlNotIn_cases :
  sqlNotIn (Some A) [Some A; Some B] = false
  /\ sqlNotIn (Some B) [Some A; Some B] = false
  /\ sqlNotIn (Some X) [Some A; Some B] = true.
Proof using X_not_A X_not_B.
  repeat split.
  - destruct (sqlNotIn (Some A) [Some A; Some B]) eqn:H; [|reflexivity].
    apply sqlNotIn_spec in H as (_ & _ & H). elim H. simpl. auto.
  - destruct (sqlNotIn (Some B) [Some A; Some B]) eqn:H; [|reflexivity].
    apply sqlNotIn_spec in H as (_ & _ & H). elim H. simpl. auto.
  - apply sqlNotIn_spec. simpl. split; [discriminate|].
    split; intros [H|[H|[]]]; congruence.
Qed.

(** The group counts of the similar-customers query. *)
Lemma scenario_shared (c : Z) :
  length (filter (fun r => bool_decide (cb_customerId r = Some c))
            (filter (fun r => bool_decide (cb_action r = purchase)
                              && sqlIn (cb_productId r) (purchasedProductIds C db))
                    (customerBehavior db)))
  = length (filter (fun p => sqlIn p [Some A; Some B]) (purchasedProductIds c db)).
Proof using C_purchases.
  rewrite shared_purchases_length. f_equal. apply filter_ext. apply scenario_sqlIn.
Qed.

Lemma scenario_shared_D :
  (2 <= length (filter (fun p => sqlIn p [Some A; Some B]) (purchasedProductIds D db)))%nat.
Proof using D_purchases A_not_B X_not_A X_not_B.
  destruct scenario_sqlIn_cases as (HA & HB & _).
  apply (filter_two_distinct _ _ (Some A) (Some B));
    [congruence|apply D_purchases; auto|apply D_purchases; auto|exact HA|exact HB].
Qed.

(** The similar customers are C itself, D, and at most the group of the
    purchases without a customer. *)
Lemma scenario_similarCustomers :
  let similarCustomers := similarCustomersQuery C db now in
  In (Some D) (map fst similarCustomers)
  /\ forall k, In k (map fst similarCustomers) -> k = Some C \/ k = Some D \/ k = None.
Proof using C_purchases D_purchases others_share_less A_not_B X_not_A X_not_B.
  clear D_purchased_X_once.
  unfold similarCustomersQuery.
  set (rows := filter _ (customerBehavior db)).
  set (groups := filter _ (map _ (groupBy cb_customerId rows))).
  assert (forall g, In g groups ->
            In (fst g) (map cb_customerId rows)
            /\ (1 < Z.of_nat (length (filter (fun r => bool_decide (cb_customerId r = fst g))
                                        rows)))%Z) as Hgroups.
  { intros g Hg. apply filter_In in Hg as [Hg Hcount].
    apply in_map_iff in Hg as ([k rs] & <- & Hg). simpl in *.
    apply groupBy_In in Hg as [Hk Hrs]. simpl in *. subst rs.
    split; [exact Hk|]. now apply Z.ltb_lt. }
  assert (forall k, In k (map fst groups) -> k = Some C \/ k = Some D \/ k = None) as Hkeys.
  { intros k Hk. apply in_map_iff in Hk as (g & <- & Hg).
    destruct (Hgroups g Hg) as [_ Hcount].
    destruct (fst g) as [c|]; [|auto].
    destruct (Z.eq_dec c C) as [->|HC]; [auto|].
    destruct (Z.eq_dec c D) as [->|HD]; [auto|].
    exfalso. unfold rows in Hcount. rewrite scenario_shared in Hcount.
    pose proof (others_share_less c HC HD). lia. }
  assert (In (Some D) (map fst groups)) as HD.
  { assert (2 <= length (filter (fun r => bool_decide (cb_customerId r = Some D)) rows))%nat
      as Hcount.
    { unfold rows. rewrite scenario_shared. apply scenario_shared_D. }
    apply in_map_iff.
    exists (Some D, countRows (filter (fun r => bool_decide (cb_customerId r = Some D)) rows)).
    split; [reflexivity|]. apply filter_In. split.
    - apply in_map_iff.
      exists (Some D, filter (fun r => bool_decide (cb_customerId r = Some D)) rows).
      split; [reflexivity|]. apply groupBy_In. simpl. split; [|reflexivity].
      destruct (filter (fun r => bool_decide (cb_customerId r = Some D)) rows)
        as [|r rest] eqn:Hf; [simpl in Hcount; lia|].
      assert (In r (r :: rest)) as Hr by now left.
      rewrite <- Hf in Hr. apply filter_In in Hr as [Hr Hkey].
      apply bool_decide_eq_true_1 in Hkey. rewrite <- Hkey. now apply in_map.
    - simpl. unfold countRows. apply Z.ltb_lt. lia. }
  assert (NoDup (map fst groups)) as Hnd.
  { unfold groups. apply NoDup_map_filter. rewrite map_map. simpl. apply groupBy_NoDup. }
  assert (length groups <= 3)%nat as Hlen.
  { rewrite <- (length_map fst).
    exact (NoDup_incl_three _ (Some C) (Some D) None Hnd Hkeys). }
  rewrite firstn_all2 by (unfold orderByDesc; rewrite stableSort_length; lia).
  assert (forall k, In k (map fst (orderByDesc snd groups)) <-> In k (map fst groups)) as Hsame.
  { intros k. split; apply Permutation_in, Permutation_map;
      [apply orderByDesc_perm|symmetry; apply orderByDesc_perm]. }
  cbv zeta. split.
  - now apply Hsame.
  - intros k Hk. now apply Hkeys, Hsame.
Qed.

(** The rows of the recommended-products query: the one purchase of X by D. *)
Lemma scenario_recommended_rows (excluded : list Z) :
  excluded = [] ->
  let similarCustomers := similarCustomersQuery C db now in
  let similarCustomerIds :=
    filter (fun id => negb (bool_decide (id = Some C))) (map fst similarCustomers) in
  exists r,
    filter (fun r => bool_decide (cb_action r = purchase)
                     && inArray (cb_customerId r) similarCustomerIds
                     && sqlNotIn (cb_productId r) (purchasedProductIds C db)
                     && notExcluded excluded (cb_productId r))
           (customerBehavior db) = [r]
    /\ cb_productId r = Some X.
Proof using C_purchases D_purchases D_purchased_X_once others_share_less
  A_not_B X_not_A X_not_B.
  intros -> similarCustomers similarCustomerIds.
  pose proof scenario_D_not_C as D_not_C.
  destruct scenario_similarCustomers as [HD Hkeys].
  fold similarCustomers in HD, Hkeys.
  assert (forall x, inArray x similarCustomerIds = bool_decide (x = Some D)) as Hids.
  { intros x. apply bool_ext. unfold inArray. rewrite sqlIn_spec. unfold similarCustomerIds.
    rewrite filter_In, negb_true_iff, bool_decide_eq_false, bool_decide_eq_true. split.
    - intros (Hx & Hin & HC). destruct (Hkeys x Hin) as [H|[H|H]]; congruence.
    - intros ->. repeat split; [discriminate|exact HD|congruence]. }
  assert (filter (fun r => bool_decide (cb_action r = purchase)
                           && inArray (cb_customerId r) similarCustomerIds
                           && sqlNotIn (cb_productId r) (purchasedProductIds C db)
                           && notExcluded [] (cb_productId r))
                 (customerBehavior db)
          = filter (fun r => sqlNotIn (cb_productId r) [Some A; Some B])
                   (filter (fun r => bool_decide (cb_customerId r = Some D)
                                     && bool_decide (cb_action r = purchase))
                           (customerBehavior db))) as ->.
  { rewrite filter_filter. apply filter_ext. intros r.
    rewrite Hids, scenario_sqlNotIn. unfold notExcluded. simpl.
    destruct (bool_decide (cb_action r = purchase)),
      (bool_decide (cb_customerId r = Some D)),
      (sqlNotIn (cb_productId r) [Some A; Some B]); reflexivity. }
  apply (Permutation_singleton_map cb_productId).
  rewrite (map_filter_comm cb_productId (fun p => sqlNotIn p [Some A; Some B])).
  fold (purchasedProductIds D db).
  destruct scenario_sqlNotIn_cases as (HA & HB & HX).
  rewrite (filter_ext_in _ (fun p => bool_decide (p = Some X))).
  - destruct (filter _ (purchasedProductIds D db)) as [|y [|z t]] eqn:Hf;
      try discriminate D_purchased_X_once.
    assert (In y [y]) as Hy by now left.
    rewrite <- Hf in Hy. apply filter_In in Hy as [_ Hy].
    apply bool_decide_eq_true_1 in Hy. now rewrite Hy.
  - intros p Hp. apply D_purchases in Hp as [-> | [-> | ->]].
    + rewrite HA. symmetry. apply bool_decide_eq_false_2. congruence.
    + rewrite HB. symmetry. apply bool_decide_eq_false_2. congruence.
    + rewrite HX. symmetry. now apply bool_decide_eq_true_2.
Qed.

Lemma collaborativeOn_scenario (request : RecommendationRequest) :
  customerId request = Some C -> C <> 0%Z -> X <> 0%Z ->
  default [] (excludeProductIds request) = [] ->
  (1 <= default 10 (limit request))%nat ->
  collaborativeOn request db now
  = [ {| productId := X;
         score := Qmin (inject_Z 1 / 10) 1;
         type := "collaborative";
         reasons := ["Customers like you also purchased this"] |} ].
Proof using C_purchases D_purchases D_purchased_X_once others_share_less
  A_not_B X_not_A X_not_B.
  intros Hcustomer HC HX Hexcluded Hlimit.
  unfold collaborativeOn. rewrite Hcustomer. unfold truthy.
  rewrite (proj2 (Z.eqb_neq C 0) HC).
  destruct scenario_similarCustomers as [HD _].
  destruct (similarCustomersQuery C db now) as [|first rest] eqn:Hsimilar;
    [destruct HD|]. cbn [length Nat.eqb].
  rewrite <- Hsimilar. rewrite Hexcluded at 1.
  change (exclusionAccepted []) with true. cbv iota.
  unfold recommendedProductsQuery.
  destruct (scenario_recommended_rows _ Hexcluded) as (r & -> & Hr).
  unfold groupBy. cbn [map distinct filter]. rewrite Hr.
  rewrite bool_decide_eq_true_2 by reflexivity.
  unfold orderByDesc, stableSort. cbn [map fst snd fold_right insertSorted].
  destruct (default 10%nat (limit request)) as [|n]; [lia|].
  cbn [firstn filter fst]. unfold isTruthy, truthy.
  rewrite (proj2 (Z.eqb_neq X 0) HX). rewrite firstn_nil_any. reflexivity.
Qed.
End CollaborativeScenario.

(** C6, amended: in a store where the products of customer C's purchase
    events are A and B, those of customer D's are A, B and X with one event
    for X, and no other customer has two or more purchase events on A or B
    (the engine counts purchase events, not products), a collaborative
    request for C without exclusions and with a limit of at least 1 resolves
    with exactly one entry: X, with score min(1/10, 1) = 0.1 and the reason
    "Customers like you also purchased this".  Ids are not 0, as the serial
    keys of the tables. *)
Theorem collaborative_scenario (w : World) (request : RecommendationRequest)
    (db : StoreDb) (C D A B X : Z) :
  storeDatabase (storeId request) w = Some db ->
  customerId request = Some C -> C <> 0%Z -> X <> 0%Z ->
  default [] (excludeProductIds request) = [] ->
  (1 <= default 10 (limit request))%nat ->
  A <> B -> X <> A -> X <> B ->
  (forall p, In p (purchasedProductIds C db) <-> p = Some A \/ p = Some B) ->
  (forall p, In p (purchasedProductIds D db) <-> p = Some A \/ p = Some B \/ p = Some X) ->
  length (filter (fun p => bool_decide (p = Some X)) (purchasedProductIds D db)) = 1%nat ->
  (forall c, c <> C -> c <> D ->
     (length (filter (fun p => sqlIn p [Some A; Some B]) (purchasedProductIds c db))
      <= 1)%nat) ->
  exists r w',
    generateRecommendations (withType collaborative request) w = (Resolved [r], w')
    /\ productId r = X
    /\ score r == 0.1
    /\ type r = "collaborative"
    /\ reasons r = ["Customers like you also purchased this"].
Proof.
  intros Hdb Hcustomer HC HX Hexcluded Hlimit HAB HXA HXB HCp HDp HDX Hothers.
  destruct (generateRecommendations_run (withType collaborative request) w)
    as (w' & Hrun & _).
  simpl storeId in Hrun. rewrite Hdb in Hrun.
  unfold recommendationsOn in Hrun. simpl in Hrun.
  rewrite (collaborativeOn_scenario db (now w) C D A B X HCp HDp HDX Hothers HAB HXA HXB)
    in Hrun by assumption.
  eexists _, w'. split; [exact Hrun|]. simpl. repeat split.
Qed.

(** The scenario on the sample store: customer 1 bought 10 and 11, customer
    2 bought 10, 11 and 12, customer 3 shares product 10 only. *)
Lemma collaborative_scenario_sample :
  exists r w',
    generateRecommendations
      (withType collaborative (sampleRequest 1 (Some 1%Z) collaborative))
      (sampleWorld purchasesDb emptyStoreDb) = (Resolved [r], w')
    /\ productId r = 12%Z
    /\ score r == 0.1
    /\ type r = "collaborative"
    /\ reasons r = ["Customers like you also purchased this"].
Proof.
  apply (collaborative_scenario (sampleWorld purchasesDb emptyStoreDb)
           (sampleRequest 1 (Some 1%Z) collaborative) purchasesDb 1 2 10 11 12).
  - reflexivity.
  - reflexivity.
  - discriminate.
  - discriminate.
  - reflexivity.
  - simpl. lia.
  - discriminate.
  - discriminate.
  - discriminate.
  - intros p. simpl. intuition congruence.
  - intros p. simpl. intuition congruence.
  - reflexivity.
  - intros c HC HD. unfold purchasedProductIds. simpl.
    repeat case_bool_decide; simplify_eq; simpl; lia.
Defined.

(** ** Content-based scores *)

Lemma productCategoriesQuery_row (viewed : list Z) (db : StoreDb) (now : Z) (g : Z * Z) :
  In g (productCategoriesQuery viewed db now) <->
  snd g = categoryFrequency viewed db (fst g) /\ (0 < snd g)%Z.
Proof.
  unfold productCategoriesQuery. rewrite orderByDesc_In, in_map_iff.
  unfold categoryFrequency. split.
  - intros ([k rows] & <- & Hg). simpl.
    pose proof (groupBy_rows_nonempty _ _ _ Hg) as Hne.
    apply groupBy_In in Hg as [_ Hrows]. simpl in *. subst rows.
    rewrite filter_filter in *. split; [reflexivity|].
    unfold countRows. destruct (filter _ _); [now elim Hne|simpl; lia].
  - intros [Hcount Hpos]. destruct g as [k n]. simpl in *.
    exists (k, filter (fun r => bool_decide (pcm_categoryId r = k))
                 (filter (fun m => memZ (pcm_productId m) viewed)
                         (productCategoryMappings db))).
    split.
    + simpl. now rewrite filter_filter, Hcount.
    + apply groupBy_In. simpl. split; [|reflexivity].
      rewrite Hcount in Hpos. unfold countRows in Hpos.
      destruct (filter _ (productCategoryMappings db)) as [|m rest] eqn:Hf;
        [simpl in Hpos; lia|].
      assert (In m (m :: rest)) as Hm by now left.
      rewrite <- Hf in Hm. apply filter_In in Hm as [Hm Hcond].
      apply andb_prop in Hcond as [Hviewed Hcat].
      apply bool_decide_eq_true_1 in Hcat. rewrite <- Hcat.
      apply in_map, filter_In. auto.
Qed.

Lemma productCategoriesQuery_keys (viewed : list Z) (db : StoreDb) (now : Z) :
  NoDup (map fst (productCategoriesQuery viewed db now)).
Proof.
  unfold productCategoriesQuery. apply NoDup_map_orderByDesc.
  rewrite map_map. simpl. apply groupBy_NoDup.
Qed.

Lemma categoryFrequency_nonneg (viewed : list Z) (db : StoreDb) (k : Z) :
  (0 <= categoryFrequency viewed db k)%Z.
Proof. unfold categoryFrequency, countRows. lia. Qed.

(** The top categories: at most three, each occurring among the viewed
    products, and no category left out occurs more often than one taken. *)
Lemma topCategoryIdsOn_top (request : RecommendationRequest) (db : StoreDb) (now : Z) :
  let viewed := viewedProductsQuery (customerId request) (sessionId request) db now in
  let top := topCategoryIdsOn request db now in
  (length top <= 3)%nat
  /\ NoDup top
  /\ (forall k, In k top -> (0 < categoryFrequency viewed db k)%Z)
  /\ (forall k k', In k top -> ~ In k' top ->
        (categoryFrequency viewed db k' <= categoryFrequency viewed db k)%Z).
Proof.
  intros viewed top. unfold top, topCategoryIdsOn. fold viewed.
  set (categories := productCategoriesQuery viewed db now).
  assert (forall g, In g (firstn 3 categories) ->
            snd g = categoryFrequency viewed db (fst g) /\ (0 < snd g)%Z) as Hfirst.
  { intros g Hg. apply firstn_In in Hg. now apply productCategoriesQuery_row in Hg. }
  split; [|split; [|split]].
  - rewrite length_map, length_firstn. lia.
  - apply NoDup_map_firstn, productCategoriesQuery_keys.
  - intros k Hk. apply in_map_iff in Hk as (g & <- & Hg).
    destruct (Hfirst g Hg) as [<- Hpos]. exact Hpos.
  - intros k k' Hk Hk'. apply in_map_iff in Hk as (g & <- & Hg).
    destruct (Hfirst g Hg) as [Hcount Hpos].
    destruct (Z.eq_dec (categoryFrequency viewed db k') 0) as [->|Hne].
    { rewrite <- Hcount. lia. }
    assert (In (k', categoryFrequency viewed db k') categories) as Hin.
    { apply productCategoriesQuery_row. simpl. split; [reflexivity|].
      pose proof (categoryFrequency_nonneg viewed db k'). lia. }
    rewrite <- (firstn_skipn 3 categories) in Hin. apply in_app_iff in Hin as [Hin|Hin].
    + elim Hk'. apply in_map_iff. now exists (k', categoryFrequency viewed db k').
    + rewrite <- Hcount.
      pose proof (StronglySorted_firstn_skipn _ 3 _
                    (orderByDesc_sorted snd _ : StronglySorted _ categories)
                    g _ Hg Hin) as Hle.
      exact Hle.
Qed.

Lemma similarProductsQuery_count (top viewed excluded : list Z) (n : nat)
    (db : StoreDb) (now : Z) (item : Z * Z) :
  In item (similarProductsQuery top viewed excluded n db now) ->
  snd item = matchingCategoryCount top db (fst item)
  /\ (0 < snd item)%Z
  /\ ~ In (fst item) viewed.
Proof.
  intros Hitem. pose proof Hitem as Hrow.
  apply similarProductsQuery_row in Hrow as (Hcount & Hviewed & Hexcluded).
  assert (snd item = matchingCategoryCount top db (fst item)) as Heq.
  { rewrite Hcount. unfold matchingCategoryCount. f_equal.
    rewrite filter_filter. apply filter_ext. intros m.
    destruct (decide (pcm_productId m = fst item)) as [Hp|Hp].
    - rewrite Hp, Hviewed, Hexcluded, (bool_decide_eq_true_2 _ eq_refl).
      now rewrite !andb_true_r.
    - rewrite (bool_decide_eq_false_2 _ Hp). now rewrite andb_false_r. }
  split; [exact Heq|]. split.
  - unfold similarProductsQuery in Hitem.
    apply firstn_In in Hitem. apply (proj1 (orderByDesc_In _ _ _)) in Hitem.
    apply in_map_iff in Hitem as (g & <- & Hg). simpl.
    apply groupBy_rows_nonempty in Hg. unfold countRows.
    destruct (snd g); [now elim Hg|simpl; lia].
  - apply sqlNotIn_spec in Hviewed as (_ & _ & Hnot).
    intros Hin. apply Hnot. now apply in_map.
Qed.

(** With one id in the list of viewed products, the customer or session has
    one view, and the list names its product. *)
Lemma viewedProductsQuery_single (c : option Z) (s : string) (db : StoreDb) (now : Z)
    (v : ProductViewRow) :
  joinedIsInteger (viewedProductsQuery c s db now) = true ->
  In v (productViews db) -> viewedBy c s v = true ->
  In (pv_productId v) (viewedProductsQuery c s db now).
Proof.
  unfold joinedIsInteger, viewedProductsQuery. intros Hone Hv Hby.
  apply Nat.eqb_eq in Hone. rewrite length_map, length_firstn in Hone.
  rewrite firstn_all2 by lia.
  apply in_map. apply orderByDesc_In, filter_In. auto.
Qed.

Lemma memZ_In (x : Z) (l : list Z) : memZ x l = true <-> In x l.
Proof.
  unfold memZ. rewrite existsb_exists. split.
  - intros (y & Hy & Heq). apply Z.eqb_eq in Heq. now subst y.
  - intros H. exists x. split; [exact H|apply Z.eqb_refl].
Qed.

Lemma NoDup_all_equal {A : Type} (l : list A) (a : A) :
  NoDup l -> (forall x, In x l -> x = a) -> (length l <= 1)%nat.
Proof.
  intros Hnd Hall. destruct l as [|x [|y t]]; simpl; try lia.
  apply NoDup_cons_iff in Hnd as [Hx _]. elim Hx.
  rewrite (Hall x), (Hall y); simpl; auto.
Qed.

(** Mappings stored once: the mappings of a product into distinct categories
    are as many as the categories among them the product belongs to. *)
Lemma matchingCategoryCount_categoriesOf (categoryIds : list Z) (db : StoreDb) (p : Z) :
  NoDup (productCategoryMappings db) -> NoDup categoryIds ->
  matchingCategoryCount categoryIds db p = categoriesOf categoryIds db p.
Proof.
  intros Hstored Hids. unfold matchingCategoryCount, categoriesOf.
  set (rows := filter (fun m => bool_decide (pcm_productId m = p)
                                && memZ (pcm_categoryId m) categoryIds)
                      (productCategoryMappings db)).
  assert (NoDup rows) as Hrows by now apply NoDup_filter.
  assert (forall m, In m rows <->
            In m (productCategoryMappings db) /\ pcm_productId m = p
            /\ In (pcm_categoryId m) categoryIds) as Hrow.
  { intros m. unfold rows. rewrite filter_In, andb_true_iff, memZ_In.
    rewrite bool_decide_eq_true. tauto. }
  rewrite <- (count_by_key pcm_categoryId categoryIds rows Hids)
    by (intros m Hm; now apply Hrow).
  assert (forall k, In k categoryIds ->
            countRows (filter (fun m => bool_decide (pcm_categoryId m = k)) rows)
            = if existsb (fun m => bool_decide (pcm_productId m = p)
                                   && bool_decide (pcm_categoryId m = k))
                         (productCategoryMappings db)
              then 1%Z else 0%Z) as Hk.
  { intros k Hin. unfold countRows.
    destruct (existsb _ (productCategoryMappings db)) eqn:Hex.
    - apply existsb_exists in Hex as (m & Hm & Hcond).
      apply andb_prop in Hcond as [Hp Hcat].
      apply bool_decide_eq_true_1 in Hp. apply bool_decide_eq_true_1 in Hcat.
      assert (In m (filter (fun m => bool_decide (pcm_categoryId m = k)) rows)) as Hmem.
      { apply filter_In. split; [|now apply bool_decide_eq_true_2].
        apply Hrow. rewrite Hcat. auto. }
      assert (length (filter (fun m => bool_decide (pcm_categoryId m = k)) rows) <= 1)%nat.
      { apply (NoDup_all_equal _ m); [now apply NoDup_filter|].
        intros m' Hm'. apply filter_In in Hm' as [Hm' Hcat'].
        apply bool_decide_eq_true_1 in Hcat'. apply Hrow in Hm' as (_ & Hp' & _).
        destruct m, m'. simpl in *. congruence. }
      destruct (filter _ rows); [destruct Hmem|simpl in *; lia].
    - destruct (filter _ rows) as [|m rest] eqn:Hf; [reflexivity|].
      assert (In m (m :: rest)) as Hm by now left.
      rewrite <- Hf in Hm. apply filter_In in Hm as [Hm Hcat].
      apply Hrow in Hm as (Hm & Hp & _).
      assert (existsb (fun m => bool_decide (pcm_productId m = p)
                                && bool_decide (pcm_categoryId m = k))
                      (productCategoryMappings db) = true) as Htrue.
      { apply existsb_exists. exists m. split; [exact Hm|].
        now rewrite (bool_decide_eq_true_2 _ Hp), Hcat. }
      congruence. }
  clear Hids Hrow Hrows. revert Hk. generalize rows. clear rows. intros rows.
  induction categoryIds as [|k ks IH]; intros Hk; simpl; [reflexivity|].
  rewrite (Hk k (or_introl eq_refl)), (IH (fun k' Hk' => Hk k' (or_intror Hk'))).
  destruct (existsb _ (productCategoryMappings db)); unfold countRows; simpl length; lia.
Qed.

Lemma contentBasedOn_scores (request : RecommendationRequest) (db : StoreDb) (now : Z)
    (r : RecommendationResult) :
  let viewed := viewedProductsQuery (customerId request) (sessionId request) db now in
  let top := topCategoryIdsOn request db now in
  In r (contentBasedOn request db now) ->
  ~ In (productId r) viewed
  /\ (0 < matchingCategoryCount top db (productId r))%Z
  /\ score r == Qmin (inject_Z (matchingCategoryCount top db (productId r))
                      / inject_Z (Z.of_nat (length top))) 1
  /\ joinedIsInteger viewed = true.
Proof.
  intros viewed top. unfold contentBasedOn. fold viewed. fold top.
  destruct (length _ =? 0)%nat; [intros []|].
  destruct (length _ =? 0)%nat; [intros []|].
  destruct (joinedIsInteger viewed) eqn:Hone; [|intros []].
  destruct (exclusionAccepted _); [|intros []]. simpl.
  intros Hr. apply in_map_iff in Hr as (item & <- & Hitem). simpl.
  apply similarProductsQuery_count in Hitem as (Hcount & Hpos & Hviewed).
  split; [exact Hviewed|]. rewrite <- Hcount. split; [exact Hpos|]. split; reflexivity.
Qed.

(** C7, amended: a content-based request resolves with products the
    customer (or, without a customer, the session) has not viewed; the
    score of each is min(c / k, 1), where the k top categories are the (at
    most three) most frequent categories of the (at most five) most recently
    viewed products, and c is the number of mappings of the product into
    the top categories, which is the number of top categories the product
    belongs to when no mapping is stored twice. *)
Theorem content_based_scores (request : RecommendationRequest) (w : World) :
  exists results w',
    generateRecommendations (withType content_based request) w = (Resolved results, w')
    /\ forall db, storeDatabase (storeId request) w = Some db ->
       let viewed :=
         viewedProductsQuery (customerId request) (sessionId request) db (now w) in
       let top := topCategoryIdsOn request db (now w) in
       (length viewed <= 5)%nat
       /\ (length top <= 3)%nat
       /\ NoDup top
       /\ (forall k, In k top -> (0 < categoryFrequency viewed db k)%Z)
       /\ (forall k k', In k top -> ~ In k' top ->
             (categoryFrequency viewed db k' <= categoryFrequency viewed db k)%Z)
       /\ forall r, In r results ->
            ~ In (productId r) viewed
            /\ (forall v, In v (productViews db) ->
                  match truthy (customerId request) with
                  | Some c => pv_customerId v = Some c
                  | None => pv_sessionId v = sessionId request
                  end ->
                  pv_productId v <> productId r)
            /\ (0 < matchingCategoryCount top db (productId r))%Z
            /\ (NoDup (productCategoryMappings db) ->
                matchingCategoryCount top db (productId r)
                = categoriesOf top db (productId r))
            /\ score r == Qmin (inject_Z (matchingCategoryCount top db (productId r))
                                / inject_Z (Z.of_nat (length top))) 1.
Proof.
  destruct (generateRecommendations_run (withType content_based request) w)
    as (w' & Hrun & _).
  eexists _, w'. split; [exact Hrun|]. clear Hrun. simpl storeId.
  intros db Hdb. rewrite Hdb. cbv zeta.
  split.
  { unfold viewedProductsQuery. rewrite length_map, length_firstn. lia. }
  destruct (topCategoryIdsOn_top request db (now w)) as (H1 & H2 & H3 & H4).
  split; [exact H1|]. split; [exact H2|]. split; [exact H3|]. split; [exact H4|].
  change (recommendationsOn (withType content_based request) db (now w))
    with (contentBasedOn request db (now w)).
  intros r Hr. apply contentBasedOn_scores in Hr as (Hviewed & Hpos & Hscore & Hone).
  split; [exact Hviewed|]. split; [|split; [exact Hpos|split; [|exact Hscore]]].
  - intros v Hv Hby Heq. apply Hviewed. rewrite <- Heq.
    apply viewedProductsQuery_single; [exact Hone|exact Hv|].
    unfold viewedBy. destruct (truthy (customerId request));
      now apply bool_decide_eq_true_2.
  - intros Hstored. now apply matchingCategoryCount_categoriesOf.
Qed.

(** C7, as stated, fails twice.  The divisor: the session viewed product 10
    of category 1, the only top category; product 11 belongs to it (c = 1)
    and is returned with score 1, not min(1/3, 1).  The count: the session
    viewed product 10 of the three top categories 1, 2 and 3; product 11
    belongs to one of them (c = 1), its mapping is stored twice, and it is
    returned with score 2/3, not min(1/3, 1). *)
Lemma content_based_score_divides_by_found_categories :
  (exists r w',
     generateRecommendations (sampleRequest 1 None content_based)
       (sampleWorld oneCategoryDb emptyStoreDb) = (Resolved [r], w')
     /\ productId r = 11%Z
     /\ topCategoryIdsOn (sampleRequest 1 None content_based) oneCategoryDb (days 10) = [1%Z]
     /\ matchingCategoryCount [1%Z] oneCategoryDb 11 = 1%Z
     /\ categoriesOf [1%Z] oneCategoryDb 11 = 1%Z
     /\ score r == 1
     /\ ~ score r == Qmin (inject_Z 1 / 3) 1)
  /\ (exists r w',
        generateRecommendations (sampleRequest 1 None content_based)
          (sampleWorld repeatedMappingDb emptyStoreDb) = (Resolved [r], w')
        /\ productId r = 11%Z
        /\ topCategoryIdsOn (sampleRequest 1 None content_based) repeatedMappingDb (days 10)
           = [1; 2; 3]%Z
        /\ categoriesOf [1; 2; 3]%Z repeatedMappingDb 11 = 1%Z
        /\ score r == 2 # 3
        /\ ~ score r == Qmin (inject_Z 1 / 3) 1).
Proof.
  split.
  - eexists _, _. split; [vm_compute; reflexivity|].
    repeat split. vm_compute. discriminate.
  - eexists _, _. split; [vm_compute; reflexivity|].
    repeat split. vm_compute. discriminate.
Qed.

(** ** Feedback on the sample store *)

(** The click of session-1 on product 10 in the sample store. *)
Lemma feedback_clicked_sample :
  exists w' db',
    trackRecommendationFeedback clickedFeedback (sampleWorld recommendedDb emptyStoreDb)
    = (Resolved tt, w')
    /\ databases w'
       = <["postgres://store-1" := db']> (databases (sampleWorld recommendedDb emptyStoreDb))
    /\ mainStores w' = mainStores (sampleWorld recommendedDb emptyStoreDb)
    /\ console w' = console (sampleWorld recommendedDb emptyStoreDb)
    /\ customers db' = customers recommendedDb
    /\ products db' = products recommendedDb
    /\ customerBehavior db' = customerBehavior recommendedDb
    /\ productViews db' = productViews recommendedDb
    /\ productCategoryMappings db' = productCategoryMappings recommendedDb
    /\ length (recommendations db') = length (recommendations recommendedDb)
    /\ (forall i r, nth_error (recommendations recommendedDb) i = Some r ->
          exists r', nth_error (recommendations db') i = Some r'
                     /\ (rec_productId r = fb_productId clickedFeedback ->
                         match truthy (fb_customerId clickedFeedback) with
                         | Some c => rec_customerId r = Some c
                         | None => rec_sessionId r = fb_sessionId clickedFeedback
                         end ->
                         onlyClickedSet (now (sampleWorld recommendedDb emptyStoreDb)) r r')
                     /\ (rec_productId r <> fb_productId clickedFeedback -> r' = r)
                     /\ (match truthy (fb_customerId clickedFeedback) with
                         | Some c => rec_customerId r <> Some c
                         | None => rec_sessionId r <> fb_sessionId clickedFeedback
                         end ->
                         r' = r))
    /\ ((forall r, In r (recommendations recommendedDb) ->
           rec_productId r = fb_productId clickedFeedback ->
           match truthy (fb_customerId clickedFeedback) with
           | Some c => rec_customerId r <> Some c
           | None => rec_sessionId r <> fb_sessionId clickedFeedback
           end) ->
        databases w' = databases (sampleWorld recommendedDb emptyStoreDb)).
Proof.
  apply (feedback_clicked_sets_one_flag clickedFeedback
           (sampleWorld recommendedDb emptyStoreDb) "postgres://store-1" recommendedDb).
  - reflexivity.
  - reflexivity.
  - reflexivity.
Defined.

(** The sample after the click: the row of product 10 is clicked at the
    current time, the row of product 11 is as it was. *)
Example feedback_clicked_sample_rows :
  option_map recommendations
    (storeDatabase 1
       (snd (trackRecommendationFeedback clickedFeedback
               (sampleWorld recommendedDb emptyStoreDb))))
  = Some [ {| rec_customerId := None; rec_sessionId := "session-1"; rec_productId := 10;
              rec_recommendationType := "trending"; rec_score := 1;
              rec_reasons := ["Trending this week"];
              rec_shown := true; rec_clicked := true; rec_purchased := false;
              rec_shownAt := Some (days 9); rec_clickedAt := Some (days 10);
              rec_purchasedAt := None; rec_createdAt := days 9 |};
           recommendationRow "session-1" 11 ].
Proof. vm_compute. reflexivity. Qed.

(** C9, as stated, fails twice.  A call that carries a customer does not
    look at the session: the row of the very session and product of the
    call stays unclicked, and no row changes.  And a call names every row of
    the session and the product: of two such rows both are clicked, two
    flags in one call. *)
Lemma feedback_with_customer_skips_session_row :
  (In (recommendationRow "session-1" 10) (recommendations recommendedDb)
   /\ rec_sessionId (recommendationRow "session-1" 10)
      = fb_sessionId customerClickedFeedback
   /\ rec_productId (recommendationRow "session-1" 10)
      = fb_productId customerClickedFeedback
   /\ rec_clicked (recommendationRow "session-1" 10) = false
   /\ exists w',
        trackRecommendationFeedback customerClickedFeedback
          (sampleWorld recommendedDb emptyStoreDb) = (Resolved tt, w')
        /\ storeDatabase 1 w' = Some recommendedDb)
  /\ (map rec_clicked (recommendations recommendedTwiceDb) = [false; false]
      /\ exists w' db',
           trackRecommendationFeedback clickedFeedback
             (sampleWorld recommendedTwiceDb emptyStoreDb) = (Resolved tt, w')
           /\ storeDatabase 1 w' = Some db'
           /\ map rec_clicked (recommendations db') = [true; true]).
Proof.
  split.
  - split; [now left|]. repeat (split; [reflexivity|]).
    eexists. split; [vm_compute; reflexivity|]. vm_compute. reflexivity.
  - split; [reflexivity|].
    eexists _, _. split; [vm_compute; reflexivity|].
    split; vm_compute; reflexivity.
Qed.

(** ** Collaborative filtering counts purchase events *)

(** C6, as stated, fails: the engine counts purchase events, not products.
    Customer 1 bought products 10 and 11, customer 2 bought 10, 11 and 12
    and nobody else bought anything; customer 2 bought product 12 twice, and
    product 12 is returned with score 0.2.  And customer 3, who shares one
    product with customer 1 but bought it twice, counts as a similar
    customer: the purchase of product 12 by customer 3 is added to the one
    of customer 2, and the score is 0.2 again.  A request with limit 0
    returns nothing. *)
Lemma collaborative_counts_purchase_events :
  ((forall p, In p (purchasedProductIds 1 repeatPurchaseDb) <-> p = Some 10%Z \/ p = Some 11%Z)
   /\ (forall p, In p (purchasedProductIds 2 repeatPurchaseDb)
                 <-> p = Some 10%Z \/ p = Some 11%Z \/ p = Some 12%Z)
   /\ (forall c, c <> 1%Z -> c <> 2%Z -> purchasedProductIds c repeatPurchaseDb = [])
   /\ exists r w',
        generateRecommendations (sampleRequest 1 (Some 1%Z) collaborative)
          (sampleWorld repeatPurchaseDb emptyStoreDb) = (Resolved [r], w')
        /\ productId r = 12%Z
        /\ score r == 2 # 10
        /\ ~ score r == 1 # 10)
  /\ ((forall p, In p (purchasedProductIds 1 sharedTwiceDb) <-> p = Some 10%Z \/ p = Some 11%Z)
      /\ (forall p, In p (purchasedProductIds 2 sharedTwiceDb)
                    <-> p = Some 10%Z \/ p = Some 11%Z \/ p = Some 12%Z)
      /\ (forall p, In p (purchasedProductIds 3 sharedTwiceDb)
                    <-> p = Some 10%Z \/ p = Some 12%Z)
      /\ (forall c, c <> 1%Z -> c <> 2%Z -> c <> 3%Z ->
            purchasedProductIds c sharedTwiceDb = [])
      /\ exists r w',
           generateRecommendations (sampleRequest 1 (Some 1%Z) collaborative)
             (sampleWorld sharedTwiceDb emptyStoreDb) = (Resolved [r], w')
           /\ productId r = 12%Z
           /\ score r == 2 # 10
           /\ ~ score r == 1 # 10)
  /\ (exists w',
        generateRecommendations (withLimit 0 (sampleRequest 1 (Some 1%Z) collaborative))
          (sampleWorld purchasesDb emptyStoreDb) = (Resolved [], w')).
Proof.
  split; [|split; [|eexists; vm_compute; reflexivity]].
  - split; [intros p; simpl; intuition congruence|].
    split; [intros p; simpl; intuition congruence|].
    split.
    + intros c H1 H2. unfold purchasedProductIds. simpl.
      repeat case_bool_decide; simplify_eq; reflexivity.
    + eexists _, _. split; [vm_compute; reflexivity|].
      repeat split. vm_compute. discriminate.
  - split; [intros p; simpl; intuition congruence|].
    split; [intros p; simpl; intuition congruence|].
    split; [intros p; simpl; intuition congruence|].
    split.
    + intros c H1 H2 H3. unfold purchasedProductIds. simpl.
      repeat case_bool_decide; simplify_eq; reflexivity.
    + eexists _, _. split; [vm_compute; reflexivity|].
      repeat split. vm_compute. discriminate.
Qed.

(** ** Trending: the divisor and the top score *)

(** C8 fails on tracked views without a product: their group has the
    largest total (4) and sets the divisor, then the filter on productId
    drops it; product 10 (three views) is the only and top entry, with score
    3/4. *)
Lemma trending_top_score_below_one :
  exists r w',
    generateRecommendations (sampleRequest 1 None trending) viewsWithoutProductWorld
    = (Resolved [r], w')
    /\ productId r = 10%Z
    /\ score r == 3 # 4
    /\ ~ score r == 1.
Proof.
  eexists _, _. split; [vm_compute; reflexivity|].
  repeat split. vm_compute. discriminate.
Qed.

(** ** Stores that share a connection string *)

(** C2 fails once [createStoreDatabase] provisioned two stores: both get the
    connection string of the main database, and three views tracked under
    store 1 make product 10 trending for store 2. *)
Lemma behavior_of_store_1_read_by_store_2 :
  storeDatabase 1 provisionedWorld = storeDatabase 2 provisionedWorld
  /\ fst (generateRecommendations (sampleRequest 2 None trending) provisionedWorld)
     = Resolved []
  /\ exists r w',
       generateRecommendations (sampleRequest 2 None trending)
         (trackAll [ behaviorData 1 view (Some 10%Z); behaviorData 1 view (Some 10%Z);
                     behaviorData 1 view (Some 10%Z) ] provisionedWorld)
       = (Resolved [r], w')
       /\ productId r = 10%Z.
Proof.
  split; [vm_compute; reflexivity|]. split; [vm_compute; reflexivity|].
  eexists _, _. split; [vm_compute; reflexivity|]. reflexivity.
Qed.

(** ** Stores with connection strings of their own *)

Lemma getStoreDatabase_fst_stores (id : Z) (w1 w2 : World) :
  mainStores w1 = mainStores w2 ->
  fst (getStoreDatabase id w1) = fst (getStoreDatabase id w2).
Proof.
  intros Hs. unfold getStoreDatabase, bind, getStore. rewrite Hs.
  destruct (mainStores w2) as [rows|]; [|reflexivity].
  destruct (hd_error _) as [store|]; reflexivity.
Qed.

(** [trackBehavior] writes to the database behind the handle of its store
    and to no other. *)
Lemma trackBehavior_frame (data : BehaviorData) (w : World) :
  exists w',
    trackBehavior data w = (Resolved tt, w')
    /\ mainStores w' = mainStores w
    /\ now w' = now w
    /\ forall databaseUrl,
         fst (getStoreDatabase (bd_storeId data) w) <> Resolved databaseUrl ->
         databases w' !! databaseUrl = databases w !! databaseUrl.
Proof.
  unfold trackBehavior, try_catch, bind.
  destruct (getStoreDatabase_run (bd_storeId data) w)
    as [(e & Hrun)|(storeDb & w1 & Hrun & (_ & Hstores & Hdb & Hnow) & Hconsole)];
    rewrite Hrun.
  - eexists. repeat split.
  - rewrite execute_run, <- Hdb, <- Hnow.
    destruct (databases w !! storeDb) as [db|] eqn:Hlookup.
    + destruct (insertCustomerBehavior _ db (now w)) as [db'|e].
      * eexists. split; [reflexivity|]. simpl. repeat split; try congruence.
        intros databaseUrl Hother.
        apply lookup_insert_ne. congruence.
      * eexists. split; [reflexivity|]. simpl. repeat split; congruence.
    + eexists. split; [reflexivity|]. simpl. repeat split; congruence.
Qed.



(** ** Trending: what holds of every entry *)

Lemma trendingProductsQuery_events (excluded : list Z) (n : nat) (db : StoreDb) (now : Z)
    (item : TrendingRow) (p : Z) :
  In item (trendingProductsQuery excluded n db now) ->
  tr_productId item = Some p ->
  tr_totalScore item = sumOver actionWeight (windowEvents db now p)
  /\ (3 <= length (windowEvents db now p))%nat.
Proof.
  intros Hitem Hp.
  apply trendingProductsQuery_row in Hitem as (events & Hrow & Hevents & Hcount).
  rewrite Hp in Hevents.
  assert (events = windowEvents db now p) as Heq.
  { destruct events as [|e rest]; [unfold countRows in Hcount; simpl in Hcount; lia|].
    assert (notExcluded excluded (Some p) = true) as Hex.
    { assert (In e (e :: rest)) as He by now left.
      rewrite Hevents in He. apply filter_In in He as [He Hkey].
      apply filter_In in He as [_ He]. apply bool_decide_eq_true_1 in Hkey.
      rewrite <- Hkey. unfold trendingEvent in He. now apply andb_prop in He as [_ He]. }
    rewrite Hevents. unfold windowEvents. rewrite filter_filter.
    apply filter_ext. intros e'. unfold trendingEvent.
    destruct (decide (cb_productId e' = Some p)) as [Hkey|Hkey].
    - rewrite Hkey, Hex. now rewrite andb_true_r.
    - rewrite (bool_decide_eq_false_2 _ Hkey). now rewrite !andb_false_r. }
  rewrite Heq in Hrow, Hcount. clear Hevents Heq events. split.
  - rewrite Hrow. reflexivity.
  - unfold countRows in Hcount. lia.
Qed.

Lemma windowEvents_weight (db : StoreDb) (now : Z) (p : Z) :
  (Z.of_nat (length (windowEvents db now p)) <= sumOver actionWeight (windowEvents db now p))%Z.
Proof.
  unfold windowEvents, sumOver.
  induction (customerBehavior db) as [|e t IH]; simpl; [lia|].
  destruct (now - days 7 <? cb_timestamp e)%Z; simpl; [|exact IH].
  destruct (bool_decide (cb_productId e = Some p)); simpl;
    [|now rewrite andb_false_r].
  rewrite andb_true_r.
  destruct (cb_action e) eqn:Haction; simpl; try exact IH;
    unfold actionWeight at 1; rewrite Haction; lia.
Qed.

(** Every entry of a trending request is a product with at least three
    views and purchases within the last 7 days; its score is its weighted
    total (view 1, purchase 3) divided by the largest total of the rows the
    query returned, hence at most 1; and the first entry scores 1 when the
    first row of the query is the group of a product. *)
Theorem trending_scores_normalised (request : RecommendationRequest) (w : World) :
  exists results w',
    generateRecommendations (withType trending request) w = (Resolved results, w')
    /\ forall db, storeDatabase (storeId request) w = Some db ->
       let rows :=
         trendingProductsQuery (default [] (excludeProductIds request))
           (default 10%nat (limit request)) db (now w) in
       (forall row, In row rows -> (tr_totalScore row <= trendingMaxScore rows)%Z)
       /\ (forall r, In r results ->
             (3 <= length (windowEvents db (now w) (productId r)))%nat
             /\ score r == inject_Z (sumOver actionWeight (windowEvents db (now w) (productId r)))
                           / inject_Z (trendingMaxScore rows)
             /\ score r <= 1)
       /\ (forall first r,
             hd_error rows = Some first -> isTruthy (tr_productId first) = true ->
             hd_error results = Some r -> score r == 1).
Proof.
  destruct (generateRecommendations_run (withType trending request) w) as (w' & Hrun & _).
  eexists _, w'. split; [exact Hrun|]. clear Hrun. simpl storeId.
  intros db Hdb. rewrite Hdb. cbv zeta.
  change (recommendationsOn (withType trending request) db (now w))
    with (trendingOn request db (now w)).
  unfold trendingOn.
  set (rows := trendingProductsQuery _ _ db (now w)).
  split; [|split].
  - intros row Hrow. now apply (trendingMaxScore_max _ _ _ _ row).
  - intros r Hr. pose proof Hr as Hout.
    apply (proj2 (trendingOn_output request db (now w))) in Hout as (_ & Hle & _).
    destruct (exclusionAccepted _); [|destruct Hr].
    apply in_map_iff in Hr as (item & <- & Hitem). simpl in *.
    apply filter_In in Hitem as [Hitem Htruthy].
    destruct (trendingProductsQuery_events _ _ _ _ item _ Hitem (isTruthy_Some _ Htruthy))
      as [Htotal Hcount].
    split; [exact Hcount|]. split; [|exact Hle].
    now rewrite Htotal.
  - intros first r Hfirst Htruthy Hr.
    destruct (exclusionAccepted _); [|discriminate].
    destruct rows as [|first' rest] eqn:Hrows; [discriminate|].
    injection Hfirst as ->. simpl in Hr. rewrite Htruthy in Hr. simpl in Hr.
    injection Hr as <-. simpl.
    assert (In first rows) as Hin by (rewrite Hrows; now left).
    destruct (trendingProductsQuery_events _ _ _ _ first _ Hin (isTruthy_Some _ Htruthy))
      as [Htotal Hcount].
    pose proof (windowEvents_weight db (now w) (default 0%Z (tr_productId first))) as Hw.
    unfold trendingMaxScore. simpl.
    destruct (tr_totalScore first =? 0)%Z eqn:Hzero; [apply Z.eqb_eq in Hzero; lia|].
    unfold Qdiv. apply Qmult_inv_r. apply Z.eqb_neq in Hzero.
    intros H. apply Hzero. unfold Qeq in H. simpl in H. lia.
Qed.

(** ** The strategies on the sample store *)

Example collaborative_on_busy_store :
  map entry (outputOf (generateRecommendations (sampleRequest 1 (Some 1%Z) collaborative))
                      (sampleWorld busyDb emptyStoreDb))
  = [ (12%Z, 1 # 10, "collaborative", ["Customers like you also purchased this"]) ].
Proof. vm_compute. reflexivity. Qed.

(** Customer 1 viewed products 10 and 13: the statement that looks for
    similar products compares productId with the text 10,13 and is
    rejected. *)
Example content_based_on_busy_store :
  let run := generateRecommendations (sampleRequest 1 (Some 1%Z) content_based)
               (sampleWorld busyDb emptyStoreDb) in
  fst run = Resolved []
  /\ console (snd run)
     = [("Error in content-based filtering:",
         StatementRejected "invalid input syntax for type integer")].
Proof. vm_compute. split; reflexivity. Qed.

Example trending_on_busy_store :
  map entry (outputOf (generateRecommendations (sampleRequest 1 (Some 1%Z) trending))
                      (sampleWorld busyDb emptyStoreDb))
  = [ (12%Z, 1, "trending", ["Trending this week"]) ].
Proof. vm_compute. reflexivity. Qed.

Example recently_viewed_on_busy_store :
  map entry (outputOf (generateRecommendations (sampleRequest 1 (Some 1%Z) recently_viewed))
                      (sampleWorld busyDb emptyStoreDb))
  = [ (10%Z, 9 # 10, "recently_viewed", ["You viewed this recently"]);
      (13%Z, 4 # 5, "recently_viewed", ["You viewed this recently"]) ].
Proof. vm_compute. reflexivity. Qed.

(** Product 12 is named by two strategies and has one hybrid entry, with
    score 0.1 * 0.4 + 1 * 0.2 = 0.24 and their two reasons; the
    content-based strategy adds nothing. *)
Example hybrid_on_busy_store :
  map entry (outputOf (generateRecommendations (sampleRequest 1 (Some 1%Z) hybrid))
                      (sampleWorld busyDb emptyStoreDb))
  = [ (12%Z, 6 # 25, "hybrid",
       ["Customers like you also purchased this"; "Trending this week"]);
      (10%Z, 9 # 100, "hybrid", ["You viewed this recently"]);
      (13%Z, 2 # 25, "hybrid", ["You viewed this recently"]) ].
Proof. vm_compute. reflexivity. Qed.

(** With a limit of 1 every strategy is asked for one entry, and the hybrid
    list keeps the merged entry with the highest score: product 12 with
    0.1 * 0.4 + 1 * 0.2.  A request that excludes product 12 does not
    return it. *)
Example hybrid_on_busy_store_limit_1 :
  map entry (outputOf (generateRecommendations
                         (withLimit 1 (sampleRequest 1 (Some 1%Z) hybrid)))
                      (sampleWorld busyDb emptyStoreDb))
  = [ (12%Z, 6 # 25, "hybrid",
       ["Customers like you also purchased this"; "Trending this week"]) ].
Proof. vm_compute. reflexivity. Qed.

Example hybrid_on_busy_store_excluding_12 :
  map productId
    (outputOf (generateRecommendations
                 {| storeId := 1; customerId := Some 1%Z; sessionId := "session-1";
                    limit := None; excludeProductIds := Some [12%Z];
                    requestType := None |})
              (sampleWorld busyDb emptyStoreDb))
  = [10; 13]%Z.
Proof. vm_compute. reflexivity. Qed.

(** A store that is not registered: tracking resolves and prints the
    error, a request resolves with no entry. *)
Example tracking_for_unknown_store :
  trackBehavior (behaviorData 7 view (Some 10%Z)) (sampleWorld busyDb emptyStoreDb)
  = (Resolved tt,
     withConsole [("Error tracking customer behavior:", StoreNotFound 7)]
       (sampleWorld busyDb emptyStoreDb)).
Proof. reflexivity. Qed.

Example request_for_unknown_store :
  fst (generateRecommendations (sampleRequest 7 None hybrid) (sampleWorld busyDb emptyStoreDb))
  = Resolved [].
Proof. reflexivity. Qed.

(** ** The limit, and requests without a customer *)

Lemma filter_length_le {A : Type} (f : A -> bool) (l : list A) :
  (length (filter f l) <= length l)%nat.
Proof.
  induction l as [|x t IH]; simpl; [lia|]. destruct (f x); simpl; lia.
Qed.

Lemma firstn_length_le {A : Type} (n : nat) (l : list A) : (length (firstn n l) <= n)%nat.
Proof. rewrite length_firstn. lia. Qed.

(** A request of any type resolves with at most [limit] entries (10 when
    the request names no limit). *)
Theorem results_within_limit (request : RecommendationRequest) (w : World) :
  exists results w',
    generateRecommendations request w = (Resolved results, w')
    /\ (length results <= default 10 (limit request))%nat.
Proof.
  destruct (generateRecommendations_run request w) as (w' & Hrun & _).
  eexists _, w'. split; [exact Hrun|]. clear Hrun.
  destruct (storeDatabase (storeId request) w) as [db|]; [|simpl; lia].
  unfold recommendationsOn. destruct (default hybrid (requestType request)).
  - unfold collaborativeOn. destruct (truthy (customerId request)); [|simpl; lia].
    destruct (length _ =? 0)%nat; [simpl; lia|].
    destruct (exclusionAccepted _); [|simpl; lia].
    rewrite length_map. etransitivity; [apply filter_length_le|].
    unfold recommendedProductsQuery. apply firstn_length_le.
  - unfold contentBasedOn.
    destruct (length _ =? 0)%nat; [simpl; lia|].
    destruct (length _ =? 0)%nat; [simpl; lia|].
    destruct (joinedIsInteger _ && exclusionAccepted _); [|simpl; lia].
    rewrite length_map. unfold similarProductsQuery. apply firstn_length_le.
  - unfold trendingOn. destruct (exclusionAccepted _); [|simpl; lia].
    rewrite length_map. etransitivity; [apply filter_length_le|].
    unfold trendingProductsQuery. apply firstn_length_le.
  - unfold recentlyViewedOn. destruct (exclusionAccepted _); [|simpl; lia].
    rewrite mapWithIndex_length.
    unfold recentlyViewedQuery. apply firstn_length_le.
  - rewrite hybridOn_unfold. apply firstn_length_le.
Qed.

(** A collaborative request without a customer resolves with no entry. *)
Theorem collaborative_needs_customer (store : Z) (session : string) (lim : option nat)
    (excluded : option (list Z)) (w : World) :
  exists w',
    generateRecommendations
      {| storeId := store; customerId := None; sessionId := session; limit := lim;
         excludeProductIds := excluded; requestType := Some collaborative |} w
    = (Resolved [], w').
Proof.
  destruct (generateRecommendations_run
              {| storeId := store; customerId := None; sessionId := session; limit := lim;
                 excludeProductIds := excluded; requestType := Some collaborative |} w)
    as (w' & Hrun & _).
  exists w'. rewrite Hrun. f_equal. f_equal.
  destruct (storeDatabase _ w); reflexivity.
Qed.

(** ** Tracking product views *)

Lemma insertProductViews_Resolved (values : ProductViewRow) (db db' : StoreDb) (now : Z) :
  insertProductViews values db now = Resolved db' ->
  foreignKeyHolds (pv_customerId values) (customers db) = true
  /\ In (pv_productId values) (products db)
  /\ customers db' = customers db
  /\ products db' = products db
  /\ customerBehavior db' = customerBehavior db
  /\ productViews db' = productViews db ++ [values]
  /\ recommendations db' = recommendations db
  /\ productCategoryMappings db' = productCategoryMappings db.
Proof.
  unfold insertProductViews. intros H.
  destruct (foreignKeyHolds (pv_customerId values) (customers db)) eqn:Hc;
    [|discriminate].
  destruct (foreignKeyHolds (Some (pv_productId values)) (products db)) eqn:Hp;
    [|discriminate].
  simpl in H. injection H as <-. simpl.
  split; [reflexivity|]. split; [|repeat split].
  simpl in Hp. apply bool_decide_eq_true_1 in Hp.
  now apply list_elem_of_In.
Qed.

(** What [trackProductView] does to the world: both rows are written, or
    the error is printed and no database changes. *)
Lemma trackProductView_run (data : ProductViewData) (w : World) :
  exists w',
    trackProductView data w = (Resolved tt, w')
    /\ mainStores w' = mainStores w
    /\ now w' = now w
    /\ ((exists storeDb db db',
           fst (getStoreDatabase (pvd_storeId data) w) = Resolved storeDb
           /\ databases w !! storeDb = Some db
           /\ productViews db' = productViews db ++ [productViewRow data (now w)]
           /\ customerBehavior db'
              = customerBehavior db ++ [behaviorRow (viewBehavior data) (now w)]
           /\ customers db' = customers db
           /\ products db' = products db
           /\ recommendations db' = recommendations db
           /\ productCategoryMappings db' = productCategoryMappings db
           /\ databases w' = <[storeDb := db']> (databases w)
           /\ console w' = console w)
        \/ (exists error,
              console w' = ("Error tracking product view:", error) :: console w
              /\ databases w' = databases w
              /\ forall storeDb db,
                   fst (getStoreDatabase (pvd_storeId data) w) = Resolved storeDb ->
                   databases w !! storeDb = Some db ->
                   insertProductViews (productViewRow data (now w)) db (now w)
                   = Rejected error)).
Proof.
  unfold trackProductView, try_catch, bind.
  destruct (getStoreDatabase_run (pvd_storeId data) w)
    as [(e & Hrun)|(storeDb & w1 & Hrun & (_ & Hstores & Hdb & Hnow) & Hconsole)];
    rewrite Hrun.
  - eexists. split; [reflexivity|]. split; [reflexivity|]. split; [reflexivity|].
    right. exists e. simpl. repeat split. intros; discriminate.
  - rewrite execute_run, <- Hdb, <- Hnow.
    destruct (databases w !! storeDb) as [db|] eqn:Hlookup.
    + destruct (insertProductViews (productViewRow data (now w)) db (now w))
        as [db1|e] eqn:Hinsert.
      * apply insertProductViews_Resolved in Hinsert
          as (Hc & Hp & Hcs & Hps & Hcb & Hpv & Hrec & Hpcm).
        set (w2 := withDatabases (<[storeDb := db1]> (databases w)) w1).
        unfold trackBehavior, try_catch, bind.
        assert (fst (getStoreDatabase (pvd_storeId data) w2) = Resolved storeDb) as Hget.
        { rewrite (getStoreDatabase_fst_stores _ w2 w) by (simpl; congruence).
          now rewrite Hrun. }
        destruct (getStoreDatabase_run (pvd_storeId data) w2)
          as [(e & Hrun2)|(storeDb' & w3 & Hrun2 & (_ & Hstores2 & Hdb2 & Hnow2) & Hconsole2)];
          simpl bd_storeId; rewrite Hrun2 in *; simpl in Hget; [discriminate|].
        injection Hget as ->.
        rewrite execute_run, <- Hdb2, <- Hnow2.
        subst w2. simpl in Hstores2, Hdb2, Hnow2, Hconsole2 |- *.
        rewrite lookup_insert_eq. rewrite <- Hnow.
        unfold insertCustomerBehavior. simpl cb_customerId. simpl cb_productId.
        rewrite Hcs, Hps.
        simpl in Hc. rewrite Hc. simpl foreignKeyHolds.
        rewrite bool_decide_eq_true_2 by now apply list_elem_of_In.
        simpl. eexists. split; [reflexivity|]. simpl.
        split; [congruence|]. split; [congruence|].
        left.
        exists storeDb, db,
          {| customers := customers db; products := products db;
             customerBehavior :=
               customerBehavior db1 ++ [behaviorRow (viewBehavior data) (now w)];
             productViews := productViews db1;
             recommendations := recommendations db1;
             productCategoryMappings := productCategoryMappings db1 |}.
        simpl.
        split; [reflexivity|]. split; [exact Hlookup|].
        split; [exact Hpv|]. split; [now rewrite Hcb|].
        repeat (split; [first [assumption|reflexivity]|]).
        split; [|congruence].
        now rewrite insert_insert_eq.
      * eexists. split; [reflexivity|]. simpl. split; [congruence|]. split; [congruence|].
        right. exists e. split; [congruence|]. split; [congruence|].
        intros storeDb' db' Hs Hl. simpl in Hs. injection Hs as <-. congruence.
    + eexists. split; [reflexivity|]. simpl. split; [congruence|]. split; [congruence|].
      right. exists (ConnectionFailed storeDb). split; [congruence|]. split; [congruence|].
      intros storeDb' db' Hs Hl. simpl in Hs. injection Hs as <-. congruence.
Qed.

(** [trackProductView] resolves for every input and every state of the
    world.  Either one row is appended to product_views and one view event
    to customer_behavior of the store's database, nothing else changes and
    nothing is printed; or one error is printed and no database changes. *)
Theorem product_view_tracked_or_nothing_written (data : ProductViewData) (w : World) :
  exists w',
    trackProductView data w = (Resolved tt, w')
    /\ mainStores w' = mainStores w
    /\ ((exists storeDb db db',
           fst (getStoreDatabase (pvd_storeId data) w) = Resolved storeDb
           /\ databases w !! storeDb = Some db
           /\ productViews db' = productViews db ++ [productViewRow data (now w)]
           /\ customerBehavior db'
              = customerBehavior db ++ [behaviorRow (viewBehavior data) (now w)]
           /\ customers db' = customers db
           /\ products db' = products db
           /\ recommendations db' = recommendations db
           /\ productCategoryMappings db' = productCategoryMappings db
           /\ databases w' = <[storeDb := db']> (databases w)
           /\ console w' = console w)
        \/ (exists error,
              console w' = ("Error tracking product view:", error) :: console w
              /\ databases w' = databases w)).
Proof.
  destruct (trackProductView_run data w) as (w' & Hrun & Hstores & _ & Hcases).
  exists w'. split; [exact Hrun|]. split; [exact Hstores|].
  destruct Hcases as [Hwritten|(error & Hconsole & Hdb & _)].
  - left. exact Hwritten.
  - right. exists error. split; assumption.
Qed.

Lemma storeDatabase_Some (id : Z) (w : World) (db : StoreDb) :
  storeDatabase id w = Some db <->
  exists storeDb, fst (getStoreDatabase id w) = Resolved storeDb
                  /\ databases w !! storeDb = Some db.
Proof.
  unfold storeDatabase. split.
  - destruct (fst (getStoreDatabase id w)) as [storeDb|e]; [|discriminate].
    intros H. now exists storeDb.
  - intros (storeDb & -> & H). exact H.
Qed.



(** ** A tracked view and the recently-viewed strategy *)








(** ** Feedback of any action *)

Lemma applyUpdateData_target (data : FeedbackData) (action : FeedbackAction) (date : Z)
    (r : RecommendationRow) :
  feedbackTarget data (applyUpdateData action date r) = feedbackTarget data r.
Proof. reflexivity. Qed.

Lemma applyUpdateData_idempotent (action : FeedbackAction) (date : Z) (r : RecommendationRow) :
  applyUpdateData action date (applyUpdateData action date r) = applyUpdateData action date r.
Proof. destruct action; reflexivity. Qed.

Lemma trackRecommendationFeedback_run (data : FeedbackData) (w : World) :
  match fst (getStoreDatabase (fb_storeId data) w) with
  | Rejected e => trackRecommendationFeedback data w = (Rejected e, w)
  | Resolved storeDb =>
      exists w',
        trackRecommendationFeedback data w = (Resolved tt, w')
        /\ mainStores w' = mainStores w
        /\ now w' = now w
        /\ match databases w !! storeDb with
           | Some db =>
               exists db', updateRecommendations data db (now w) = Resolved db'
                           /\ databases w' = <[storeDb := db']> (databases w)
                           /\ console w' = console w
           | None =>
               databases w' = databases w
               /\ console w' = ("Error tracking recommendation feedback:",
                                ConnectionFailed storeDb) :: console w
           end
  end.
Proof.
  unfold trackRecommendationFeedback, try_catch, bind.
  destruct (getStoreDatabase_run (fb_storeId data) w)
    as [(e & Hrun)|(storeDb & w1 & Hrun & (_ & Hstores & Hdb & Hnow) & Hconsole)];
    rewrite Hrun; simpl; [reflexivity|].
  rewrite execute_run, <- Hdb, <- Hnow.
  destruct (databases w !! storeDb) as [db|] eqn:Hlookup.
  - simpl. eexists. split; [reflexivity|]. simpl.
    split; [congruence|]. split; [congruence|].
    eexists. split; [reflexivity|]. split; [reflexivity|congruence].
  - eexists. split; [reflexivity|]. simpl.
    split; [congruence|]. split; [congruence|]. split; congruence.
Qed.

(** Feedback of any action ("shown", "clicked", "purchased") never
    clears a flag and never adds or removes a row: when the store's
    database is reached, the recommendations table keeps its length; every
    row keeps customer, session, product, type, score, reasons and
    createdAt, and each flag that was true stays true; a row the WHERE
    clause selects has the flag of the action set and its timestamp equal to
    the current time; a row it does not select is unchanged. *)
Theorem feedback_only_raises_flags (data : FeedbackData) (w : World)
    (storeDb : Handle) (db : StoreDb) :
  fst (getStoreDatabase (fb_storeId data) w) = Resolved storeDb ->
  databases w !! storeDb = Some db ->
  exists w' db',
    trackRecommendationFeedback data w = (Resolved tt, w')
    /\ databases w' = <[storeDb := db']> (databases w)
    /\ length (recommendations db') = length (recommendations db)
    /\ forall i r, nth_error (recommendations db) i = Some r ->
         exists r', nth_error (recommendations db') i = Some r'
           /\ rec_customerId r' = rec_customerId r
           /\ rec_sessionId r' = rec_sessionId r
           /\ rec_productId r' = rec_productId r
           /\ rec_recommendationType r' = rec_recommendationType r
           /\ rec_score r' = rec_score r
           /\ rec_reasons r' = rec_reasons r
           /\ rec_createdAt r' = rec_createdAt r
           /\ (rec_shown r = true -> rec_shown r' = true)
           /\ (rec_clicked r = true -> rec_clicked r' = true)
           /\ (rec_purchased r = true -> rec_purchased r' = true)
           /\ if feedbackTarget data r
              then flagOf (fb_action data) r' = true
                   /\ stampOf (fb_action data) r' = Some (now w)
              else r' = r.
Proof.
  intros Hget Hlookup.
  pose proof (trackRecommendationFeedback_run data w) as Hrun.
  rewrite Hget, Hlookup in Hrun.
  destruct Hrun as (w' & Hrun & _ & _ & db' & Hupdate & Hdbs & _).
  exists w', db'. split; [exact Hrun|]. split; [exact Hdbs|].
  unfold updateRecommendations in Hupdate. injection Hupdate as <-. simpl.
  split; [apply length_map|].
  intros i r Hr. rewrite nth_error_map, Hr. simpl. eexists. split; [reflexivity|].
  destruct (feedbackTarget data r); [|repeat split; auto].
  destruct (fb_action data); simpl; repeat split; auto.
Qed.

(** Feedback is safe to repeat.  When the same feedback is given a
    second time, at any later reading [t] of the clock, the recommendations
    table keeps its length and every row keeps its three flags and every
    column but the timestamps; and when the clock has not moved the second
    call changes no database at all. *)
Theorem feedback_repeated_keeps_flags (data : FeedbackData) (w : World) (t : Z)
    (storeDb : Handle) (db : StoreDb) :
  fst (getStoreDatabase (fb_storeId data) w) = Resolved storeDb ->
  databases w !! storeDb = Some db ->
  exists w1 db1 w2 db2,
    trackRecommendationFeedback data w = (Resolved tt, w1)
    /\ databases w1 = <[storeDb := db1]> (databases w)
    /\ trackRecommendationFeedback data (withNow t w1) = (Resolved tt, w2)
    /\ databases w2 = <[storeDb := db2]> (databases w1)
    /\ length (recommendations db2) = length (recommendations db1)
    /\ (forall i r1, nth_error (recommendations db1) i = Some r1 ->
          exists r2, nth_error (recommendations db2) i = Some r2
            /\ (forall action, flagOf action r2 = flagOf action r1)
            /\ rec_customerId r2 = rec_customerId r1
            /\ rec_sessionId r2 = rec_sessionId r1
            /\ rec_productId r2 = rec_productId r1
            /\ rec_recommendationType r2 = rec_recommendationType r1
            /\ rec_score r2 = rec_score r1
            /\ rec_reasons r2 = rec_reasons r1
            /\ rec_createdAt r2 = rec_createdAt r1)
    /\ (t = now w -> databases w2 = databases w1).
Proof.
  intros Hget Hlookup.
  pose proof (trackRecommendationFeedback_run data w) as Hrun.
  rewrite Hget, Hlookup in Hrun.
  destruct Hrun as (w1 & Hrun & Hstores & Hnow & db1 & Hupdate & Hdbs & _).
  pose proof (trackRecommendationFeedback_run data (withNow t w1)) as Hrun'.
  rewrite (getStoreDatabase_fst_stores _ (withNow t w1) w Hstores), Hget in Hrun'.
  simpl in Hrun'. rewrite Hdbs, lookup_insert_eq in Hrun'.
  destruct Hrun' as (w2 & Hrun' & _ & _ & db2 & Hupdate' & Hdbs' & _).
  exists w1, db1, w2, db2.
  split; [exact Hrun|]. split; [exact Hdbs|]. split; [exact Hrun'|].
  split; [now rewrite Hdbs', Hdbs|].
  unfold updateRecommendations in Hupdate, Hupdate'.
  injection Hupdate as <-. injection Hupdate' as <-. simpl.
  split; [apply length_map|]. split.
  - intros i r1 Hr1. rewrite nth_error_map, Hr1. simpl. eexists. split; [reflexivity|].
    apply nth_error_In, in_map_iff in Hr1 as (r & <- & _).
    destruct (feedbackTarget data r) eqn:Ht.
    + rewrite applyUpdateData_target, Ht.
      split; [|repeat split].
      intros action. destruct action, (fb_action data); reflexivity.
    + rewrite Ht. repeat split.
  - intros ->. rewrite Hdbs', Hdbs, insert_insert_eq. f_equal. f_equal.
    rewrite map_map. apply map_ext. intros r.
    destruct (feedbackTarget data r) eqn:Ht.
    + rewrite applyUpdateData_target, Ht. apply applyUpdateData_idempotent.
    + now rewrite Ht.
Qed.

(** ** Rounding of SQL numerics *)

Lemma pow10_pos (n : nat) : (0 < 10 ^ Z.of_nat n)%Z.
Proof. apply Z.pow_pos_nonneg; lia. Qed.

Lemma Qmake_to_pos (z u : Z) : (0 < u)%Z -> (z # Z.to_pos u) * inject_Z u == inject_Z z.
Proof.
  intros Hu. unfold Qeq, Qmult, inject_Z. simpl.
  rewrite Pos.mul_1_r, Z2Pos.id by exact Hu. ring.
Qed.

(** The integer chosen by the rounding is within one half of the scaled number. *)
Lemma roundHalfAway_scaled (n : nat) (q : Q) :
  q * inject_Z (10 ^ Z.of_nat n) - (1 # 2)
  <= roundHalfAway n q * inject_Z (10 ^ Z.of_nat n)
  <= q * inject_Z (10 ^ Z.of_nat n) + (1 # 2).
Proof.
  unfold roundHalfAway.
  set (U := inject_Z (10 ^ Z.of_nat n)).
  set (z0 := if Qle_bool 0 q then _ else _).
  pose proof (Qmake_to_pos z0 _ (pow10_pos n)) as Hz. fold U in Hz.
  assert (q * U - (1 # 2) <= inject_Z z0 <= q * U + (1 # 2)) as Hbounds.
  { subst z0. destruct (Qle_bool 0 q).
    - pose proof (Qfloor_le (q * U + (1 # 2))) as H1.
      pose proof (Qlt_floor (q * U + (1 # 2))) as H2.
      rewrite inject_Z_plus in H2.
      change (inject_Z 1) with 1 in H2. split; lra.
    - pose proof (Qle_ceiling (q * U - (1 # 2))) as H1.
      pose proof (Qceiling_lt (q * U - (1 # 2))) as H2.
      unfold Z.sub in H2. rewrite inject_Z_plus in H2.
      change (inject_Z (- (1))) with (- (1 # 1)) in H2. split; lra. }
  clearbody z0. split; lra.
Qed.

Lemma roundHalfAway_close (n : nat) (q : Q) :
  Qabs (roundHalfAway n q - q) <= 1 # (2 * Z.to_pos (10 ^ Z.of_nat n)).
Proof.
  pose proof (roundHalfAway_scaled n q) as [H1 H2].
  pose proof (pow10_pos n) as Hu.
  set (U := inject_Z (10 ^ Z.of_nat n)) in *.
  assert (0 < U) as HU by (unfold U; rewrite <- (Zlt_Qlt 0); exact Hu).
  set (e := 1 # (2 * Z.to_pos (10 ^ Z.of_nat n))).
  assert (e * U == 1 # 2) as He.
  { unfold e, U. destruct (10 ^ Z.of_nat n)%Z as [|p|p]; try lia.
    unfold Qeq. simpl. lia. }
  apply Qabs_Qle_condition. split.
  - apply Qmult_le_r with U; [exact HU|]. lra.
  - apply Qmult_le_r with U; [exact HU|]. lra.
Qed.

(** A number between 0 and an integer stays there. *)
Lemma roundHalfAway_range (n : nat) (q : Q) (k : Z) :
  0 <= q -> q <= inject_Z k -> 0 <= roundHalfAway n q <= inject_Z k.
Proof.
  intros H0 Hk.
  pose proof (pow10_pos n) as Hu.
  unfold roundHalfAway.
  set (u := (10 ^ Z.of_nat n)%Z) in *.
  assert (0 < inject_Z u) as HU by (rewrite <- (Zlt_Qlt 0); exact Hu).
  rewrite (proj2 (Qle_bool_iff 0 q) H0).
  set (x := q * inject_Z u + (1 # 2)).
  assert (0 <= Qfloor x)%Z as Hlow.
  { change 0%Z with (Qfloor 0). apply Qfloor_resp_le. unfold x. 
    assert (0 <= q * inject_Z u) by (apply Qmult_le_0_compat; lra). lra. }
  assert (Qfloor x <= k * u)%Z as Hhigh.
  { pose proof (Qfloor_le x) as Hx.
    assert (inject_Z (Qfloor x) <= inject_Z (k * u) + (1 # 2)) as H.
    { rewrite inject_Z_mult. unfold x in Hx |- *.
      assert (q * inject_Z u <= inject_Z k * inject_Z u)
        by (apply Qmult_le_compat_r; lra).
      lra. }
    revert H. generalize (Qfloor x) (k * u)%Z. intros a b H.
    unfold Qle, Qplus, inject_Z in H. simpl in H. lia. }
  clearbody x. revert Hlow Hhigh. generalize (Qfloor x). intros z Hlow Hhigh.
  destruct u as [|p|p]; try lia.
  split.
  - unfold Qle. simpl. lia.
  - unfold Qle, inject_Z. simpl. lia.
Qed.

(** A score between 0 and 1 fits a decimal(5,4) column. *)
Lemma fitsDecimal_unit (q : Q) : 0 <= q -> q <= 1 -> fitsDecimal 5 4 q = true.
Proof.
  intros H0 H1. unfold fitsDecimal.
  destruct (roundHalfAway_range 4 q 1 H0 H1) as [Hlow Hhigh].
  rewrite Qabs_pos by exact Hlow.
  destruct (Qle_bool _ _) eqn:Hle; [|reflexivity].
  apply Qle_bool_iff in Hle.
  change (inject_Z (10 ^ Z.of_nat (5 - 4))) with 10 in Hle.
  change (inject_Z 1) with 1 in Hhigh. lra.
Qed.

(** ** Storing recommendations *)

Lemma storeRecommendations_run (request : RecommendationRequest)
    (results : list RecommendationResult) (w : World) :
  match fst (getStoreDatabase (storeId request) w) with
  | Rejected e => storeRecommendations request results w = (Rejected e, w)
  | Resolved storeDb =>
      exists w',
        storeRecommendations request results w = (Resolved tt, w')
        /\ mainStores w' = mainStores w
        /\ now w' = now w
        /\ match results, databases w !! storeDb with
           | [], _ => databases w' = databases w /\ console w' = console w
           | _ :: _, Some db =>
               match insertRecommendations (map (recommendationToStore request) results)
                       db (now w) with
               | Resolved db' =>
                   databases w' = <[storeDb := db']> (databases w)
                   /\ console w' = console w
               | Rejected e =>
                   databases w' = databases w
                   /\ console w' = ("Error storing recommendations:", e) :: console w
               end
           | _ :: _, None =>
               databases w' = databases w
               /\ console w' = ("Error storing recommendations:", ConnectionFailed storeDb)
                                 :: console w
           end
  end.
Proof.
  unfold storeRecommendations, try_catch, bind.
  destruct (getStoreDatabase_run (storeId request) w)
    as [(e & Hrun)|(storeDb & w1 & Hrun & (_ & Hstores & Hdb & Hnow) & Hconsole)];
    rewrite Hrun; simpl; [reflexivity|].
  destruct results as [|result results]; simpl.
  - exists w1. split; [reflexivity|]. repeat split; congruence.
  - rewrite execute_run, <- Hdb, <- Hnow.
    destruct (databases w !! storeDb) as [db|] eqn:Hlookup.
    + simpl map.
      destruct (insertRecommendations _ db (now w)) as [db'|e].
      * eexists. split; [reflexivity|]. simpl. repeat split; congruence.
      * eexists. split; [reflexivity|]. simpl. repeat split; congruence.
    + eexists. split; [reflexivity|]. simpl. repeat split; congruence.
Qed.

(** When the store's database is reached, [storeRecommendations]
    resolves and writes all results or none.  When the customer of the
    request and the product of every result exist and every score fits the
    decimal(5,4) column, one row per result is appended to the
    recommendations table, in the order of the results: it carries the
    customer and session of the request, the product, type and reasons of
    the result, a score within 0.00005 of the result's, the current time as
    createdAt, and shown, clicked and purchased are false with no
    timestamps; no other table changes and nothing is printed.  Otherwise
    one error is printed and no database changes. *)
Theorem recommendations_stored_all_or_none (request : RecommendationRequest)
    (results : list RecommendationResult) (w : World) (storeDb : Handle) (db : StoreDb) :
  fst (getStoreDatabase (storeId request) w) = Resolved storeDb ->
  databases w !! storeDb = Some db ->
  exists w',
    storeRecommendations request results w = (Resolved tt, w')
    /\ mainStores w' = mainStores w
    /\ if forallb (recommendationAccepted db) (map (recommendationToStore request) results)
       then exists db' rows,
              databases w' = <[storeDb := db']> (databases w)
              /\ console w' = console w
              /\ customers db' = customers db
              /\ products db' = products db
              /\ customerBehavior db' = customerBehavior db
              /\ productViews db' = productViews db
              /\ productCategoryMappings db' = productCategoryMappings db
              /\ recommendations db' = recommendations db ++ rows
              /\ length rows = length results
              /\ forall i result, nth_error results i = Some result ->
                   exists row, nth_error rows i = Some row
                     /\ rec_customerId row = customerId request
                     /\ rec_sessionId row = sessionId request
                     /\ rec_productId row = productId result
                     /\ rec_recommendationType row = type result
                     /\ rec_reasons row = reasons result
                     /\ Qabs (rec_score row - score result) <= 1 # 20000
                     /\ rec_createdAt row = now w
                     /\ rec_shown row = false /\ rec_shownAt row = None
                     /\ rec_clicked row = false /\ rec_clickedAt row = None
                     /\ rec_purchased row = false /\ rec_purchasedAt row = None
       else databases w' = databases w
            /\ console w' = ("Error storing recommendations:",
                             ForeignKeyViolation "recommendations") :: console w.
Proof.
  intros Hget Hlookup.
  pose proof (storeRecommendations_run request results w) as Hrun.
  rewrite Hget in Hrun. destruct Hrun as (w' & Hrun & Hstores & _ & Hcase).
  exists w'. split; [exact Hrun|]. split; [exact Hstores|].
  destruct results as [|result results].
  - simpl. destruct Hcase as [Hdbs Hconsole]. exists db, [].
    split; [now rewrite Hdbs, insert_id|]. split; [exact Hconsole|].
    repeat (split; [reflexivity|]). split; [now rewrite app_nil_r|].
    split; [reflexivity|]. intros [|i] result H; discriminate.
  - rewrite Hlookup in Hcase. unfold insertRecommendations in Hcase.
    set (values := map (recommendationToStore request) (result :: results)) in *.
    destruct (forallb (recommendationAccepted db) values); [|exact Hcase].
    destruct Hcase as [Hdbs Hconsole].
    eexists _, (map (storedRecommendation (now w)) values).
    split; [exact Hdbs|]. split; [exact Hconsole|].
    repeat (split; [reflexivity|]).
    split; [unfold values; now rewrite !length_map|].
    intros i r Hr. unfold values. rewrite !nth_error_map, Hr.
    eexists. split; [reflexivity|].
    repeat (split; [reflexivity|]).
    split; [exact (roundHalfAway_close 4 (score r))|].
    repeat split.
Qed.

(** ** The range of the scores of every strategy *)

Lemma countRows_nonneg {A : Type} (rows : list A) : (0 <= countRows rows)%Z.
Proof. unfold countRows. lia. Qed.

Lemma Qdiv_nonneg (a b : Q) : 0 <= a -> 0 <= b -> 0 <= a / b.
Proof.
  intros Ha Hb. unfold Qdiv. apply Qmult_le_0_compat; [exact Ha|].
  now apply Qinv_le_0_compat.
Qed.

Lemma inject_Z_nonneg (z : Z) : (0 <= z)%Z -> 0 <= inject_Z z.
Proof. intros H. change 0 with (inject_Z 0). now rewrite <- Zle_Qle. Qed.

Lemma collaborativeOn_nonneg (request : RecommendationRequest) (db : StoreDb) (now : Z)
    (r : RecommendationResult) :
  In r (collaborativeOn request db now) -> 0 <= score r.
Proof.
  unfold collaborativeOn.
  destruct (truthy (customerId request)) as [c|]; [|intros []].
  destruct (length _ =? 0)%nat; [intros []|].
  destruct (exclusionAccepted _); [|intros []].
  intros Hr. apply in_map_iff in Hr as (item & <- & Hitem). simpl.
  apply filter_In in Hitem as [Hitem _].
  unfold recommendedProductsQuery in Hitem.
  apply firstn_In in Hitem. apply (proj1 (orderByDesc_In _ _ _)) in Hitem.
  apply in_map_iff in Hitem as (g & <- & _). simpl.
  apply Q.min_glb; [|discriminate].
  apply Qdiv_nonneg; [|discriminate]. apply inject_Z_nonneg, countRows_nonneg.
Qed.

Lemma contentBasedOn_nonneg (request : RecommendationRequest) (db : StoreDb) (now : Z)
    (r : RecommendationResult) :
  In r (contentBasedOn request db now) -> 0 <= score r.
Proof.
  unfold contentBasedOn.
  destruct (length _ =? 0)%nat; [intros []|].
  destruct (length _ =? 0)%nat; [intros []|].
  destruct (joinedIsInteger _ && exclusionAccepted _); [|intros []].
  intros Hr. apply in_map_iff in Hr as (item & <- & Hitem). simpl.
  apply similarProductsQuery_row in Hitem as (-> & _).
  apply Q.min_glb; [|discriminate].
  apply Qdiv_nonneg; apply inject_Z_nonneg; [apply countRows_nonneg|lia].
Qed.

Lemma trendingOn_nonneg (request : RecommendationRequest) (db : StoreDb) (now : Z)
    (r : RecommendationResult) :
  In r (trendingOn request db now) -> 0 <= score r.
Proof.
  unfold trendingOn. destruct (exclusionAccepted _); [|intros []]. intros Hr.
  apply in_map_iff in Hr as (item & <- & Hitem). simpl.
  apply filter_In in Hitem as [Hitem _].
  destruct (trendingMaxScore_max _ _ _ _ _ Hitem) as [[Hlow _] Hmax].
  apply Qdiv_nonneg; apply inject_Z_nonneg; lia.
Qed.

Lemma recentlyViewedOn_nonneg (request : RecommendationRequest) (db : StoreDb) (now : Z)
    (r : RecommendationResult) :
  In r (recentlyViewedOn request db now) -> 0 <= score r.
Proof.
  unfold recentlyViewedOn. destruct (exclusionAccepted _); [|intros []]. intros Hr.
  apply mapWithIndex_In in Hr as (item & i & _ & ->). simpl.
  pose proof (rankScore_floor i) as H. unfold rankScore in H. lra.
Qed.

Lemma scoreIn_nonneg (l : list RecommendationResult) (p : Z) :
  (forall r, In r l -> 0 <= score r) -> 0 <= scoreIn l p.
Proof.
  intros H. unfold scoreIn, entriesFor, sumScores.
  induction l as [|r t IH]; simpl; [discriminate|].
  assert (0 <= fold_right Qplus 0 (map score (filter (fun r => bool_decide (productId r = p)) t)))
    as Ht by (apply IH; intros r' Hr'; apply H; now right).
  destruct (bool_decide (productId r = p)); simpl; [|exact Ht].
  pose proof (H r (or_introl eq_refl)). lra.
Qed.

Lemma hybridOn_nonneg (request : RecommendationRequest) (db : StoreDb) (now : Z)
    (r : RecommendationResult) :
  In r (hybridOn request db now) -> 0 <= score r.
Proof.
  intros Hr. apply hybridOn_In, hybridMerged_entry in Hr as (_ & _ & ->).
  set (limit := default 10%nat (limit request)).
  pose proof (scoreIn_nonneg _ (productId r)
                (collaborativeOn_nonneg (withLimit (ceilShare limit 3) request) db now)).
  pose proof (scoreIn_nonneg _ (productId r)
                (contentBasedOn_nonneg (withLimit (ceilShare limit 3) request) db now)).
  pose proof (scoreIn_nonneg _ (productId r)
                (trendingOn_nonneg (withLimit (ceilShare limit 2) request) db now)).
  pose proof (scoreIn_nonneg _ (productId r)
                (recentlyViewedOn_nonneg (withLimit (ceilShare limit 2) request) db now)).
  lra.
Qed.

Lemma recommendationsOn_range (request : RecommendationRequest) (db : StoreDb) (now : Z)
    (r : RecommendationResult) :
  In r (recommendationsOn request db now) -> 0 <= score r <= 1.
Proof.
  unfold recommendationsOn. destruct (default hybrid (requestType request)); intros Hr.
  - split; [now apply collaborativeOn_nonneg in Hr|].
    now apply (collaborativeOn_output request db now) in Hr.
  - split; [now apply contentBasedOn_nonneg in Hr|].
    now apply (contentBasedOn_output request db now) in Hr.
  - split; [now apply trendingOn_nonneg in Hr|].
    now apply (trendingOn_output request db now) in Hr.
  - split; [now apply recentlyViewedOn_nonneg in Hr|].
    apply (recentlyViewedOn_output request db now) in Hr as (_ & Hr & _). lra.
  - split; [now apply hybridOn_nonneg in Hr|].
    apply hybridOn_In, hybridMerged_bound in Hr. lra.
Qed.

(** Every score that [generateRecommendations] returns, of any
    strategy, lies between 0 and 1, and so fits the decimal(5,4) score
    column that [storeRecommendations] writes it to. *)
Theorem scores_between_zero_and_one (request : RecommendationRequest) (w : World) :
  exists results w',
    generateRecommendations request w = (Resolved results, w')
    /\ forall r, In r results ->
         0 <= score r /\ score r <= 1 /\ fitsDecimal 5 4 (score r) = true.
Proof.
  destruct (generateRecommendations_run request w) as (w' & Hrun & _).
  eexists _, w'. split; [exact Hrun|]. intros r Hr.
  destruct (storeDatabase (storeId request) w) as [db|]; [|destruct Hr].
  apply recommendationsOn_range in Hr as [Hlow Hhigh].
  split; [exact Hlow|]. split; [exact Hhigh|]. now apply fitsDecimal_unit.
Qed.

(** ** Analytics *)

Lemma getRecommendationAnalytics_run (storeId : Z) (period : option Z) (w : World) :
  match fst (getStoreDatabase storeId w) with
  | Rejected e => getRecommendationAnalytics storeId period w = (Rejected e, w)
  | Resolved storeDb =>
      exists w' error,
        getRecommendationAnalytics storeId period w = (Resolved [], w')
        /\ sameData w w'
        /\ console w' = ("Error getting recommendation analytics:", error) :: console w
  end.
Proof.
  unfold getRecommendationAnalytics, try_catch, bind.
  destruct (getStoreDatabase_run storeId w)
    as [(e & Hrun)|(storeDb & w1 & Hrun & Hsame & Hconsole)];
    rewrite Hrun; simpl; [reflexivity|].
  unfold selectRejected.
  destruct (databases w1 !! storeDb) as [db|]; simpl.
  - eexists _, _. split; [reflexivity|]. simpl. split; [|now rewrite Hconsole].
    eapply sameData_trans; [exact Hsame|apply withConsole_sameData].
  - eexists _, _. split; [reflexivity|]. simpl. split; [|now rewrite Hconsole].
    eapply sameData_trans; [exact Hsame|apply withConsole_sameData].
Qed.


(** [storeRecommendations] changes nothing of what
    [getRecommendationAnalytics] returns, for any store and period. *)
Theorem stored_recommendations_are_not_counted_yet (request : RecommendationRequest)
    (results : list RecommendationResult) (store : Z) (period : option Z) (w : World) :
  fst (getRecommendationAnalytics store period
         (snd (storeRecommendations request results w)))
  = fst (getRecommendationAnalytics store period w).
Proof.
  pose proof (storeRecommendations_run request results w) as Hstore.
  destruct (fst (getStoreDatabase (storeId request) w)) as [storeDb|e] eqn:Hget;
    [|now rewrite Hstore].
  destruct Hstore as (w' & -> & Hstores & _). simpl snd.
  pose proof (getRecommendationAnalytics_run store period w) as Hrun.
  pose proof (getRecommendationAnalytics_run store period w') as Hrun'.
  rewrite (getStoreDatabase_fst_stores _ w' w Hstores) in Hrun'.
  destruct (fst (getStoreDatabase store w)) as [storeDb'|e];
    [|now rewrite Hrun, Hrun'].
  destruct Hrun as (w1 & error1 & -> & _). destruct Hrun' as (w2 & error2 & -> & _).
  reflexivity.
Qed.

(** ** A store that cannot be resolved *)

Lemma getStoreDatabase_Rejected (id : Z) (w : World) (e : Error) :
  fst (getStoreDatabase id w) = Rejected e ->
  getStoreDatabase id w = (Rejected e, w)
  /\ (e = StoreNotFound id \/ e = MainDatabaseDown).
Proof.
  unfold getStoreDatabase, bind, getStore.
  destruct (mainStores w) as [rows|]; simpl.
  - destruct (hd_error _) as [store|]; simpl.
    + unfold getStoreDb, getStoreDbByUrl. simpl. discriminate.
    + intros H. injection H as <-. split; [reflexivity|now left].
  - intros H. injection H as <-. split; [reflexivity|now right].
Qed.

(** Which calls surface a store that cannot be resolved (no such
    store, or the main database is unreachable).
    [trackRecommendationFeedback], [storeRecommendations] and
    [getRecommendationAnalytics] reject with the error and leave the world
    as it is; [trackBehavior] and [trackProductView] resolve after printing
    the error; [generateRecommendations] resolves with the empty list; none
    of them changes a database. *)
Theorem unresolved_store_rejects_or_is_swallowed (id : Z) (w : World) (e : Error) :
  fst (getStoreDatabase id w) = Rejected e ->
  (e = StoreNotFound id \/ e = MainDatabaseDown)
  /\ (forall data, fb_storeId data = id ->
        trackRecommendationFeedback data w = (Rejected e, w))
  /\ (forall request results, storeId request = id ->
        storeRecommendations request results w = (Rejected e, w))
  /\ (forall period, getRecommendationAnalytics id period w = (Rejected e, w))
  /\ (forall data, bd_storeId data = id ->
        trackBehavior data w
        = (Resolved tt, withConsole (("Error tracking customer behavior:", e) :: console w) w))
  /\ (forall data, pvd_storeId data = id ->
        trackProductView data w
        = (Resolved tt, withConsole (("Error tracking product view:", e) :: console w) w))
  /\ (forall request, storeId request = id ->
        exists w', generateRecommendations request w = (Resolved [], w')
                   /\ databases w' = databases w).
Proof.
  intros Hget. pose proof (getStoreDatabase_Rejected id w e Hget) as [Hrun Hcause].
  split; [exact Hcause|].
  split; [|split; [|split; [|split; [|split]]]].
  - intros data <-. pose proof (trackRecommendationFeedback_run data w) as H.
    now rewrite Hget in H.
  - intros request results <-. pose proof (storeRecommendations_run request results w) as H.
    now rewrite Hget in H.
  - intros period. pose proof (getRecommendationAnalytics_run id period w) as H.
    now rewrite Hget in H.
  - intros data <-. unfold trackBehavior, try_catch, bind. now rewrite Hrun.
  - intros data <-. unfold trackProductView, try_catch, bind. now rewrite Hrun.
  - intros request <-.
    destruct (generateRecommendations_run request w) as (w' & Hgen & Hsame).
    exists w'. split; [|symmetry; apply Hsame].
    rewrite Hgen. unfold storeDatabase. now rewrite Hget.
Qed.

(** ** Provisioning with [createStoreDatabase] *)

Lemma createStoreDatabase_run (id : Z) (w : World) (rows : list Store) :
  mainStores w = Some rows ->
  exists w',
    createStoreDatabase id w = (Resolved (DATABASE_URL w), w')
    /\ mainStores w'
       = Some (map (fun s => if bool_decide (store_id s = id)
                             then {| store_id := store_id s;
                                     store_databaseUrl := DATABASE_URL w |}
                             else s) rows)
    /\ DATABASE_URL w' = DATABASE_URL w
    /\ databases w' = databases w
    /\ now w' = now w
    /\ console w' = console w.
Proof.
  intros Hrows. unfold createStoreDatabase. rewrite Hrows.
  unfold getStoreDbByUrl. eexists. split; [reflexivity|].
  destruct (bool_decide _); simpl; repeat split.
Qed.

(** A store all of whose rows carry the connection string [url] resolves to
    it. *)
Lemma getStoreDatabase_of_rows (id : Z) (w : World) (rows : list Store) (url : string) :
  mainStores w = Some rows ->
  In id (map store_id rows) ->
  (forall s, In s rows -> store_id s = id -> store_databaseUrl s = url) ->
  fst (getStoreDatabase id w) = Resolved url.
Proof.
  intros Hrows Hid Hurl. unfold getStoreDatabase, bind, getStore. rewrite Hrows.
  apply in_map_iff in Hid as (s & Hs & Hin).
  destruct (filter (fun s => bool_decide (store_id s = id)) rows) as [|s0 rest] eqn:Hf.
  - assert (In s []) as [].
    rewrite <- Hf. apply filter_In. split; [exact Hin|now apply bool_decide_eq_true_2].
  - assert (In s0 (s0 :: rest)) as Hs0 by now left.
    rewrite <- Hf in Hs0. apply filter_In in Hs0 as [Hs0 Hkey].
    apply bool_decide_eq_true_1 in Hkey. simpl.
    unfold getStoreDb, getStoreDbByUrl. simpl. now rewrite (Hurl s0 Hs0 Hkey).
Qed.

(** A store without a row is not found. *)
Lemma getStoreDatabase_no_row (id : Z) (w : World) (rows : list Store) :
  mainStores w = Some rows ->
  ~ In id (map store_id rows) ->
  getStoreDatabase id w = (Rejected (StoreNotFound id), w).
Proof.
  intros Hrows Hid. unfold getStoreDatabase, bind, getStore. rewrite Hrows.
  assert (filter (fun s => bool_decide (store_id s = id)) rows = []) as ->; [|reflexivity].
  clear Hrows. induction rows as [|s t IH]; simpl; [reflexivity|].
  rewrite bool_decide_eq_false_2.
  - apply IH. intros H. apply Hid. now right.
  - intros H. apply Hid. left. exact H.
Qed.

Lemma trackBehavior_written (data : BehaviorData) (w : World) (db : StoreDb) :
  storeDatabase (bd_storeId data) w = Some db ->
  foreignKeyHolds (bd_customerId data) (customers db) = true ->
  foreignKeyHolds (bd_productId data) (products db) = true ->
  exists w' storeDb db',
    trackBehavior data w = (Resolved tt, w')
    /\ fst (getStoreDatabase (bd_storeId data) w) = Resolved storeDb
    /\ mainStores w' = mainStores w
    /\ databases w' = <[storeDb := db']> (databases w)
    /\ customerBehavior db' = customerBehavior db ++ [behaviorRow data (now w)]
    /\ console w' = console w.
Proof.
  intros Hdb Hc Hp. apply storeDatabase_Some in Hdb as (storeDb & Hget & Hlookup).
  unfold trackBehavior, try_catch, bind.
  destruct (getStoreDatabase_run (bd_storeId data) w)
    as [(e & Hrun)|(storeDb' & w1 & Hrun & (_ & Hstores & Hdb & Hnow) & Hconsole)];
    rewrite Hrun in *; simpl in Hget; [discriminate|].
  injection Hget as ->.
  rewrite execute_run, <- Hdb, <- Hnow, Hlookup.
  unfold insertCustomerBehavior. simpl cb_customerId. simpl cb_productId.
  rewrite Hc, Hp. simpl.
  eexists _, storeDb, _. split; [reflexivity|]. simpl.
  split; [reflexivity|]. split; [congruence|]. split; [reflexivity|].
  split; [reflexivity|congruence].
Qed.

(** After [createStoreDatabase] for two registered stores, both
    resolve to the connection string of the main database, so they share
    one store database: an event that [trackBehavior] writes under either
    store is in the customer_behavior table the other store reads. *)
Theorem provisioned_stores_share_one_database (a b : Z) (w : World) (rows : list Store) :
  mainStores w = Some rows ->
  In a (map store_id rows) ->
  In b (map store_id rows) ->
  let w' := snd (createStoreDatabase b (snd (createStoreDatabase a w))) in
  fst (getStoreDatabase a w') = Resolved (DATABASE_URL w)
  /\ fst (getStoreDatabase b w') = Resolved (DATABASE_URL w)
  /\ storeDatabase a w' = storeDatabase b w'
  /\ forall data db,
       bd_storeId data = a ->
       storeDatabase a w' = Some db ->
       foreignKeyHolds (bd_customerId data) (customers db) = true ->
       foreignKeyHolds (bd_productId data) (products db) = true ->
       exists db',
         storeDatabase b (snd (trackBehavior data w')) = Some db'
         /\ customerBehavior db' = customerBehavior db ++ [behaviorRow data (now w)].
Proof.
  intros Hrows Ha Hb w'.
  destruct (createStoreDatabase_run a w rows Hrows)
    as (w1 & Hrun1 & Hrows1 & Hurl1 & Hdb1 & Hnow1 & _).
  destruct (createStoreDatabase_run b w1 _ Hrows1)
    as (w2 & Hrun2 & Hrows2 & Hurl2 & Hdb2 & Hnow2 & _).
  assert (w' = w2) as ->
      by (unfold w'; rewrite Hrun1; simpl; now rewrite Hrun2).
  rewrite Hurl1 in Hrows2.
  set (fa := fun s => if bool_decide (store_id s = a)
                      then {| store_id := store_id s; store_databaseUrl := DATABASE_URL w |}
                      else s) in *.
  set (fb := fun s => if bool_decide (store_id s = b)
                      then {| store_id := store_id s; store_databaseUrl := DATABASE_URL w |}
                      else s) in *.
  assert (forall s, store_id (fa s) = store_id s) as Hida
      by (intros s; unfold fa; now destruct (bool_decide _)).
  assert (forall s, store_id (fb s) = store_id s) as Hidb
      by (intros s; unfold fb; now destruct (bool_decide _)).
  assert (map store_id (map fb (map fa rows)) = map store_id rows) as Hids.
  { rewrite !map_map. apply map_ext. intros s. now rewrite Hidb, Hida. }
  assert (forall id, id = a \/ id = b ->
            forall s, In s (map fb (map fa rows)) -> store_id s = id ->
                      store_databaseUrl s = DATABASE_URL w) as Hurls.
  { intros id Hid s Hs Hkey. rewrite map_map in Hs.
    apply in_map_iff in Hs as (s0 & <- & _).
    rewrite Hidb, Hida in Hkey. unfold fb, fa.
    destruct (decide (store_id s0 = a)) as [Ea|Na].
    - rewrite (bool_decide_eq_true_2 _ Ea). simpl.
      destruct (bool_decide (store_id s0 = b)); reflexivity.
    - rewrite (bool_decide_eq_false_2 _ Na).
      destruct Hid as [->| ->]; [congruence|].
      now rewrite (bool_decide_eq_true_2 _ Hkey). }
  assert (fst (getStoreDatabase a w2) = Resolved (DATABASE_URL w)) as Hgeta.
  { apply (getStoreDatabase_of_rows a w2 _ _ Hrows2); [now rewrite Hids|].
    apply Hurls. now left. }
  assert (fst (getStoreDatabase b w2) = Resolved (DATABASE_URL w)) as Hgetb.
  { apply (getStoreDatabase_of_rows b w2 _ _ Hrows2); [now rewrite Hids|].
    apply Hurls. now right. }
  split; [exact Hgeta|]. split; [exact Hgetb|].
  split; [unfold storeDatabase; now rewrite Hgeta, Hgetb|].
  intros data db Hstore Hdb Hc Hp. subst a.
  destruct (trackBehavior_written data w2 db Hdb Hc Hp)
    as (w3 & storeDb & db' & Hrun & Hget & Hstores & Hdbs & Hcb & _).
  rewrite Hgeta in Hget. injection Hget as <-.
  rewrite Hrun. simpl. exists db'. split.
  - unfold storeDatabase.
    rewrite (getStoreDatabase_fst_stores _ w3 w2 Hstores), Hgetb, Hdbs.
    apply lookup_insert_eq.
  - rewrite Hcb. now rewrite Hnow2, Hnow1.
Qed.

(** [createStoreDatabase] does not check that the store exists: for an
    id without a row in the stores table it resolves with the connection of
    the main database and changes no row, and the store is still not found
    afterwards. *)
Theorem createStoreDatabase_accepts_unknown_store (id : Z) (w : World) (rows : list Store) :
  mainStores w = Some rows ->
  ~ In id (map store_id rows) ->
  exists w',
    createStoreDatabase id w = (Resolved (DATABASE_URL w), w')
    /\ mainStores w' = mainStores w
    /\ databases w' = databases w
    /\ getStoreDatabase id w' = (Rejected (StoreNotFound id), w').
Proof.
  intros Hrows Hid.
  destruct (createStoreDatabase_run id w rows Hrows)
    as (w' & Hrun & Hrows' & _ & Hdb & _).
  assert (mainStores w' = Some rows) as Hsame.
  { rewrite Hrows'. f_equal. apply map_unchanged. intros s Hs.
    rewrite bool_decide_eq_false_2; [reflexivity|].
    intros E. apply Hid. rewrite <- E. now apply in_map. }
  exists w'. split; [exact Hrun|]. split; [congruence|]. split; [exact Hdb|].
  now apply (getStoreDatabase_no_row id w' rows).
Qed.

(** ** The connection cache and the health check *)

(** [getStoreDbByUrl] caches one connection per connection string:
    after the call the string is in the cache, which has grown by that
    string at most; a second call returns the same connection and leaves
    the world as it is; and the count that [getConnectionStats] reports is
    the number of connections it lists. *)
Theorem connection_is_cached_once (databaseUrl : string) (w : World) :
  let w' := snd (getStoreDbByUrl databaseUrl w) in
  fst (getStoreDbByUrl databaseUrl w) = Resolved databaseUrl
  /\ storeDbConnections w' = {[databaseUrl]} ∪ storeDbConnections w
  /\ getStoreDbByUrl databaseUrl w' = (Resolved databaseUrl, w')
  /\ (databaseUrl ∈ storeDbConnections w -> w' = w)
  /\ sameData w w'
  /\ (cs_storeDatabases_count (MultiDatabaseManager.getConnectionStats w')
      <= S (cs_storeDatabases_count (MultiDatabaseManager.getConnectionStats w)))%nat
  /\ cs_storeDatabases_count (MultiDatabaseManager.getConnectionStats w')
     = length (cs_storeDatabases_connections (MultiDatabaseManager.getConnectionStats w'))
  /\ In databaseUrl
        (cs_storeDatabases_connections (MultiDatabaseManager.getConnectionStats w')).
Proof.
  intros w'. unfold getStoreDbByUrl in *. simpl in w'.
  split; [reflexivity|].
  assert (storeDbConnections w' = {[databaseUrl]} ∪ storeDbConnections w) as Hcache.
  { unfold w'. case_bool_decide as Hin; simpl; [|reflexivity].
    symmetry. now apply subseteq_union_1_L, singleton_subseteq_l. }
  split; [exact Hcache|].
  assert (databaseUrl ∈ storeDbConnections w') as Hin'
      by (rewrite Hcache; now apply elem_of_union_l, elem_of_singleton_2).
  split; [now rewrite (bool_decide_eq_true_2 _ Hin')|].
  split; [intros Hin; unfold w'; now rewrite (bool_decide_eq_true_2 _ Hin)|].
  split; [unfold w'; case_bool_decide; repeat split|].
  unfold MultiDatabaseManager.getConnectionStats. simpl.
  split; [|split; [reflexivity|]].
  - rewrite Hcache.
    destruct (decide (databaseUrl ∈ storeDbConnections w)) as [Hin|Hout].
    + rewrite (subseteq_union_1_L {[databaseUrl]} (storeDbConnections w))
        by now apply singleton_subseteq_l.
      lia.
    + rewrite size_union by now apply disjoint_singleton_l.
      rewrite size_singleton. lia.
  - apply list_elem_of_In, elem_of_elements. exact Hin'.
Qed.

Lemma checkStores_run (entries : list string) (w : World) :
  exists w',
    MultiDatabaseManager.checkStores entries w
    = (Resolved (map (fun url => (url, match databases w !! url with
                                       | Some _ => true
                                       | None => false
                                       end)) entries), w')
    /\ sameData w w'
    /\ storeDbConnections w' = storeDbConnections w.
Proof.
  revert w. induction entries as [|url rest IH]; intros w.
  - exists w. split; [reflexivity|]. split; [apply sameData_refl|reflexivity].
  - simpl. unfold bind, try_catch. rewrite select_run. unfold Handle.
    destruct (databases w !! url) as [db|] eqn:Hlookup; simpl.
    + destruct (IH w) as (w' & -> & Hsame & Hcache).
      exists w'. split; [reflexivity|]. split; assumption.
    + set (w1 := withConsole _ w).
      destruct (IH w1) as (w' & -> & Hsame & Hcache).
      exists w'. split; [reflexivity|]. split; [|exact Hcache].
      eapply sameData_trans; [apply withConsole_sameData|exact Hsame].
Qed.

Lemma healthCheck_stores (main : bool) (w w0 : World) :
  sameData w w0 ->
  storeDbConnections w0 = storeDbConnections w ->
  exists results w',
    (let! stores := MultiDatabaseManager.checkStores (elements (storeDbConnections w0)) in
     ret {| hc_main := main; hc_stores := stores |}) w0
    = (Resolved results, w')
    /\ sameData w w'
    /\ storeDbConnections w' = storeDbConnections w
    /\ hc_main results = main
    /\ NoDup (map fst (hc_stores results))
    /\ length (hc_stores results) = size (storeDbConnections w)
    /\ forall url healthy,
         In (url, healthy) (hc_stores results)
         <-> url ∈ storeDbConnections w
             /\ healthy = match databases w !! url with
                          | Some _ => true
                          | None => false
                          end.
Proof.
  intros Hsame0 Hcache0. unfold bind.
  destruct (checkStores_run (elements (storeDbConnections w0)) w0)
    as (w' & -> & Hsame & Hcache).
  eexists _, w'. split; [reflexivity|]. simpl.
  split; [now apply sameData_trans with w0|].
  split; [congruence|]. split; [reflexivity|].
  rewrite Hcache0. destruct Hsame0 as (_ & _ & <- & _).
  split; [|split].
  - rewrite map_map. simpl. rewrite map_id. apply NoDup_ListNoDup, NoDup_elements.
  - now rewrite length_map.
  - intros url healthy. rewrite in_map_iff. split.
    + intros (url' & Heq & Hin). injection Heq as -> <-.
      split; [|reflexivity]. now apply elem_of_elements, list_elem_of_In.
    + intros [Hin ->]. exists url. split; [reflexivity|].
      now apply list_elem_of_In, elem_of_elements.
Qed.

(** [healthCheck] resolves in every state of the world and changes no
    data.  It reports the main database healthy exactly when it is
    reached, and one entry for each connection of the cache, healthy
    exactly when the database behind the connection string is reached. *)
Theorem healthCheck_reports_every_connection (w : World) :
  exists results w',
    MultiDatabaseManager.healthCheck w = (Resolved results, w')
    /\ sameData w w'
    /\ storeDbConnections w' = storeDbConnections w
    /\ hc_main results = match mainStores w with Some _ => true | None => false end
    /\ NoDup (map fst (hc_stores results))
    /\ length (hc_stores results)
       = cs_storeDatabases_count (MultiDatabaseManager.getConnectionStats w)
    /\ forall url healthy,
         In (url, healthy) (hc_stores results)
         <-> url ∈ storeDbConnections w
             /\ healthy = match databases w !! url with
                          | Some _ => true
                          | None => false
                          end.
Proof.
  unfold MultiDatabaseManager.healthCheck, MultiDatabaseManager.getConnectionStats.
  cbn [cs_storeDatabases_count].
  unfold bind at 1. unfold try_catch, bind at 1, selectMain.
  destruct (mainStores w) as [rows|] eqn:Hrows.
  - apply healthCheck_stores; [apply sameData_refl|reflexivity].
  - unfold bind at 1, consoleError, ret at 1.
    apply healthCheck_stores; [apply withConsole_sameData|reflexivity].
Qed.

(** The manager's [getStoreDb(storeId)] and the engine's
    [getStoreDatabase(storeId)] resolve every store alike: the same
    connection, the same error and the same effect on the cache. *)
Theorem manager_and_engine_resolve_alike (id : Z) (w : World) :
  MultiDatabaseManager.getStoreDb id w = getStoreDatabase id w.
Proof.
  unfold MultiDatabaseManager.getStoreDb, getStoreDatabase, bind, selectMain, getStore.
  destruct (mainStores w) as [rows|]; [|reflexivity].
  destruct (filter (fun s => bool_decide (store_id s = id)) rows) as [|store rest];
    reflexivity.
Qed.

(** ** The routes *)

(** POST /api/recommendations never rejects and never answers 500.
    Without a storeId (absent or 0) or a sessionId (absent or empty) it
    answers 400 and calls nothing; otherwise it answers 200 with the list
    [generateRecommendations] resolves with for the fields of the body.  No
    data changes either way. *)
Theorem recommendations_route_answers_400_or_200 (reqBody : RecommendationsRequestBody)
    (w : World) :
  exists response w',
    postRecommendations reqBody w = (Resolved response, w')
    /\ sameData w w'
    /\ match truthy (rrb_storeId reqBody), truthyString (rrb_sessionId reqBody) with
       | Some storeId, Some sessionId =>
           status response = 200%Z
           /\ exists recommendations,
                body response = RecommendationsBody recommendations
                /\ fst (generateRecommendations
                          {| storeId := storeId;
                             customerId := rrb_customerId reqBody;
                             sessionId := sessionId;
                             limit := rrb_limit reqBody;
                             excludeProductIds := rrb_excludeProductIds reqBody;
                             requestType := rrb_type reqBody |} w)
                   = Resolved recommendations
       | _, _ =>
           response = {| status := 400;
                         body := ErrorBody "storeId and sessionId are required" |}
           /\ w' = w
       end.
Proof.
  unfold postRecommendations, try_catch.
  destruct (truthy (rrb_storeId reqBody)) as [storeId|];
    [|eexists _, w; split; [reflexivity|]; split; [apply sameData_refl|now split]].
  destruct (truthyString (rrb_sessionId reqBody)) as [sessionId|];
    [|eexists _, w; split; [reflexivity|]; split; [apply sameData_refl|now split]].
  unfold bind.
  match goal with
  | |- context [generateRecommendations ?request w] =>
      destruct (generateRecommendations_run request w) as (w' & Hrun & Hsame);
      rewrite Hrun
  end.
  eexists _, w'. split; [reflexivity|]. split; [exact Hsame|].
  split; [reflexivity|]. eexists. split; reflexivity.
Qed.

Lemma trackBehavior_unreached (data : BehaviorData) (w : World) :
  storeDatabase (bd_storeId data) w = None ->
  exists w' error,
    trackBehavior data w = (Resolved tt, w')
    /\ mainStores w' = mainStores w
    /\ databases w' = databases w
    /\ console w' = ("Error tracking customer behavior:", error) :: console w.
Proof.
  unfold storeDatabase, trackBehavior, try_catch, bind.
  destruct (getStoreDatabase_run (bd_storeId data) w)
    as [(e & Hrun)|(storeDb & w1 & Hrun & (_ & Hstores & Hdb & Hnow) & Hconsole)];
    rewrite Hrun; simpl; intros Hnone.
  - eexists _, e. repeat split.
  - rewrite execute_run, <- Hdb, Hnone.
    eexists _, (ConnectionFailed storeDb). split; [reflexivity|]. simpl.
    repeat split; congruence.
Qed.

(** POST /api/track-behavior never rejects and never answers 500.
    Without a sessionId, a storeId or an action it answers 400 and writes
    nothing; otherwise it answers 200 with success: true, also when nothing
    was stored: when the store or its database is not reached, no database
    has changed and the answer is the same. *)
Theorem track_behavior_route_reports_success (reqBody : TrackBehaviorRequestBody)
    (w : World) :
  exists response w',
    postTrackBehavior reqBody w = (Resolved response, w')
    /\ mainStores w' = mainStores w
    /\ match truthyString (tbb_sessionId reqBody), truthy (tbb_storeId reqBody),
             tbb_action reqBody with
       | Some sessionId, Some storeId, Some action =>
           response = json SuccessBody
           /\ (storeDatabase storeId w = None -> databases w' = databases w)
       | _, _, _ =>
           response = {| status := 400;
                         body := ErrorBody "sessionId, storeId, and action are required" |}
           /\ w' = w
       end.
Proof.
  unfold postTrackBehavior, try_catch.
  destruct (truthyString (tbb_sessionId reqBody)) as [sessionId|];
    [|eexists _, w; split; [reflexivity|]; split; [reflexivity|now split]].
  destruct (truthy (tbb_storeId reqBody)) as [storeId|];
    [|eexists _, w; split; [reflexivity|]; split; [reflexivity|now split]].
  destruct (tbb_action reqBody) as [action|];
    [|eexists _, w; split; [reflexivity|]; split; [reflexivity|now split]].
  unfold bind.
  match goal with
  | |- context [trackBehavior ?data w] =>
      destruct (trackBehavior_frame data w) as (w' & Hrun & Hstores & _);
      pose proof (trackBehavior_unreached data w) as Hunreached;
      rewrite Hrun in *
  end.
  eexists _, w'. split; [reflexivity|]. split; [exact Hstores|].
  split; [reflexivity|]. intros Hnone.
  destruct (Hunreached Hnone) as (w1 & error & Heq & _ & Hdbs & _).
  injection Heq as <-. exact Hdbs.
Qed.

(** GET /api/recommendation-analytics/:storeId never rejects.  It
    answers 401 to a request that is not authenticated and 400 to a storeId
    that is not a number or is 0, calling nothing in both cases; 500 when
    the store cannot be resolved; and otherwise 200 with the rows of
    [getRecommendationAnalytics] over the given number of days, 30 when it
    is absent, not a number or 0. *)
Theorem analytics_route_status (isAuthenticated : bool) (store period : option Z)
    (w : World) :
  exists response w',
    getRecommendationAnalyticsRoute isAuthenticated store period w = (Resolved response, w')
    /\ databases w' = databases w
    /\ if isAuthenticated
       then match truthy store with
            | None =>
                response = {| status := 400; body := ErrorBody "Invalid store ID" |}
                /\ w' = w
            | Some storeId =>
                match getRecommendationAnalytics storeId
                        (Some (default 30%Z (truthy period))) w with
                | (Resolved analytics, _) => response = json (AnalyticsBody analytics)
                | (Rejected error, _) =>
                    response = {| status := 500;
                                  body := ErrorBody "Failed to get recommendation analytics" |}
                    /\ fst (getStoreDatabase storeId w) = Rejected error
                    /\ console w' = ("Error getting recommendation analytics:", error)
                                      :: console w
                end
            end
       else response = {| status := 401; body := MessageBody "Authentication required" |}
            /\ w' = w.
Proof.
  unfold getRecommendationAnalyticsRoute, requireAuth.
  destruct isAuthenticated; simpl;
    [|eexists _, w; split; [reflexivity|]; split; [reflexivity|now split]].
  unfold try_catch.
  destruct (truthy store) as [storeId|];
    [|eexists _, w; split; [reflexivity|]; split; [reflexivity|now split]].
  unfold bind.
  pose proof (getRecommendationAnalytics_run storeId
                (Some (default 30%Z (truthy period))) w) as Hrun.
  destruct (fst (getStoreDatabase storeId w)) as [storeDb|error] eqn:Hget.
  - destruct Hrun as (w' & error & -> & Hsame & _).
    eexists _, w'. split; [reflexivity|]. split; [symmetry; apply Hsame|reflexivity].
  - rewrite Hrun. eexists _, _. split; [reflexivity|]. simpl. repeat split.
Qed.

(** ** The properties above on the sample stores *)



(** The click of session-1 on the recommendation of product 10. *)
Lemma feedback_only_raises_flags_sample :
  exists w' db',
    trackRecommendationFeedback clickedFeedback (sampleWorld recommendedDb emptyStoreDb)
    = (Resolved tt, w')
    /\ databases w'
       = <["postgres://store-1" := db']> (databases (sampleWorld recommendedDb emptyStoreDb))
    /\ length (recommendations db') = 2%nat.
Proof.
  destruct (feedback_only_raises_flags clickedFeedback
              (sampleWorld recommendedDb emptyStoreDb) "postgres://store-1" recommendedDb)
    as (w' & db' & Hrun & Hdbs & Hlength & _).
  - reflexivity.
  - reflexivity.
  - exists w', db'. repeat split; assumption.
Defined.

(** The same click a day later. *)
Lemma feedback_repeated_keeps_flags_sample :
  exists w1 db1 w2 db2,
    trackRecommendationFeedback clickedFeedback (sampleWorld recommendedDb emptyStoreDb)
    = (Resolved tt, w1)
    /\ databases w1
       = <["postgres://store-1" := db1]> (databases (sampleWorld recommendedDb emptyStoreDb))
    /\ trackRecommendationFeedback clickedFeedback (withNow (days 11) w1) = (Resolved tt, w2)
    /\ databases w2 = <["postgres://store-1" := db2]> (databases w1)
    /\ length (recommendations db2) = length (recommendations db1).
Proof.
  destruct (feedback_repeated_keeps_flags clickedFeedback
              (sampleWorld recommendedDb emptyStoreDb) (days 11)
              "postgres://store-1" recommendedDb)
    as (w1 & db1 & w2 & db2 & H1 & H2 & H3 & H4 & H5 & _).
  - reflexivity.
  - reflexivity.
  - exists w1, db1, w2, db2. repeat split; assumption.
Defined.

(** Two results stored for session-1 of store 1. *)
Lemma recommendations_stored_all_or_none_sample :
  (exists w',
     storeRecommendations (sampleRequest 1 None hybrid) sampleResults
       (sampleWorld emptyStoreDb emptyStoreDb)
     = (Resolved tt, w'))
  /\ option_map
       (fun db => map (fun r => (rec_productId r, Qred (rec_score r), rec_shown r))
                      (recommendations db))
       (storeDatabase 1
          (snd (storeRecommendations (sampleRequest 1 None hybrid) sampleResults
                  (sampleWorld emptyStoreDb emptyStoreDb))))
     = Some [ (10%Z, 39 # 100, false); (11%Z, 3333 # 10000, false) ].
Proof.
  split.
  - destruct (recommendations_stored_all_or_none (sampleRequest 1 None hybrid) sampleResults
                (sampleWorld emptyStoreDb emptyStoreDb) "postgres://store-1" emptyStoreDb)
      as (w' & Hrun & _).
    + reflexivity.
    + reflexivity.
    + exists w'. exact Hrun.
  - vm_compute. reflexivity.
Defined.

(** Store 3 is not registered. *)
Lemma unresolved_store_rejects_or_is_swallowed_sample :
  getRecommendationAnalytics 3 None (sampleWorld emptyStoreDb emptyStoreDb)
  = (Rejected (StoreNotFound 3), sampleWorld emptyStoreDb emptyStoreDb)
  /\ trackBehavior (behaviorData 3 view (Some 10%Z)) (sampleWorld emptyStoreDb emptyStoreDb)
     = (Resolved tt,
        withConsole [("Error tracking customer behavior:", StoreNotFound 3)]
          (sampleWorld emptyStoreDb emptyStoreDb)).
Proof.
  destruct (unresolved_store_rejects_or_is_swallowed 3
              (sampleWorld emptyStoreDb emptyStoreDb) (StoreNotFound 3))
    as (_ & _ & _ & Hanalytics & Htrack & _).
  - reflexivity.
  - split; [apply Hanalytics|]. now apply Htrack.
Defined.

(** Stores 1 and 2 after [createStoreDatabase]. *)
Lemma provisioned_stores_share_one_database_sample :
  fst (getStoreDatabase 1 provisionedWorld) = Resolved "postgres://main"
  /\ fst (getStoreDatabase 2 provisionedWorld) = Resolved "postgres://main"
  /\ storeDatabase 1 provisionedWorld = storeDatabase 2 provisionedWorld.
Proof.
  destruct (provisioned_stores_share_one_database 1 2 unprovisionedWorld
              [ {| store_id := 1; store_databaseUrl := "" |};
                {| store_id := 2; store_databaseUrl := "" |} ])
    as (H1 & H2 & H3 & _).
  - reflexivity.
  - simpl. tauto.
  - simpl. tauto.
  - repeat split; assumption.
Defined.

(** Store 3 is provisioned without being registered. *)
Lemma createStoreDatabase_accepts_unknown_store_sample :
  exists w',
    createStoreDatabase 3 unprovisionedWorld = (Resolved "postgres://main", w')
    /\ mainStores w' = mainStores unprovisionedWorld
    /\ databases w' = databases unprovisionedWorld
    /\ getStoreDatabase 3 w' = (Rejected (StoreNotFound 3), w').
Proof.
  apply (createStoreDatabase_accepts_unknown_store 3 unprovisionedWorld
           [ {| store_id := 1; store_databaseUrl := "" |};
             {| store_id := 2; store_databaseUrl := "" |} ]).
  - reflexivity.
  - simpl. intros [H|[H|[]]]; discriminate.
Defined.

(** ** Collaborative filtering: what every entry is *)

Lemma similarCustomersQuery_row (c : Z) (db : StoreDb) (now : Z) (item : option Z * Z) :
  In item (similarCustomersQuery c db now) ->
  (1 < snd item)%Z
  /\ snd item
     = countRows (filter (fun r => bool_decide (cb_customerId r = fst item))
                    (filter (fun r => bool_decide (cb_action r = purchase)
                                      && sqlIn (cb_productId r) (purchasedProductIds c db))
                            (customerBehavior db))).
Proof.
  unfold similarCustomersQuery. intros H.
  apply firstn_In in H. apply (proj1 (orderByDesc_In _ _ _)) in H.
  apply filter_In in H as [H Hcount]. apply Z.ltb_lt in Hcount.
  split; [exact Hcount|].
  apply in_map_iff in H as (g & <- & Hg). simpl.
  apply groupBy_In in Hg as [_ ->]. reflexivity.
Qed.

(** Every product of a collaborative request was purchased by another
    customer who has at least two purchase events on products the
    requesting customer purchased, and was not purchased by the requesting
    customer. *)
Theorem collaborative_recommends_what_similar_customers_bought
    (request : RecommendationRequest) (w : World) :
  exists results w',
    generateRecommendations (withType collaborative request) w = (Resolved results, w')
    /\ forall db c,
         storeDatabase (storeId request) w = Some db ->
         truthy (customerId request) = Some c ->
         forall r, In r results ->
           type r = "collaborative"
           /\ ~ In (Some (productId r)) (purchasedProductIds c db)
           /\ exists d e,
                d <> c
                /\ (2 <= length (sharedPurchases c d db))%nat
                /\ In e (customerBehavior db)
                /\ cb_customerId e = Some d
                /\ cb_action e = purchase
                /\ cb_productId e = Some (productId r).
Proof.
  destruct (generateRecommendations_run (withType collaborative request) w)
    as (w' & Hrun & _).
  eexists _, w'. split; [exact Hrun|]. clear Hrun. simpl storeId.
  intros db c Hdb Hc r Hr. rewrite Hdb in Hr.
  change (recommendationsOn (withType collaborative request) db (now w))
    with (collaborativeOn request db (now w)) in Hr.
  unfold collaborativeOn in Hr. rewrite Hc in Hr.
  destruct (length _ =? 0)%nat; [destruct Hr|].
  destruct (exclusionAccepted _); [|destruct Hr].
  apply in_map_iff in Hr as (item & <- & Hitem). simpl.
  apply filter_In in Hitem as [Hitem Htruthy].
  split; [reflexivity|].
  unfold recommendedProductsQuery in Hitem.
  apply firstn_In in Hitem. apply (proj1 (orderByDesc_In _ _ _)) in Hitem.
  apply in_map_iff in Hitem as (g & <- & Hg). simpl in *.
  apply groupBy_filter_row in Hg as (e & He & Hf & Hkey).
  apply andb_prop in Hf as [Hf _]. apply andb_prop in Hf as [Hf Hnot].
  apply andb_prop in Hf as [Hpurchase Hsimilar].
  apply bool_decide_eq_true_1 in Hpurchase.
  rewrite (isTruthy_Some _ Htruthy) in Hkey.
  rewrite Hkey in Hnot. apply sqlNotIn_spec in Hnot as (_ & _ & Hnot).
  split; [exact Hnot|].
  unfold inArray in Hsimilar. apply sqlIn_spec in Hsimilar as [Hsome Hin].
  destruct (cb_customerId e) as [d|] eqn:Hd; [|congruence].
  apply filter_In in Hin as [Hin Hother].
  apply negb_true_iff, bool_decide_eq_false_1 in Hother.
  apply in_map_iff in Hin as (similar & Hfst & Hin).
  apply similarCustomersQuery_row in Hin as [Hcount Hrows].
  exists d, e. split; [congruence|]. split.
  - unfold sharedPurchases. rewrite <- Hfst. unfold countRows in Hrows. lia.
  - repeat split; assumption.
Qed.

(** A request changes no data, so a request repeated with no write in
    between resolves with the same list. *)
Theorem recommendations_are_repeatable (request : RecommendationRequest) (w : World) :
  sameData w (snd (generateRecommendations request w))
  /\ fst (generateRecommendations request (snd (generateRecommendations request w)))
     = fst (generateRecommendations request w).
Proof.
  destruct (generateRecommendations_run request w) as (w1 & Hrun & Hsame).
  rewrite Hrun. simpl. split; [exact Hsame|].
  destruct (generateRecommendations_run request w1) as (w2 & -> & _). simpl.
  unfold storeDatabase.
  rewrite <- (getStoreDatabase_fst_sameData _ w w1 Hsame).
  destruct Hsame as (_ & _ & <- & <-). reflexivity.
Qed.

(** ** Statements the server rejects *)

Lemma exclusionAccepted_several (excludeProductIds : list Z) :
  (2 <= length excludeProductIds)%nat -> exclusionAccepted excludeProductIds = false.
Proof. destruct excludeProductIds as [|x [|y t]]; simpl; [lia..|reflexivity]. Qed.

Lemma viewedProductsQuery_length (c : option Z) (s : string) (db : StoreDb) (now : Z) :
  length (viewedProductsQuery c s db now)
  = Nat.min 5 (length (filter (viewedBy c s) (productViews db))).
Proof.
  unfold viewedProductsQuery. rewrite length_map, length_firstn.
  unfold orderByDesc. now rewrite stableSort_length.
Qed.

Lemma recommendationsOn_several_exclusions (request : RecommendationRequest)
    (db : StoreDb) (now : Z) :
  (2 <= length (default [] (excludeProductIds request)))%nat ->
  recommendationsOn request db now = [].
Proof.
  intros Hseveral. apply exclusionAccepted_several in Hseveral.
  assert (forall n, collaborativeOn (withLimit n request) db now = []) as Hc.
  { intros n. unfold collaborativeOn. simpl excludeProductIds. rewrite Hseveral.
    destruct (truthy _); [|reflexivity]. now destruct (length _ =? 0)%nat. }
  assert (forall n, contentBasedOn (withLimit n request) db now = []) as Hcb.
  { intros n. unfold contentBasedOn. simpl excludeProductIds. rewrite Hseveral.
    rewrite andb_false_r. now repeat destruct (length _ =? 0)%nat. }
  assert (forall n, trendingOn (withLimit n request) db now = []) as Ht.
  { intros n. unfold trendingOn. simpl excludeProductIds. now rewrite Hseveral. }
  assert (forall n, recentlyViewedOn (withLimit n request) db now = []) as Hrv.
  { intros n. unfold recentlyViewedOn. simpl excludeProductIds. now rewrite Hseveral. }
  unfold recommendationsOn. destruct (default hybrid (requestType request)).
  - unfold collaborativeOn. rewrite Hseveral.
    destruct (truthy _); [|reflexivity]. now destruct (length _ =? 0)%nat.
  - unfold contentBasedOn. rewrite Hseveral, andb_false_r.
    now repeat destruct (length _ =? 0)%nat.
  - unfold trendingOn. now rewrite Hseveral.
  - unfold recentlyViewedOn. now rewrite Hseveral.
  - rewrite hybridOn_unfold. unfold hybridMerged, hybridInputs.
    rewrite Hc, Hcb, Ht, Hrv. simpl. apply firstn_nil.
Qed.

(** A request that names two or more excluded products resolves with no
    entry, whatever its type and whatever the tables hold: the ids are
    joined into one text, [excludeProductIds.join(',')], which is bound as
    one value and is not an integer; the statement is rejected, each
    strategy catches the error and returns the empty list.  No data
    changes. *)
Theorem several_exclusions_return_nothing (request : RecommendationRequest) (w : World) :
  (2 <= length (default [] (excludeProductIds request)))%nat ->
  exists w',
    generateRecommendations request w = (Resolved [], w') /\ sameData w w'.
Proof.
  intros Hseveral.
  destruct (generateRecommendations_run request w) as (w' & Hrun & Hsame).
  exists w'. split; [|exact Hsame]. rewrite Hrun. f_equal. f_equal.
  destruct (storeDatabase (storeId request) w) as [db|]; [|reflexivity].
  now apply recommendationsOn_several_exclusions.
Qed.

(** The rejection is caught inside the strategy and printed: a trending
    request with two or more excluded products, on a database that is
    reached, resolves with no entry and adds one line to the console. *)
Theorem rejected_exclusion_is_printed (request : RecommendationRequest) (w : World)
    (db : StoreDb) :
  storeDatabase (storeId request) w = Some db ->
  (2 <= length (default [] (excludeProductIds request)))%nat ->
  exists w',
    generateRecommendations (withType trending request) w = (Resolved [], w')
    /\ console w'
       = ("Error in trending recommendations:", StatementRejected invalidInteger)
         :: console w.
Proof.
  intros Hdb Hseveral. apply exclusionAccepted_several in Hseveral.
  apply storeDatabase_Some in Hdb as (storeDb & Hget & Hlookup).
  unfold generateRecommendations, generateTrendingRecommendations, try_catch, bind.
  simpl storeId. simpl excludeProductIds.
  destruct (getStoreDatabase_run (storeId request) w)
    as [(e & Hrun)|(storeDb' & w1 & Hrun & (_ & _ & Hdbs & _) & Hconsole)];
    rewrite Hrun in Hget; simpl in Hget; [discriminate|].
  injection Hget as ->. simpl. rewrite Hrun. simpl.
  rewrite selectIf_run, <- Hdbs, Hlookup, Hseveral. simpl.
  eexists. split; [reflexivity|]. simpl. now rewrite Hconsole.
Qed.

(** A content-based request of a customer (or, without a customer, a
    session) with two or more rows in product_views resolves with no entry:
    the viewed ids are joined into one text,
    [viewedProductIds.join(',')], and the statement that looks for similar
    products is rejected, or no category is found before it. *)
Theorem content_based_needs_single_view (request : RecommendationRequest) (w : World)
    (db : StoreDb) :
  storeDatabase (storeId request) w = Some db ->
  (2 <= length (filter (viewedBy (customerId request) (sessionId request))
                       (productViews db)))%nat ->
  exists w',
    generateRecommendations (withType content_based request) w = (Resolved [], w')
    /\ sameData w w'.
Proof.
  intros Hdb Hviews.
  destruct (generateRecommendations_run (withType content_based request) w)
    as (w' & Hrun & Hsame).
  exists w'. split; [|exact Hsame]. rewrite Hrun. f_equal. f_equal.
  simpl storeId. rewrite Hdb.
  change (recommendationsOn (withType content_based request) db (now w))
    with (contentBasedOn request db (now w)).
  unfold contentBasedOn.
  assert (joinedIsInteger (viewedProductsQuery (customerId request) (sessionId request)
                             db (now w)) = false) as ->.
  { unfold joinedIsInteger. rewrite viewedProductsQuery_length.
    apply Nat.eqb_neq. lia. }
  now repeat destruct (length _ =? 0)%nat.
Qed.

(** On the sample store: a hybrid request of customer 1 that excludes
    products 12 and 13. *)
Lemma several_exclusions_return_nothing_sample :
  exists w',
    generateRecommendations
      {| storeId := 1; customerId := Some 1%Z; sessionId := "session-1";
         limit := None; excludeProductIds := Some [12; 13]%Z; requestType := None |}
      (sampleWorld busyDb emptyStoreDb) = (Resolved [], w')
    /\ sameData (sampleWorld busyDb emptyStoreDb) w'.
Proof.
  apply (several_exclusions_return_nothing
           {| storeId := 1; customerId := Some 1%Z; sessionId := "session-1";
              limit := None; excludeProductIds := Some [12; 13]%Z; requestType := None |}
           (sampleWorld busyDb emptyStoreDb)).
  simpl. lia.
Defined.

Lemma rejected_exclusion_is_printed_sample :
  exists w',
    generateRecommendations
      (withType trending
         {| storeId := 1; customerId := Some 1%Z; sessionId := "session-1";
            limit := None; excludeProductIds := Some [10; 13]%Z; requestType := None |})
      (sampleWorld busyDb emptyStoreDb) = (Resolved [], w')
    /\ console w'
       = ("Error in trending recommendations:", StatementRejected invalidInteger)
         :: console (sampleWorld busyDb emptyStoreDb).
Proof.
  apply (rejected_exclusion_is_printed
           {| storeId := 1; customerId := Some 1%Z; sessionId := "session-1";
              limit := None; excludeProductIds := Some [10; 13]%Z; requestType := None |}
           (sampleWorld busyDb emptyStoreDb) busyDb).
  - reflexivity.
  - simpl. lia.
Defined.

(** Customer 1 of the sample store viewed products 13 and 10. *)
Lemma content_based_needs_single_view_sample :
  exists w',
    generateRecommendations
      (withType content_based (sampleRequest 1 (Some 1%Z) hybrid))
      (sampleWorld busyDb emptyStoreDb) = (Resolved [], w')
    /\ sameData (sampleWorld busyDb emptyStoreDb) w'.
Proof.
  apply (content_based_needs_single_view (sampleRequest 1 (Some 1%Z) hybrid)
           (sampleWorld busyDb emptyStoreDb) busyDb).
  - reflexivity.
  - simpl. lia.
Defined.

(** ** The cart of the storefront *)

Lemma getCartItemCount_from (cart : list CartItem) (start : Z) :
  fold_left (fun total item => total + ci_quantity item)%Z cart start
  = (start + getCartItemCount cart)%Z.
Proof.
  unfold getCartItemCount. revert start.
  induction cart as [|item cart IH]; intros start; simpl; [lia|].
  rewrite (IH (start + ci_quantity item)%Z), (IH (0 + ci_quantity item)%Z). lia.
Qed.

Lemma getCartItemCount_cons (item : CartItem) (cart : list CartItem) :
  getCartItemCount (item :: cart) = (ci_quantity item + getCartItemCount cart)%Z.
Proof. unfold getCartItemCount at 1. simpl. apply getCartItemCount_from. Qed.

Lemma getCartItemCount_app (cart cart' : list CartItem) :
  getCartItemCount (cart ++ cart') = (getCartItemCount cart + getCartItemCount cart')%Z.
Proof.
  induction cart as [|item cart IH]; simpl; [reflexivity|].
  rewrite !getCartItemCount_cons, IH. lia.
Qed.

Lemma find_none_not_in (productId : Z) (cart : list CartItem) :
  find (fun item => bool_decide (ci_productId item = productId)) cart = None
  <-> ~ In productId (map ci_productId cart).
Proof.
  induction cart as [|item cart IH]; simpl; [tauto|].
  destruct (decide (ci_productId item = productId)) as [Heq|Hne].
  - rewrite (bool_decide_eq_true_2 _ Heq). split; [discriminate|]. intros H. elim H. now left.
  - rewrite (bool_decide_eq_false_2 _ Hne). rewrite IH. tauto.
Qed.

Lemma find_append {A : Type} (f : A -> bool) (l l' : list A) :
  find f (l ++ l') = match find f l with
                     | Some x => Some x
                     | None => find f l'
                     end.
Proof.
  induction l as [|x l IH]; simpl; [reflexivity|]. now destruct (f x).
Qed.

(** What [addToCart] does to a cart without repeated products. *)
Lemma addToCart_step (productId : Z) (cart : list CartItem) :
  NoDup (map ci_productId cart) ->
  NoDup (map ci_productId (addToCart productId cart))
  /\ getCartItemCount (addToCart productId cart) = (getCartItemCount cart + 1)%Z
  /\ (forall p, quantityOf p (addToCart productId cart)
                = if bool_decide (p = productId)
                  then (quantityOf p cart + 1)%Z else quantityOf p cart)
  /\ (forall p, In p (map ci_productId (addToCart productId cart))
                <-> p = productId \/ In p (map ci_productId cart)).
Proof.
  intros Hnd. unfold addToCart.
  destruct (find _ cart) as [existing|] eqn:Hfind.
  - assert (In productId (map ci_productId cart)) as Hin.
    { destruct (in_dec Z.eq_dec productId (map ci_productId cart)) as [H|H]; [exact H|].
      apply find_none_not_in in H. congruence. }
    clear Hfind existing.
    set (bump := fun item => if bool_decide (ci_productId item = productId)
                             then {| ci_productId := ci_productId item;
                                     ci_quantity := ci_quantity item + 1 |}
                             else item).
    assert (forall item, ci_productId (bump item) = ci_productId item) as Hid
        by (intros item; unfold bump; now destruct (bool_decide _)).
    assert (map ci_productId (map bump cart) = map ci_productId cart) as Hids.
    { rewrite map_map. apply map_ext. exact Hid. }
    split; [now rewrite Hids|]. split; [|split].
    + clear Hids. induction cart as [|item cart IH]; [destruct Hin|].
      simpl map. rewrite !getCartItemCount_cons.
      simpl in Hnd. apply NoDup_cons_iff in Hnd as [Hout Hnd].
      destruct (decide (ci_productId item = productId)) as [Heq|Hne].
      * unfold bump at 1. rewrite (bool_decide_eq_true_2 _ Heq). simpl.
        rewrite map_unchanged; [lia|].
        intros other Hother. unfold bump. rewrite bool_decide_eq_false_2; [reflexivity|].
        intros E. apply Hout. rewrite Heq, <- E. now apply in_map.
      * unfold bump at 1. rewrite (bool_decide_eq_false_2 _ Hne).
        destruct Hin as [E|Hin]; [congruence|]. rewrite (IH Hnd Hin). lia.
    + intros p. unfold quantityOf.
      assert (find (fun item => bool_decide (ci_productId item = p)) (map bump cart)
              = option_map bump (find (fun item => bool_decide (ci_productId item = p)) cart))
        as ->.
      { clear Hids Hin Hnd. induction cart as [|item cart IH]; simpl; [reflexivity|].
        rewrite Hid. destruct (bool_decide (ci_productId item = p)); [reflexivity|exact IH]. }
      destruct (find _ cart) as [item|] eqn:Hp; simpl.
      * apply find_some in Hp as [_ Hkey]. apply bool_decide_eq_true_1 in Hkey.
        unfold bump. rewrite Hkey.
        destruct (bool_decide (p = productId)); reflexivity.
      * apply find_none_not_in in Hp.
        rewrite bool_decide_eq_false_2; [reflexivity|]. intros ->. now apply Hp.
    + intros p. rewrite Hids. split; [tauto|]. intros [->|H]; assumption.
  - apply find_none_not_in in Hfind.
    rewrite map_app. simpl. split; [|split; [|split]].
    + apply NoDup_app; [exact Hnd|repeat constructor; intros []|].
      intros p Hp [<-|[]]. now apply Hfind.
    + rewrite getCartItemCount_app. unfold getCartItemCount at 2. simpl. lia.
    + intros p. unfold quantityOf. rewrite find_append.
      destruct (find _ cart) as [item|] eqn:Hp.
      * apply find_some in Hp as [Hitem Hkey]. apply bool_decide_eq_true_1 in Hkey.
        rewrite bool_decide_eq_false_2; [reflexivity|].
        intros ->. apply Hfind. rewrite <- Hkey. now apply in_map.
      * simpl. destruct (decide (productId = p)) as [->|Hne].
        -- now rewrite !bool_decide_eq_true_2 by reflexivity.
        -- rewrite (bool_decide_eq_false_2 _ Hne).
           rewrite bool_decide_eq_false_2 by congruence. reflexivity.
    + intros p. rewrite in_app_iff. simpl. intuition congruence.
Qed.

(** The cart of the storefront counts every addition.  After any
    sequence of [addToCart] from the empty cart, no product has two items,
    every item has a quantity of at least 1, the quantity of a product is
    the number of times it was added, the products of the cart are those
    added, and [getCartItemCount] is the length of the sequence. *)
Theorem cart_counts_every_addition (added : list Z) :
  let cart := cartAfter added in
  NoDup (map ci_productId cart)
  /\ (forall item, In item cart -> (1 <= ci_quantity item)%Z)
  /\ (forall p, quantityOf p cart = Z.of_nat (count_occ Z.eq_dec added p))
  /\ (forall p, In p (map ci_productId cart) <-> In p added)
  /\ getCartItemCount cart = Z.of_nat (length added).
Proof.
  intros cart.
  assert (forall start,
             NoDup (map ci_productId start) ->
             let final := fold_left (fun cart productId => addToCart productId cart)
                            added start in
             NoDup (map ci_productId final)
             /\ (forall p, quantityOf p final
                           = (quantityOf p start + Z.of_nat (count_occ Z.eq_dec added p))%Z)
             /\ (forall p, In p (map ci_productId final)
                           <-> In p (map ci_productId start) \/ In p added)
             /\ getCartItemCount final
                = (getCartItemCount start + Z.of_nat (length added))%Z) as Hfold.
  { induction added as [|a added IH]; intros start Hnd; cbv zeta.
    - simpl. split; [exact Hnd|]. split; [intros; lia|]. split; [tauto|lia].
    - simpl fold_left.
      destruct (addToCart_step a start Hnd) as (Hnd' & Hcount & Hquantity & Hproducts).
      destruct (IH (addToCart a start) Hnd') as (H1 & H2 & H3 & H4).
      split; [exact H1|]. split; [|split].
      + intros p. rewrite H2, Hquantity. simpl count_occ.
        destruct (Z.eq_dec a p) as [->|Hne].
        * rewrite bool_decide_eq_true_2 by reflexivity. lia.
        * rewrite bool_decide_eq_false_2 by congruence. lia.
      + intros p. rewrite H3, Hproducts. simpl. intuition congruence.
      + rewrite H4, Hcount. simpl length. lia. }
  destruct (Hfold [] (NoDup_nil _)) as (Hnd & Hquantity & Hproducts & Hcount).
  fold (cartAfter added) in Hnd, Hquantity, Hproducts, Hcount. fold cart in Hnd, Hquantity, Hproducts, Hcount.
  split; [exact Hnd|]. split; [|split; [|split]].
  - intros item Hitem.
    assert (quantityOf (ci_productId item) cart = ci_quantity item) as Hq.
    { clear Hquantity Hproducts Hcount. unfold quantityOf.
      induction cart as [|first rest IH]; [destruct Hitem|]. simpl.
      simpl in Hnd. apply NoDup_cons_iff in Hnd as [Hout Hnd].
      destruct Hitem as [->|Hitem].
      - now rewrite bool_decide_eq_true_2 by reflexivity.
      - rewrite bool_decide_eq_false_2; [now apply IH|].
        intros E. apply Hout. rewrite E. now apply in_map. }
    rewrite Hquantity in Hq.
    change (quantityOf (ci_productId item) []) with 0%Z in Hq.
    assert (In (ci_productId item) added) as Hadded.
    { destruct (proj1 (Hproducts (ci_productId item))) as [[]|H]; [|exact H].
      now apply in_map. }
    apply (count_occ_In Z.eq_dec) in Hadded. lia.
  - intros p. rewrite Hquantity. reflexivity.
  - intros p. rewrite Hproducts. simpl. tauto.
  - rewrite Hcount. reflexivity.
Qed.

(** ** Whose views the recently-viewed strategy reads *)

(** A recently-viewed request lists each product at most once, and
    only products the requesting customer (or, without a customer, the
    requesting session) viewed within the last 30 days: no entry comes
    from the views of another customer or session. *)
Theorem recently_viewed_lists_own_views (request : RecommendationRequest) (w : World) :
  exists results w',
    generateRecommendations (withType recently_viewed request) w = (Resolved results, w')
    /\ NoDup (map productId results)
    /\ forall db, storeDatabase (storeId request) w = Some db ->
       forall r, In r results ->
         exists v,
           In v (productViews db)
           /\ pv_productId v = productId r
           /\ (now w - days 30 < pv_timestamp v)%Z
           /\ match truthy (customerId request) with
              | Some c => pv_customerId v = Some c
              | None => pv_sessionId v = sessionId request
              end.
Proof.
  destruct (generateRecommendations_run (withType recently_viewed request) w)
    as (w' & Hrun & _).
  eexists _, w'. split; [exact Hrun|]. clear Hrun. simpl storeId.
  destruct (storeDatabase (storeId request) w) as [db|];
    [|split; [constructor|intros; discriminate]].
  change (recommendationsOn (withType recently_viewed request) db (now w))
    with (recentlyViewedOn request db (now w)).
  split; [apply (recentlyViewedOn_output request db (now w))|].
  intros db' Hdb' r Hr. injection Hdb' as <-.
  unfold recentlyViewedOn in Hr.
  destruct (exclusionAccepted _); [|destruct Hr].
  apply mapWithIndex_In in Hr as (item & i & Hitem & ->). simpl.
  apply recentlyViewedQuery_row in Hitem as (v & Hv & Hrecent & Hkey).
  exists v. split; [exact Hv|]. split; [exact Hkey|].
  unfold recentView in Hrecent.
  apply andb_prop in Hrecent as [Hrecent _]. apply andb_prop in Hrecent as [Hby Hwindow].
  split; [now apply Z.ltb_lt|].
  unfold viewedBy in Hby.
  destruct (truthy (customerId request)); now apply bool_decide_eq_true_1 in Hby.
Qed.

(** ** The logs are append-only *)

Lemma appendsOnly_refl (w w' : World) :
  mainStores w' = mainStores w -> now w' = now w -> databases w' = databases w ->
  appendsOnly w w'.
Proof.
  intros Hstores Hnow Hdbs. split; [exact Hstores|]. split; [exact Hnow|].
  intros url. rewrite Hdbs. destruct (databases w !! url) as [db|]; [|reflexivity].
  exists db. repeat split; exists []; now rewrite app_nil_r.
Qed.

Lemma appendsOnly_insert (w w' : World) (storeDb : string) (db db' : StoreDb)
    (behavior : list CustomerBehaviorRow) (views : list ProductViewRow) :
  mainStores w' = mainStores w -> now w' = now w ->
  databases w !! storeDb = Some db ->
  databases w' = <[storeDb := db']> (databases w) ->
  customers db' = customers db ->
  products db' = products db ->
  recommendations db' = recommendations db ->
  productCategoryMappings db' = productCategoryMappings db ->
  customerBehavior db' = customerBehavior db ++ behavior ->
  productViews db' = productViews db ++ views ->
  appendsOnly w w'.
Proof.
  intros Hstores Hnow Hlookup Hdbs Hc Hp Hr Hm Hcb Hpv.
  split; [exact Hstores|]. split; [exact Hnow|].
  intros url. rewrite Hdbs. destruct (decide (storeDb = url)) as [<-|Hne].
  - rewrite Hlookup, lookup_insert_eq. exists db'. repeat split; eauto.
  - rewrite lookup_insert_ne by exact Hne.
    destruct (databases w !! url) as [other|]; [|reflexivity].
    exists other. repeat split; exists []; now rewrite app_nil_r.
Qed.

Lemma trackBehavior_run (data : BehaviorData) (w : World) :
  exists w',
    trackBehavior data w = (Resolved tt, w')
    /\ mainStores w' = mainStores w
    /\ now w' = now w
    /\ ((exists storeDb db,
           databases w !! storeDb = Some db
           /\ databases w'
              = <[storeDb := {| customers := customers db; products := products db;
                                customerBehavior :=
                                  customerBehavior db ++ [behaviorRow data (now w)];
                                productViews := productViews db;
                                recommendations := recommendations db;
                                productCategoryMappings := productCategoryMappings db |}]>
                  (databases w))
        \/ databases w' = databases w).
Proof.
  unfold trackBehavior, try_catch, bind.
  destruct (getStoreDatabase_run (bd_storeId data) w)
    as [(e & Hrun)|(storeDb & w1 & Hrun & (_ & Hstores & Hdb & Hnow) & Hconsole)];
    rewrite Hrun.
  - eexists. split; [reflexivity|]. simpl. repeat split. now right.
  - rewrite execute_run, <- Hdb, <- Hnow.
    destruct (databases w !! storeDb) as [db|] eqn:Hlookup.
    + unfold insertCustomerBehavior.
      destruct (_ && _) eqn:Hfk.
      * eexists. split; [reflexivity|]. simpl.
        split; [congruence|]. split; [congruence|].
        left. exists storeDb, db. split; [exact Hlookup|reflexivity].
      * eexists. split; [reflexivity|]. simpl.
        split; [congruence|]. split; [congruence|]. right. congruence.
    + eexists. split; [reflexivity|]. simpl.
      split; [congruence|]. split; [congruence|]. right. congruence.
Qed.

(** The two logs are append-only.  Whatever [trackBehavior] or
    [trackProductView] is called with, in whatever state: no database comes
    into being or goes away, every database keeps its customers, products,
    recommendations and category mappings, and the rows that
    customer_behavior and product_views had are still there, unchanged and
    in their order, before any row the call added. *)
Theorem tracking_only_appends (w : World) :
  (forall data, appendsOnly w (snd (trackBehavior data w)))
  /\ (forall data, appendsOnly w (snd (trackProductView data w))).
Proof.
  split; intros data.
  - destruct (trackBehavior_run data w) as (w' & -> & Hstores & Hnow & Hcase). simpl.
    destruct Hcase as [(storeDb & db & Hlookup & Hdbs)|Hdbs].
    + eapply (appendsOnly_insert w w' storeDb db _ [behaviorRow data (now w)] []);
        try eassumption; try reflexivity.
      simpl. now rewrite app_nil_r.
    + now apply appendsOnly_refl.
  - destruct (trackProductView_run data w) as (w' & -> & Hstores & Hnow & Hcase). simpl.
    destruct Hcase as [(storeDb & db & db' & _ & Hlookup & Hpv & Hcb & Hc & Hp & Hr & Hm
                        & Hdbs & _)
                      |(error & _ & Hdbs & _)].
    + now apply (appendsOnly_insert w w' storeDb db db'
                   [behaviorRow (viewBehavior data) (now w)]
                   [productViewRow data (now w)]).
    + now apply appendsOnly_refl.
Qed.
